(** * mcp-postmessage: protocol version logic and the inverted demo pages

    A shallow embedding of

    - [src/protocol/logic.ts]: [isVersionInRange] and [negotiateVersion],
      with the JavaScript primitives they rest on ([String.prototype.split],
      [parseInt(_, 10)], [x || 0], the relational operators on numbers,
      [Array.prototype.join] and [Number::toString]);
    - [src/demo/inverted/patient-dashboard.ts]: the patient data store with
      [updateBloodPressure] / [updateBloodSugar], and the fallback timer of
      [initializeCopilot];
    - the inner page's [DOMContentLoaded] handler (ai-copilot).

    Numbers are modelled as the doubles they are: [parseInt] rounds, and
    [Number::toString] prints the shortest decimal that reads back, in
    exponential form from [10^21] on.  Definitions come first, theorems
    afterwards. *)

From Stdlib Require Import ZArith List Bool Lia Ascii String.
Import ListNotations.

Local Open Scope string_scope.
Local Open Scope Z_scope.

(* ================================================================== *)
(** ** JavaScript values and primitives                                *)
(* ================================================================== *)

Module JS.

(** The numbers that reach [logic.ts] are results of [parseInt]: integral
    doubles, the two zeros, the infinities and NaN.  [Fin z] is the finite
    double whose value is the integer [z] ([Fin 0] is [+0]). *)
Inductive number : Type :=
| Fin (z : Z)
| NegZero
| PosInf
| NegInf
| NaN.

Definition number_eqb (a b : number) : bool :=
  match a, b with
  | Fin x, Fin y => x =? y
  | NegZero, NegZero | PosInf, PosInf | NegInf, NegInf | NaN, NaN => true
  | _, _ => false
  end.

(** ToBoolean on numbers: [+0], [-0] and NaN are falsy. *)
Definition truthy (x : number) : bool :=
  match x with
  | Fin z => negb (z =? 0)
  | NegZero | NaN => false
  | PosInf | NegInf => true
  end.

(** [x || 0] on a number. *)
Definition or_zero (x : number) : number :=
  if truthy x then x else Fin 0.

(** [arr[i] || 0]: an index past the end reads [undefined], which is falsy. *)
Definition index_or_zero (arr : list number) (i : nat) : number :=
  match nth_error arr i with
  | Some x => or_zero x
  | None => Fin 0
  end.

(** [a < b] on numbers (IEEE 754: false as soon as a NaN is involved, the
    two zeros are equal). *)
Definition lt (a b : number) : bool :=
  match a, b with
  | NaN, _ | _, NaN => false
  | NegInf, NegInf => false
  | NegInf, _ => true
  | _, NegInf => false
  | PosInf, _ => false
  | _, PosInf => true
  | Fin x, Fin y => x <? y
  | Fin x, NegZero => x <? 0
  | NegZero, Fin y => 0 <? y
  | NegZero, NegZero => false
  end.

(** [a > b]. *)
Definition gt (a b : number) : bool := lt b a.

(** *** Rounding an integer to a double

    [to_double z] is the Number value of the non-zero mathematical integer
    [z]: round to nearest, ties to even, on a 53-bit significand; a result
    of magnitude [2^1024] or more is an infinity. *)
Definition round_magnitude (m : Z) : Z :=
  if m <? 2 ^ 53 then m
  else
    let sh := Z.log2 m - 52 in
    let q := Z.shiftr m sh in
    let r := m mod 2 ^ sh in
    let half := 2 ^ (sh - 1) in
    let up := (half <? r) || ((r =? half) && Z.odd q) in
    Z.shiftl (if up then q + 1 else q) sh.

Definition to_double (z : Z) : number :=
  let v := round_magnitude (Z.abs z) in
  if 2 ^ 1024 <=? v then (if z <? 0 then NegInf else PosInf)
  else Fin (Z.sgn z * v).

(** *** Characters and strings (code units below 256) *)

Definition is_digit (c : ascii) : bool :=
  let n := N_of_ascii c in ((48 <=? n) && (n <=? 57))%N.

Definition digit_value (c : ascii) : Z := Z.of_N (N_of_ascii c) - 48.

Definition digit_char (d : Z) : ascii := ascii_of_N (Z.to_N (d + 48)).

(** WhiteSpace and LineTerminator code units: TAB, LF, VT, FF, CR, SP, NBSP. *)
Definition is_white_space (c : ascii) : bool :=
  let n := N_of_ascii c in
  ((9 <=? n) && (n <=? 13) || (n =? 32) || (n =? 160))%N.

Fixpoint trim_start (s : string) : string :=
  match s with
  | String c rest => if is_white_space c then trim_start rest else s
  | EmptyString => EmptyString
  end.

(** The longest prefix made of decimal digits. *)
Fixpoint leading_digits (s : string) : string :=
  match s with
  | String c rest =>
    if is_digit c then String c (leading_digits rest) else EmptyString
  | EmptyString => EmptyString
  end.

(** The integer written by a string of decimal digits, most significant
    digit first. *)
Fixpoint digits_value (acc : Z) (ds : string) : Z :=
  match ds with
  | String c rest => digits_value (10 * acc + digit_value c) rest
  | EmptyString => acc
  end.

Definition is_negative (t : string) : bool :=
  match t with
  | String "-" _ => true
  | _ => false
  end.

Definition strip_sign (t : string) : string :=
  match t with
  | String "-" rest | String "+" rest => rest
  | _ => t
  end.

(** [parseInt(s, 10)]: skip leading white space, read an optional sign, then
    the longest run of decimal digits; no digit gives NaN, the value zero
    keeps the sign, anything else is rounded to a double.  The digits are
    read exactly (the standard lets an engine replace the digits past the
    twentieth by zeros). *)
Definition parseInt10 (s : string) : number :=
  let t := trim_start s in
  let negative := is_negative t in
  let ds := leading_digits (strip_sign t) in
  match ds with
  | EmptyString => NaN
  | _ =>
    let mathInt := digits_value 0 ds in
    if mathInt =? 0 then (if negative then NegZero else Fin 0)
    else to_double (if negative then - mathInt else mathInt)
  end.

(** [s.split(sep)] for a one-character separator: never empty, [""] splits
    into [[""]]. *)
Fixpoint split (sep : ascii) (s : string) : list string :=
  match s with
  | EmptyString => [EmptyString]
  | String c rest =>
    if Ascii.eqb c sep then EmptyString :: split sep rest
    else
      match split sep rest with
      | piece :: pieces => String c piece :: pieces
      | [] => [String c EmptyString]
      end
  end.

(** [strs.join(sep)] on strings. *)
Fixpoint join (sep : string) (strs : list string) : string :=
  match strs with
  | [] => EmptyString
  | [s] => s
  | s :: rest => s ++ sep ++ join sep rest
  end.

(** *** Number::toString (radix 10) on integral doubles *)

(** Decimal digits of a non-negative integer, prepended to [acc]. *)
Fixpoint decimal_digits (fuel : nat) (n : Z) (acc : string) : string :=
  let acc' := String (digit_char (n mod 10)) acc in
  match fuel with
  | O => acc'
  | S fuel' => if n <? 10 then acc' else decimal_digits fuel' (n / 10) acc'
  end.

Definition decimal (n : Z) : string :=
  decimal_digits (Z.to_nat (Z.log2 n)) n EmptyString.

(** Number of decimal digits of a positive integer. *)
Definition digit_count (n : Z) : nat := String.length (decimal n).

(** The decimal with the fewest significant digits that still denotes the
    double [z > 0]: for [k = 1, 2, ...] significant digits ([j] trailing
    zeros), the neighbours [lo <= z < hi] of [z] on the grid [10^j] are
    tried; among those that round to [z] the nearer one wins, the even one
    on a tie.  With no trailing zero left the answer is [z] itself. *)
Fixpoint shortest_decimal (z : Z) (j : nat) : Z :=
  let u := 10 ^ Z.of_nat j in
  let lo := (z / u) * u in
  let hi := lo + u in
  let ok c := number_eqb (to_double c) (Fin z) in
  match ok lo, ok hi with
  | true, true =>
    if z - lo <? hi - z then lo
    else if hi - z <? z - lo then hi
    else if Z.even (z / u) then lo else hi
  | true, false => lo
  | false, true => hi
  | false, false =>
    match j with
    | O => z
    | S j' => shortest_decimal z j'
    end
  end.

Fixpoint strip_trailing_zeros_rev (rev_digits : list ascii) : list ascii :=
  match rev_digits with
  | "0"%char :: rest => strip_trailing_zeros_rev rest
  | _ => rev_digits
  end.

(** Significant digits of a decimal string: trailing zeros removed. *)
Definition significant (ds : string) : string :=
  string_of_list_ascii
    (rev (strip_trailing_zeros_rev (rev (list_ascii_of_string ds)))).

(** Exponential form, used from [10^21] on: [d], or [d.ddd], then [e+n]. *)
Definition exponential (d : Z) : string :=
  let ds := decimal d in
  let e := decimal (Z.of_nat (String.length ds) - 1) in
  match significant ds with
  | String c EmptyString => String c ("e+" ++ e)
  | String c more => String c ("." ++ more ++ "e+" ++ e)
  | EmptyString => EmptyString
  end.

Definition positive_to_string (z : Z) : string :=
  let d := shortest_decimal z (digit_count z - 1) in
  if d <? 10 ^ 21 then decimal d else exponential d.

Definition to_string (x : number) : string :=
  match x with
  | NaN => "NaN"
  | NegZero => "0"
  | PosInf => "Infinity"
  | NegInf => "-Infinity"
  | Fin z =>
    if z =? 0 then "0"
    else if z <? 0 then "-" ++ positive_to_string (- z)
    else positive_to_string z
  end.

(** A finite number below [10^21] in magnitude: Number::toString writes it
    in positional notation. *)
Definition plain (x : number) : bool :=
  match x with
  | Fin z => Z.abs z <? 10 ^ 21
  | _ => false
  end.

(** The numbers that are doubles: rounding leaves them alone. *)
Definition representable (x : number) : bool :=
  match x with
  | Fin z => number_eqb (to_double z) (Fin z)
  | _ => true
  end.

Fixpoint no_dot (s : string) : bool :=
  match s with
  | EmptyString => true
  | String c rest => negb (Ascii.eqb c ".") && no_dot rest
  end.

(** [nums.join(sep)] on numbers: each element goes through ToString. *)
Definition join_numbers (sep : string) (nums : list number) : string :=
  join sep (map to_string nums).

(** *** Completions, [try]/[catch] and the console

    A computation either returns or throws, and leaves the lines it wrote
    with [console.error]. *)
Inductive completion (A : Type) : Type :=
| Returns (a : A)
| Throws (error : string).
Arguments Returns {A} a.
Arguments Throws {A} error.

Definition js (A : Type) : Type := (completion A * list string)%type.

Definition ret {A} (a : A) : js A := (Returns a, []).

Definition throw {A} (error : string) : js A := (Throws error, []).

Definition bind {A B} (m : js A) (k : A -> js B) : js B :=
  match m with
  | (Returns a, out) => let '(r, out') := k a in (r, (out ++ out')%list)
  | (Throws e, out) => (Throws e, out)
  end.

Definition console_error (line : string) : js unit := (Returns tt, [line]).

Definition try_catch {A} (body : js A) (handler : string -> js A) : js A :=
  match body with
  | (Returns a, out) => (Returns a, out)
  | (Throws e, out) => let '(r, out') := handler e in (r, (out ++ out')%list)
  end.

(** *** Run-time arguments

    TypeScript declares the version parameters as strings; a caller from
    plain JavaScript may still pass any primitive. *)
Inductive value : Type :=
| Str (s : string)
| Num (n : number)
| Bool (b : bool)
| Undefined
| Null.

Coercion Str : string >-> value.

Definition is_string (v : value) : bool :=
  match v with
  | Str _ => true
  | _ => false
  end.

(** [v.split(sep)] as the engine runs it: on a string it splits; reading
    [split] off [undefined] or [null] throws a TypeError, and so does
    calling it on a number or a boolean, which have no such method. *)
Definition split_method (v : value) (sep : ascii) : js (list string) :=
  match v with
  | Str s => ret (split sep s)
  | Undefined | Null => throw "TypeError: cannot read property 'split'"
  | Num _ | Bool _ => throw "TypeError: v.split is not a function"
  end.

End JS.

Notation "x <- m ;; k" := (JS.bind m (fun x => k))
  (at level 61, m at next level, right associativity).

(* ================================================================== *)
(** ** src/protocol/logic.ts                                           *)
(* ================================================================== *)

Module Logic.
Import JS.

(** [parseVersion] and [compareVersions] are declared twice in the source,
    once inside [isVersionInRange] and once inside [negotiateVersion], with
    the same text; one definition stands for both copies. *)

(** [v.split(".").map((part) => parseInt(part, 10) || 0)] *)
Definition parseVersion (v : string) : list number :=
  map (fun part => or_zero (parseInt10 part)) (split "." v).

(** The [for] loop of [compareVersions], entered at index [i] with
    [remaining = maxLength - i] iterations to go. *)
Fixpoint compare_loop (v1 v2 : list number) (i remaining : nat) : Z :=
  match remaining with
  | O => 0
  | S remaining' =>
    let part1 := index_or_zero v1 i in
    let part2 := index_or_zero v2 i in
    if lt part1 part2 then -1
    else if gt part1 part2 then 1
    else compare_loop v1 v2 (S i) remaining'
  end.

Definition compareVersions (v1 v2 : list number) : Z :=
  let maxLength := Nat.max (List.length v1) (List.length v2) in
  compare_loop v1 v2 0 maxLength.

(** [parts.join(".")] *)
Definition versionToString (parts : list number) : string :=
  join_numbers "." parts.

(** A call of [parseVersion] at run time: the same body, [split] being a
    method call on whatever was passed. *)
Definition parseVersion_call (v : value) : js (list number) :=
  parts <- split_method v "." ;;
  ret (map (fun part => or_zero (parseInt10 part)) parts).

(** The [try] block of [isVersionInRange]. *)
Definition isVersionInRange_try (version minVersion maxVersion : value)
  : js bool :=
  versionParts <- parseVersion_call version ;;
  minVersionParts <- parseVersion_call minVersion ;;
  maxVersionParts <- parseVersion_call maxVersion ;;
  let isAboveMin := compareVersions versionParts minVersionParts >=? 0 in
  let isBelowMax := compareVersions versionParts maxVersionParts <=? 0 in
  ret (isAboveMin && isBelowMax).

Definition isVersionInRange_catch (error : string) : js bool :=
  _ <- console_error ("Error parsing version strings: " ++ error) ;;
  ret false.

Definition isVersionInRange (version minVersion maxVersion : value)
  : js bool :=
  try_catch (isVersionInRange_try version minVersion maxVersion)
            isVersionInRange_catch.

(** "Find the overlap: max of mins to min of maxes". *)
Definition overlapMin (clientMin serverMin : list number) : list number :=
  if compareVersions clientMin serverMin >=? 0 then clientMin else serverMin.

Definition overlapMax (clientMax serverMax : list number) : list number :=
  if compareVersions clientMax serverMax <=? 0 then clientMax else serverMax.

(** The [try] block of [negotiateVersion]; [None] is [null]. *)
Definition negotiateVersion_try
  (clientMinVersion clientMaxVersion serverMinVersion serverMaxVersion : value)
  : js (option string) :=
  clientMin <- parseVersion_call clientMinVersion ;;
  clientMax <- parseVersion_call clientMaxVersion ;;
  serverMin <- parseVersion_call serverMinVersion ;;
  serverMax <- parseVersion_call serverMaxVersion ;;
  let oMin := overlapMin clientMin serverMin in
  let oMax := overlapMax clientMax serverMax in
  if compareVersions oMin oMax <=? 0 then ret (Some (versionToString oMax))
  else ret None.

Definition negotiateVersion_catch (error : string) : js (option string) :=
  _ <- console_error ("Error negotiating versions: " ++ error) ;;
  ret None.

Definition negotiateVersion
  (clientMinVersion clientMaxVersion serverMinVersion serverMaxVersion : value)
  : js (option string) :=
  try_catch
    (negotiateVersion_try clientMinVersion clientMaxVersion
                          serverMinVersion serverMaxVersion)
    negotiateVersion_catch.

(** *** The comparator as the documentation words it

    Both versions are padded with zeros to a common length and compared
    lexicographically, left to right. *)
Definition pad (n : nat) (v : list number) : list number :=
  (v ++ repeat (Fin 0) (n - List.length v))%list.

Fixpoint lexicographic (a b : list number) : Z :=
  match a, b with
  | x :: a', y :: b' =>
    if lt x y then -1 else if lt y x then 1 else lexicographic a' b'
  | _, _ => 0
  end.

Definition padded_compare (v1 v2 : list number) : Z :=
  let n := Nat.max (List.length v1) (List.length v2) in
  lexicographic (pad n v1) (pad n v2).

(** A component is clean when [|| 0] leaves it alone: it is neither NaN nor
    [-0].  Parsed versions are made of clean components. *)
Definition clean (x : number) : bool :=
  match x with
  | NaN | NegZero => false
  | _ => true
  end.

(** A numeral in the strict sense of the documentation: a non-empty run of
    decimal digits. *)
Fixpoint all_digits (s : string) : bool :=
  match s with
  | EmptyString => true
  | String c rest => is_digit c && all_digits rest
  end.

Definition valid_numeral (s : string) : bool :=
  match s with
  | EmptyString => false
  | _ => all_digits s
  end.

Definition starts_with_digit (s : string) : bool :=
  match s with
  | String c _ => is_digit c
  | EmptyString => false
  end.

(** The reading of the documentation under which every component that is
    not a numeral counts as zero. *)
Definition strict_component (part : string) : number :=
  if valid_numeral part then or_zero (parseInt10 part) else Fin 0.

(** [v <= w] and [v >= w] under the comparator. *)
Definition version_le (v w : list number) : Prop := compareVersions v w <= 0.
Definition version_ge (v w : list number) : Prop := compareVersions v w >= 0.

End Logic.

(* ================================================================== *)
(** ** src/demo/inverted/patient-dashboard.ts: the patient data store  *)
(* ================================================================== *)

Module Dashboard.

Inductive Severity : Type := Mild | Moderate | Severe.

Record Allergy : Type := {
  allergy_name : string;
  severity : Severity
}.

Record Medication : Type := {
  medication_name : string;
  dosage : string;
  frequency : string;
  prescribedDate : string
}.

(** A [<li>] of the medical history list: its class and the icon, title and
    time its markup shows. *)
Record HistoryItem : Type := {
  className : string;
  item_icon : string;
  item_title : string;
  item_time : string
}.

(** A DOM element, as far as the dashboard touches it. *)
Record Element : Type := {
  textContent : string;
  childNodes : list HistoryItem
}.

(** The document: [getElementById] is a lookup, [null] is [None]. *)
Definition Document : Type := string -> option Element.

Definition getElementById (doc : Document) (id : string) : option Element :=
  doc id.

Definition setElement (doc : Document) (id : string) (e : Element)
  : Document :=
  fun id' => if String.eqb id' id then Some e else doc id'.

Section Store.

(** The type of JavaScript numbers carried by the store, and how a template
    literal renders one. *)
Variable num : Type.
Variable render : num -> string.

Record BloodPressure : Type := {
  systolic : num;
  diastolic : num
}.

Record PatientData : Type := {
  name : string;
  patientId : string;
  dob : string;
  age : num;
  bloodPressure : BloodPressure;
  bloodSugar : num;
  lastVisit : string;
  totalVisits : num;
  nextAppointment : string;
  allergies : list Allergy;
  medications : list Medication
}.

(** The module state: the [patientData] store, the page and the console. *)
Record page : Type := {
  patientData : PatientData;
  document : Document;
  console : list string
}.

Definition console_log (line : string) (st : page) : page :=
  {| patientData := patientData st;
     document := document st;
     console := (console st ++ [line])%list |}.

Definition addMedicalHistoryEntry (icon title time : string) (st : page)
  : page :=
  match getElementById (document st) "medical-history" with
  | Some historyList =>
    let newEntry :=
      {| className := "activity-item"; item_icon := icon;
         item_title := title; item_time := time |} in
    let historyList' :=
      {| textContent := textContent historyList;
         childNodes := newEntry :: childNodes historyList |} in
    console_log ("Medical history entry added: " ++ title ++ " - " ++ time)
      {| patientData := patientData st;
         document := setElement (document st) "medical-history" historyList';
         console := console st |}
  | None => st
  end.

Definition set_bloodPressure (bp : BloodPressure) (d : PatientData)
  : PatientData :=
  {| name := name d; patientId := patientId d; dob := dob d; age := age d;
     bloodPressure := bp;
     bloodSugar := bloodSugar d; lastVisit := lastVisit d;
     totalVisits := totalVisits d; nextAppointment := nextAppointment d;
     allergies := allergies d; medications := medications d |}.

Definition set_bloodSugar (value : num) (d : PatientData) : PatientData :=
  {| name := name d; patientId := patientId d; dob := dob d; age := age d;
     bloodPressure := bloodPressure d;
     bloodSugar := value; lastVisit := lastVisit d;
     totalVisits := totalVisits d; nextAppointment := nextAppointment d;
     allergies := allergies d; medications := medications d |}.

Definition updateBloodPressure (systolic diastolic : num) (st : page)
  : page :=
  match getElementById (document st) "last-bp" with
  | Some bpElement =>
    let text := render systolic ++ "/" ++ render diastolic in
    let bpElement' :=
      {| textContent := text; childNodes := childNodes bpElement |} in
    let st1 :=
      console_log ("Blood pressure updated to: " ++ text ++ " mmHg")
        {| patientData := patientData st;
           document := setElement (document st) "last-bp" bpElement';
           console := console st |} in
    let st2 :=
      {| patientData :=
           set_bloodPressure
             {| systolic := systolic; diastolic := diastolic |}
             (patientData st1);
         document := document st1;
         console := console st1 |} in
    addMedicalHistoryEntry "🩺" "Blood Pressure Check" "Today"
                           st2
  | None => st
  end.

Definition updateBloodSugar (value : num) (st : page) : page :=
  match getElementById (document st) "last-sugar" with
  | Some sugarElement =>
    let sugarElement' :=
      {| textContent := render value;
         childNodes := childNodes sugarElement |} in
    let st1 :=
      console_log ("Blood sugar updated to: " ++ render value ++ " mg/dL")
        {| patientData := patientData st;
           document := setElement (document st) "last-sugar" sugarElement';
           console := console st |} in
    let st2 :=
      {| patientData := set_bloodSugar value (patientData st1);
         document := document st1;
         console := console st1 |} in
    addMedicalHistoryEntry "🩸" "Blood Sugar Test" "Today" st2
  | None => st
  end.

(** The history items shown by the page. *)
Definition history (st : page) : list HistoryItem :=
  match getElementById (document st) "medical-history" with
  | Some historyList => childNodes historyList
  | None => []
  end.

End Store.

Arguments systolic {num} _.
Arguments diastolic {num} _.
Arguments name {num} _.
Arguments patientId {num} _.
Arguments dob {num} _.
Arguments age {num} _.
Arguments bloodPressure {num} _.
Arguments bloodSugar {num} _.
Arguments lastVisit {num} _.
Arguments totalVisits {num} _.
Arguments nextAppointment {num} _.
Arguments allergies {num} _.
Arguments medications {num} _.
Arguments patientData {num} _.
Arguments document {num} _.
Arguments console {num} _.
Arguments history {num} _.

(** The store as the module initialises it. *)
Definition initialPatientData : PatientData JS.number :=
  {| name := "John Peterson";
     patientId := "PT-2024-001";
     dob := "March 15, 1985";
     age := JS.Fin 40;
     bloodPressure := {| systolic := JS.Fin 120; diastolic := JS.Fin 80 |};
     bloodSugar := JS.Fin 95;
     lastVisit := "Jan 15, 2025";
     totalVisits := JS.Fin 12;
     nextAppointment := "Feb 10, 2025";
     allergies :=
       [ {| allergy_name := "Penicillin"; severity := Severe |};
         {| allergy_name := "Shellfish"; severity := Moderate |} ];
     medications :=
       [ {| medication_name := "Lisinopril"; dosage := "10mg";
            frequency := "Daily"; prescribedDate := "Jan 1, 2025" |};
         {| medication_name := "Metformin"; dosage := "500mg";
            frequency := "Twice daily"; prescribedDate := "Dec 15, 2024" |} ]
  |}.

(** A page holding the vital-sign cells and the history list. *)
Definition dashboardDocument : Document :=
  fun id =>
    if String.eqb id "last-bp" then
      Some {| textContent := "120/80"; childNodes := [] |}
    else if String.eqb id "last-sugar" then
      Some {| textContent := "95"; childNodes := [] |}
    else if String.eqb id "medical-history" then
      Some {| textContent := ""; childNodes := [] |}
    else None.

(** A page on which none of the dashboard's elements exists. *)
Definition emptyDocument : Document := fun _ => None.

End Dashboard.

(* ================================================================== *)
(** ** patient-dashboard.ts: [initializeCopilot], fallback timer and   *)
(**    iframe load listener                                            *)
(* ================================================================== *)

Module OuterPage.

(** A timer handle: armed, cancelled by [clearTimeout], or already run. *)
Inductive timer : Type := Pending | Cleared | Elapsed.

(** What [DashboardUI] shows. *)
Inductive view : Type := Loading | Connected | Disconnected.

(** The callbacks of [initializeCopilot] that may run. *)
Inductive callback : Type :=
| FallbackCallback      (* the 5000 ms [setTimeout] callback *)
| LoadHandler           (* the iframe's "load" listener *)
| CompletionHandler     (* the tail of [initializeWithTimeout] *)
| CatchHandler.         (* the [catch] block *)

Record state : Type := {
  fallbackTimeout : timer;
  loadListener : bool;         (* the "load" listener is registered *)
  ui : view
}.

(** What the event loop may deliver once [initializeCopilot] has run up to
    its first [await]. *)
Inductive event : Type :=
| FallbackElapses            (* 5000 ms have passed *)
| IframeLoad                 (* the iframe fires "load" *)
| InitializationCompletes    (* [initializeWithTimeout] runs to its end *)
| InitializationRejects.     (* the raced promise rejects *)

Definition clearTimeout (t : timer) : timer :=
  match t with
  | Pending => Cleared
  | other => other
  end.

(** The state after the synchronous part of [initializeCopilot]:
    [ui.showLoading()], the fallback timer armed, the load listener added. *)
Definition initializeCopilot : state :=
  {| fallbackTimeout := Pending; loadListener := true; ui := Loading |}.

(** One turn of the event loop: the new state and the callback that ran. *)
Definition dispatch (s : state) (e : event) : state * list callback :=
  match e with
  | FallbackElapses =>
    match fallbackTimeout s with
    | Pending =>
      (* the timer callback: [ui.showConnected()] *)
      ({| fallbackTimeout := Elapsed; loadListener := loadListener s;
          ui := Connected |}, [FallbackCallback])
    | _ => (s, [])
    end
  | IframeLoad =>
    if loadListener s then
      (* [clearTimeout(fallbackTimeout); ui.showConnected()] *)
      ({| fallbackTimeout := clearTimeout (fallbackTimeout s);
          loadListener := loadListener s; ui := Connected |}, [LoadHandler])
    else (s, [])
  | InitializationCompletes =>
    (* [ui.showConnected()] *)
    ({| fallbackTimeout := fallbackTimeout s; loadListener := loadListener s;
        ui := Connected |}, [CompletionHandler])
  | InitializationRejects =>
    (* [clearTimeout(fallbackTimeout); ...; ui.showError()] *)
    ({| fallbackTimeout := clearTimeout (fallbackTimeout s);
        loadListener := loadListener s; ui := Disconnected |}, [CatchHandler])
  end.

Fixpoint run (s : state) (events : list event) : state * list callback :=
  match events with
  | [] => (s, [])
  | e :: rest =>
    let '(s1, ran1) := dispatch s e in
    let '(s2, ran2) := run s1 rest in
    (s2, (ran1 ++ ran2)%list)
  end.

Definition state_after (s : state) (events : list event) : state :=
  fst (run s events).

(** The callbacks run, in order, while [events] are delivered from [s]. *)
Definition callbacks (s : state) (events : list event) : list callback :=
  snd (run s events).

Definition callback_eqb (a b : callback) : bool :=
  match a, b with
  | FallbackCallback, FallbackCallback | LoadHandler, LoadHandler
  | CompletionHandler, CompletionHandler | CatchHandler, CatchHandler => true
  | _, _ => false
  end.

Definition ran (c : callback) (l : list callback) : bool :=
  existsb (callback_eqb c) l.

End OuterPage.

(* ================================================================== *)
(** ** ai-copilot: the inner page's [DOMContentLoaded] handler         *)
(* ================================================================== *)

Module InnerPage.

(** How an awaited promise ends. *)
Inductive settlement : Type := Resolves | Rejects | NeverSettles.

(** The page's surroundings, which the handler cannot choose. *)
Record environment : Type := {
  embedded : bool;                 (* [window.parent !== window] *)
  constructorThrows : bool;        (* [new CopilotApp()] throws *)
  hasApiKey : bool;                (* [getOpenAIApiKey()] finds a key *)
  prepareToConnect : settlement;   (* [transport.prepareToConnect()] *)
  clientConnect : settlement;      (* [client.connect(transport)] *)
  discoverTools : settlement
}.

Inductive effect : Type :=
| ConsoleLog (line : string)
| ConsoleError (line : string)
| AddMessageListener
| PostToParent (type message targetOrigin : string)
| NewCopilotApp
| ShowConnecting
| Delay (ms : Z)
| NewOpenAI
| NewInnerControl
| NewInnerFrameTransport (minProtocolVersion maxProtocolVersion : string)
| PrepareToConnect
| NewClient
| ClientConnect
| DiscoverTools
| ShowConnected
| ShowConnectedWithOpenAI
| AddMessage (kind : string)
| ShowInitError.

(** The effects that belong to the transport handshake. *)
Definition is_handshake (e : effect) : bool :=
  match e with
  | PrepareToConnect | ClientConnect => true
  | _ => false
  end.

Definition initialize_catch : list effect :=
  [ ConsoleError "[AI-COPILOT] Failed to initialize:";
    ShowConnected; AddMessage "system"; AddMessage "error" ].

(** What follows an awaited promise: the continuation, the [catch] block, or
    nothing at all when the promise stays pending. *)
Definition await (s : settlement) (continuation : list effect)
  : list effect :=
  match s with
  | Resolves => continuation
  | Rejects => initialize_catch
  | NeverSettles => []
  end.

(** [CopilotApp.initialize()] *)
Definition initialize (env : environment) : list effect :=
  [ ConsoleLog "[AI-COPILOT] Initializing..."; ShowConnecting; Delay 500 ]
  ++ (if hasApiKey env
      then [ ConsoleLog "[AI-COPILOT] OpenAI API key found, initializing client...";
             NewOpenAI;
             ConsoleLog "[AI-COPILOT] OpenAI client initialized" ]
      else [ ConsoleLog "[AI-COPILOT] No OpenAI API key provided, falling back to rule-based responses" ])
  ++ [ ConsoleLog "[AI-COPILOT] Creating window control..."; NewInnerControl;
       ConsoleLog "[AI-COPILOT] Creating transport...";
       NewInnerFrameTransport "1.0" "1.0";
       ConsoleLog "[AI-COPILOT] Preparing to connect..."; PrepareToConnect ]
  ++ await (prepareToConnect env)
       ([ ConsoleLog "[AI-COPILOT] Creating MCP client..."; NewClient;
          ConsoleLog "[AI-COPILOT] Connecting client to transport...";
          ClientConnect ]
        ++ await (clientConnect env)
             ([ ConsoleLog "[AI-COPILOT] Discovering tools..."; DiscoverTools ]
              ++ await (discoverTools env)
                   [ (if hasApiKey env then ShowConnectedWithOpenAI
                      else ShowConnected);
                     AddMessage "system";
                     ConsoleLog "[AI-COPILOT] Successfully connected to parent dashboard" ]))%list.

(** The ready signal: [{type: "copilot-ready", message: ...}] posted with
    target origin ["*"]. *)
Definition readySignal : effect :=
  PostToParent "copilot-ready" "AI Copilot iframe is ready" "*".

(** The listener registered for [DOMContentLoaded]. *)
Definition onDOMContentLoaded (env : environment) : list effect :=
  [ ConsoleLog "[AI-COPILOT] Page loaded, creating application...";
    ConsoleLog "[AI-COPILOT] DOM elements check:";
    AddMessageListener ]
  ++ (if embedded env
      then [ ConsoleLog "[AI-COPILOT] Sending ready signal to parent";
             readySignal ]
      else [])
  ++ (if constructorThrows env
      then [ ConsoleError "[AI-COPILOT] Failed to initialize application:";
             ShowInitError ]
      else NewCopilotApp :: initialize env
             ++ match prepareToConnect env, clientConnect env,
                      discoverTools env with
                | NeverSettles, _, _ => []
                | Resolves, NeverSettles, _ => []
                | Resolves, Resolves, NeverSettles => []
                | _, _, _ =>
                  [ ConsoleLog "[AI-COPILOT] Application initialized successfully" ]
                end)%list.

(** What the handler does before it posts the ready signal. *)
Definition before_ready_signal : list effect :=
  [ ConsoleLog "[AI-COPILOT] Page loaded, creating application...";
    ConsoleLog "[AI-COPILOT] DOM elements check:";
    AddMessageListener;
    ConsoleLog "[AI-COPILOT] Sending ready signal to parent" ].

End InnerPage.

(* ================================================================== *)
(** ** patient-dashboard.ts: the other data management functions       *)
(* ================================================================== *)

Module DashboardPage.
Import Dashboard.

Definition quote : string := String (ascii_of_nat 34) EmptyString.

Definition severity_name (s : Severity) : string :=
  match s with
  | Mild => "Mild"
  | Moderate => "Moderate"
  | Severe => "Severe"
  end.

(** [document.querySelector]: the document is asked by selector as it is
    asked by id; the three elements the dashboard finds by selector are
    taken to be other elements than those it finds by id. *)
Definition querySelector (doc : Document) (selector : string)
  : option Element :=
  doc selector.

(** [element.textContent = text]: the text replaces every child. *)
Definition setTextContent (text : string) (e : Element) : Element :=
  {| textContent := text; childNodes := [] |}.

(** [n[0]] on a string, [undefined] on the empty one; [join] prints
    [undefined] as nothing. *)
Definition first_character (word : string) : string :=
  match word with
  | String c _ => String c EmptyString
  | EmptyString => EmptyString
  end.

Section Functions.

Variable num : Type.
Variable render : num -> string.
(** [String.prototype.toUpperCase], which leaves the Latin-1 range. *)
Variable toUpperCase : string -> string.

(** The module state of [Dashboard], with the element properties that
    [Element] does not carry: the markup last assigned to the [innerHTML] of
    the two rendered lists (what the browser parses out of it is not
    modelled), and the [style.display] of the medications section. *)
Record screen : Type := {
  page_of : page num;
  allergyItemsHTML : string;
  medicationsListHTML : string;
  medicationsSectionDisplay : string
}.

Definition on_page (f : page num -> page num) (sc : screen) : screen :=
  {| page_of := f (page_of sc);
     allergyItemsHTML := allergyItemsHTML sc;
     medicationsListHTML := medicationsListHTML sc;
     medicationsSectionDisplay := medicationsSectionDisplay sc |}.

Definition with_store (d : PatientData num) (st : page num) : page num :=
  {| patientData := d; document := document st;
     console := console st |}.

Definition with_element (id : string) (e : Element) (st : page num)
  : page num :=
  {| patientData := patientData st;
     document := setElement (document st) id e;
     console := console st |}.

Definition set_lastVisit (date : string) (d : PatientData num)
  : PatientData num :=
  {| name := name d; patientId := patientId d; dob := dob d;
     age := age d; bloodPressure := bloodPressure d;
     bloodSugar := bloodSugar d;
     lastVisit := date;
     totalVisits := totalVisits d;
     nextAppointment := nextAppointment d;
     allergies := allergies d; medications := medications d |}.

Definition set_totalVisits (count : num) (d : PatientData num)
  : PatientData num :=
  {| name := name d; patientId := patientId d; dob := dob d;
     age := age d; bloodPressure := bloodPressure d;
     bloodSugar := bloodSugar d; lastVisit := lastVisit d;
     totalVisits := count;
     nextAppointment := nextAppointment d;
     allergies := allergies d; medications := medications d |}.

Definition set_nextAppointment (date : string) (d : PatientData num)
  : PatientData num :=
  {| name := name d; patientId := patientId d; dob := dob d;
     age := age d; bloodPressure := bloodPressure d;
     bloodSugar := bloodSugar d; lastVisit := lastVisit d;
     totalVisits := totalVisits d;
     nextAppointment := date;
     allergies := allergies d; medications := medications d |}.

Definition set_allergies (l : list Allergy) (d : PatientData num)
  : PatientData num :=
  {| name := name d; patientId := patientId d; dob := dob d;
     age := age d; bloodPressure := bloodPressure d;
     bloodSugar := bloodSugar d; lastVisit := lastVisit d;
     totalVisits := totalVisits d;
     nextAppointment := nextAppointment d;
     allergies := l; medications := medications d |}.

Definition set_medications (l : list Medication) (d : PatientData num)
  : PatientData num :=
  {| name := name d; patientId := patientId d; dob := dob d;
     age := age d; bloodPressure := bloodPressure d;
     bloodSugar := bloodSugar d; lastVisit := lastVisit d;
     totalVisits := totalVisits d;
     nextAppointment := nextAppointment d;
     allergies := allergies d; medications := l |}.

Definition set_identity (name' patientId' dob' : string) (age' : num)
           (d : PatientData num) : PatientData num :=
  {| name := name'; patientId := patientId'; dob := dob'; age := age';
     bloodPressure := bloodPressure d;
     bloodSugar := bloodSugar d; lastVisit := lastVisit d;
     totalVisits := totalVisits d;
     nextAppointment := nextAppointment d;
     allergies := allergies d; medications := medications d |}.

Definition updateLastVisit (date : string) (st : page num) : page num :=
  match getElementById (document st) "last-visit" with
  | Some visitElement =>
    let st1 := with_element "last-visit" (setTextContent date visitElement)
                            st in
    let st2 := console_log num ("Last visit updated to: " ++ date) st1 in
    with_store (set_lastVisit date (patientData st2)) st2
  | None => st
  end.

Definition updateTotalVisits (count : num) (st : page num) : page num :=
  match getElementById (document st) "total-visits" with
  | Some visitsElement =>
    let st1 := with_element "total-visits"
                 (setTextContent (render count) visitsElement) st in
    let st2 :=
      console_log num ("Total visits updated to: " ++ render count) st1 in
    with_store (set_totalVisits count (patientData st2)) st2
  | None => st
  end.

Definition updateNextAppointment (date : string) (st : page num)
  : page num :=
  match getElementById (document st) "next-appointment" with
  | Some appointmentElement =>
    let st1 := with_element "next-appointment"
                 (setTextContent date appointmentElement) st in
    let st2 :=
      console_log num ("Next appointment updated to: " ++ date) st1 in
    with_store (set_nextAppointment date (patientData st2)) st2
  | None => st
  end.

Definition allergy_line (allergy : Allergy) : string :=
  "• " ++ allergy_name allergy ++ " (" ++ severity_name (severity allergy)
       ++ ")".

Definition updateAllergies (allergies : list Allergy) (sc : screen)
  : screen :=
  let st := page_of sc in
  match getElementById (document st) "allergy-items",
        getElementById (document st) "allergy-count" with
  | Some allergyItemsElement, Some allergyCountElement =>
    let allergyList := JS.join "<br>" (map allergy_line allergies) in
    let count := JS.decimal (Z.of_nat (List.length allergies)) in
    let st1 := with_element "allergy-count"
                 (setTextContent count allergyCountElement) st in
    let st2 := with_store (set_allergies allergies (patientData st1))
                          st1 in
    {| page_of := console_log num "Allergies updated:" st2;
       allergyItemsHTML := allergyList;
       medicationsListHTML := medicationsListHTML sc;
       medicationsSectionDisplay := medicationsSectionDisplay sc |}
  | _, _ => sc
  end.

Definition medication_item (med : Medication) : string :=
  "<div class=" ++ quote ++ "medication-item" ++ quote ++ ">
        <div class=" ++ quote ++ "medication-name" ++ quote ++ ">"
    ++ medication_name med ++ "</div>
        <div class=" ++ quote ++ "medication-details" ++ quote ++ ">"
    ++ dosage med ++ " - " ++ frequency med ++ "</div>
        <div class=" ++ quote ++ "medication-date" ++ quote ++ ">Prescribed: "
    ++ prescribedDate med ++ "</div>
      </div>".

Definition updateMedicationsDisplay (sc : screen) : screen :=
  let st := page_of sc in
  match getElementById (document st) "medications-list",
        medications (patientData st) with
  | Some medicationsListElement, (_ :: _) as meds =>
    {| page_of := st;
       allergyItemsHTML := allergyItemsHTML sc;
       medicationsListHTML := JS.join "" (map medication_item meds);
       medicationsSectionDisplay := medicationsSectionDisplay sc |}
  | _, _ => sc
  end.

Definition addMedication (medication : Medication) (sc : screen) : screen :=
  let st := page_of sc in
  let pushed :=
    with_store (set_medications
                  (medications (patientData st) ++ [medication])
                  (patientData st)) st in
  let sc1 := updateMedicationsDisplay
               {| page_of := pushed;
                  allergyItemsHTML := allergyItemsHTML sc;
                  medicationsListHTML := medicationsListHTML sc;
                  medicationsSectionDisplay := medicationsSectionDisplay sc |}
  in
  let sc2 :=
    on_page (addMedicalHistoryEntry num "💊"
               ("New Medication: " ++ medication_name medication) "Today")
            sc1 in
  on_page (console_log num "Medication added:") sc2.

Definition toggleMedications (sc : screen) : screen :=
  let st := page_of sc in
  match getElementById (document st) "medications-section",
        getElementById (document st) "medications-toggle" with
  | Some medicationsSection, Some toggleButton =>
    let isExpanded :=
      negb (String.eqb (medicationsSectionDisplay sc) "none") in
    if isExpanded then
      {| page_of :=
           with_element "medications-toggle"
             (setTextContent "▼ Current Medications (Click to expand)"
                             toggleButton) st;
         allergyItemsHTML := allergyItemsHTML sc;
         medicationsListHTML := medicationsListHTML sc;
         medicationsSectionDisplay := "none" |}
    else
      updateMedicationsDisplay
        {| page_of :=
             with_element "medications-toggle"
               (setTextContent "▲ Current Medications (Click to collapse)"
                               toggleButton) st;
           allergyItemsHTML := allergyItemsHTML sc;
           medicationsListHTML := medicationsListHTML sc;
           medicationsSectionDisplay := "block" |}
  | _, _ => sc
  end.

(** Entries added one after the other, as [(icon, title, time)]. *)
Definition add_entries (entries : list (string * string * string))
           (st : page num) : page num :=
  fold_left (fun st e =>
               let '(icon, title, time) := e in
               addMedicalHistoryEntry num icon title time st)
            entries st.

Definition entry_item (e : string * string * string) : HistoryItem :=
  let '(icon, title, time) := e in
  {| className := "activity-item"; item_icon := icon;
     item_title := title; item_time := time |}.

(** [name.split(" ").map((n) => n[0]).join("").toUpperCase()] *)
Definition initials (name : string) : string :=
  toUpperCase (JS.join "" (map first_character (JS.split " " name))).

Definition updatePatientInfo (name patientId dob : string) (age : num)
           (st : page num) : page num :=
  match querySelector (document st) ".user-details h1",
        querySelector (document st) ".user-details p",
        querySelector (document st) ".avatar" with
  | Some nameElement, Some infoElement, Some avatarElement =>
    let st1 := with_element ".user-details h1"
                 (setTextContent ("Patient: " ++ name) nameElement) st in
    let st2 :=
      with_element ".user-details p"
        (setTextContent ("Patient ID: " ++ patientId ++ " • DOB: " ++ dob
                         ++ " • Age: " ++ render age) infoElement) st1 in
    let st3 := with_element ".avatar"
                 (setTextContent (initials name) avatarElement) st2 in
    let st4 :=
      with_store (set_identity name patientId dob age (patientData st3))
                 st3 in
    console_log num ("Patient info updated for: " ++ name) st4
  | _, _, _ => st
  end.

(** [PartialPatientData]: every field may be left out. *)
Record PartialPatientData : Type := {
  new_name : option string;
  new_patientId : option string;
  new_dob : option string;
  new_age : option num;
  new_bloodPressure : option (BloodPressure num);
  new_bloodSugar : option num;
  new_lastVisit : option string;
  new_totalVisits : option num;
  new_nextAppointment : option string;
  new_allergies : option (list Allergy);
  new_medications : option (list Medication)
}.

(** A string field that is there and truthy: the empty string is falsy. *)
Definition truthy_string (field : option string) : option string :=
  match field with
  | Some EmptyString => None
  | other => other
  end.

Definition updatePatientDashboard (newPatientData : PartialPatientData)
           (sc : screen) : screen :=
  let sc1 :=
    match truthy_string (new_name newPatientData),
          truthy_string (new_patientId newPatientData),
          truthy_string (new_dob newPatientData),
          new_age newPatientData with
    | Some name, Some patientId, Some dob, Some age =>
      on_page (updatePatientInfo name patientId dob age) sc
    | _, _, _, _ => sc
    end in
  let sc2 :=
    match new_bloodPressure newPatientData with
    | Some bp =>
      on_page (updateBloodPressure num render (systolic bp)
                                   (diastolic bp)) sc1
    | None => sc1
    end in
  let sc3 :=
    match new_bloodSugar newPatientData with
    | Some value => on_page (updateBloodSugar num render value) sc2
    | None => sc2
    end in
  let sc4 :=
    match truthy_string (new_lastVisit newPatientData) with
    | Some date => on_page (updateLastVisit date) sc3
    | None => sc3
    end in
  let sc5 :=
    match new_totalVisits newPatientData with
    | Some count => on_page (updateTotalVisits count) sc4
    | None => sc4
    end in
  let sc6 :=
    match truthy_string (new_nextAppointment newPatientData) with
    | Some date => on_page (updateNextAppointment date) sc5
    | None => sc5
    end in
  let sc7 :=
    match new_allergies newPatientData with
    | Some l => updateAllergies l sc6
    | None => sc6
    end in
  let sc8 :=
    match new_medications newPatientData with
    | Some l =>
      updateMedicationsDisplay
        (on_page (fun st => with_store
                              (set_medications l (patientData st)) st)
                 sc7)
    | None => sc7
    end in
  on_page (console_log num "Patient dashboard updated with:") sc8.

(** The partial update that carries every field of [d]. *)
Definition partial_of (d : PatientData num) : PartialPatientData :=
  {| new_name := Some (name d); new_patientId := Some (patientId d);
     new_dob := Some (dob d); new_age := Some (age d);
     new_bloodPressure := Some (bloodPressure d);
     new_bloodSugar := Some (bloodSugar d);
     new_lastVisit := Some (lastVisit d);
     new_totalVisits := Some (totalVisits d);
     new_nextAppointment := Some (nextAppointment d);
     new_allergies := Some (allergies d);
     new_medications := Some (medications d) |}.

(** The partial update that carries nothing. *)
Definition empty_partial : PartialPatientData :=
  {| new_name := None; new_patientId := None; new_dob := None;
     new_age := None; new_bloodPressure := None; new_bloodSugar := None;
     new_lastVisit := None; new_totalVisits := None;
     new_nextAppointment := None; new_allergies := None;
     new_medications := None |}.

(** The element under [id] exists. *)
Definition present (id : string) (st : page num) : Prop :=
  document st id <> None.

(** A page that holds every element the data functions look for. *)
Definition complete (st : page num) : Prop :=
  Forall (fun id => present id st)
         [ ".user-details h1"; ".user-details p"; ".avatar"; "last-bp";
           "last-sugar"; "last-visit"; "total-visits"; "next-appointment";
           "allergy-items"; "allergy-count" ].

(** An update of the page that removes no element. *)
Definition keeps_elements (f : page num -> page num) : Prop :=
  forall (id : string) (st : page num), present id st -> present id (f st).

(** The four fields [updatePatientInfo] writes. *)
Definition identity (d : PatientData num) : string * string * string * num :=
  (name d, patientId d, dob d, age d).

(** [PatientContext]: the store's fields and two readings of the clock. *)
Record PatientContext : Type := {
  context_data : PatientData num;
  timestamp : string;
  lastUpdated : string
}.

(** [getContext()]; the two strings are what [new Date().toISOString()]
    and [new Date().toLocaleString()] give when it runs. *)
Definition getContext (isoNow localeNow : string) (st : page num)
  : PatientContext * page num :=
  let context :=
    {| context_data := patientData st;
       timestamp := isoNow; lastUpdated := localeNow |} in
  (context, console_log num "Patient context retrieved:" st).

End Functions.

Arguments page_of {num} _.
Arguments allergyItemsHTML {num} _.
Arguments medicationsListHTML {num} _.
Arguments medicationsSectionDisplay {num} _.
Arguments new_name {num} _.
Arguments new_patientId {num} _.
Arguments new_dob {num} _.
Arguments new_age {num} _.
Arguments new_bloodPressure {num} _.
Arguments new_bloodSugar {num} _.
Arguments new_lastVisit {num} _.
Arguments new_totalVisits {num} _.
Arguments new_nextAppointment {num} _.
Arguments new_allergies {num} _.
Arguments new_medications {num} _.
Arguments present {num} _ _.
Arguments complete {num} _.
Arguments identity {num} _.
Arguments keeps_elements {num} _.
Arguments context_data {num} _.
Arguments timestamp {num} _.
Arguments lastUpdated {num} _.

(** *** [parseInt] without a radix, and [+] on numbers *)

Definition hex_digit_value (c : ascii) : option Z :=
  let n := N_of_ascii c in
  if ((48 <=? n) && (n <=? 57))%N then Some (Z.of_N n - 48)
  else if ((65 <=? n) && (n <=? 70))%N then Some (Z.of_N n - 55)
  else if ((97 <=? n) && (n <=? 102))%N then Some (Z.of_N n - 87)
  else None.

(** The value of the leading hexadecimal digits, if there is one. *)
Fixpoint hex_value (acc : Z) (seen : bool) (s : string) : option Z :=
  match s with
  | String c rest =>
    match hex_digit_value c with
    | Some d => hex_value (16 * acc + d) true rest
    | None => if seen then Some acc else None
    end
  | EmptyString => if seen then Some acc else None
  end.

Definition has_hex_prefix (body : string) : bool :=
  match body with
  | String "0" (String "x" _) | String "0" (String "X" _) => true
  | _ => false
  end.

Definition signed (negative : bool) (mathInt : Z) : JS.number :=
  if mathInt =? 0 then (if negative then JS.NegZero else JS.Fin 0)
  else JS.to_double (if negative then - mathInt else mathInt).

(** [parseInt(s)]: as [parseInt(s, 10)], except that after the sign a
    prefix [0x] or [0X] switches to radix 16. *)
Definition parseInt (s : string) : JS.number :=
  let t := JS.trim_start s in
  let negative := JS.is_negative t in
  let body := JS.strip_sign t in
  if has_hex_prefix body then
    match body with
    | String _ (String _ rest) =>
      match hex_value 0 false rest with
      | Some v => signed negative v
      | None => JS.NaN
      end
    | _ => JS.NaN
    end
  else
    match JS.leading_digits body with
    | EmptyString => JS.NaN
    | ds => signed negative (JS.digits_value 0 ds)
    end.

(** [a + b] on the numbers of the model: the exact sum, rounded. *)
Definition add (a b : JS.number) : JS.number :=
  match a, b with
  | JS.NaN, _ | _, JS.NaN => JS.NaN
  | JS.PosInf, JS.NegInf | JS.NegInf, JS.PosInf => JS.NaN
  | JS.PosInf, _ | _, JS.PosInf => JS.PosInf
  | JS.NegInf, _ | _, JS.NegInf => JS.NegInf
  | JS.NegZero, JS.NegZero => JS.NegZero
  | JS.NegZero, x | x, JS.NegZero => x
  | JS.Fin x, JS.Fin y =>
    if x + y =? 0 then JS.Fin 0 else JS.to_double (x + y)
  end.

(** [element.textContent || "0"] *)
Definition shown (cell : Element) : string :=
  match textContent cell with
  | EmptyString => "0"
  | text => text
  end.

(** [simulateVisitUpdate]: the count is read back from the cell. *)
Definition simulateVisitUpdate (st : page JS.number) : page JS.number :=
  match getElementById (document st) "total-visits" with
  | Some currentVisitsElement =>
    let currentVisits := parseInt (shown currentVisitsElement) in
    let st1 := updateTotalVisits JS.number JS.to_string
                 (add currentVisits (JS.Fin 1)) st in
    let st2 := updateLastVisit JS.number "Today" st1 in
    addMedicalHistoryEntry JS.number "🏥" "Regular Checkup" "Today" st2
  | None => st
  end.

(** A page that holds every element the data functions look for, and the
    dashboard state around it. *)
Definition completeDocument : Document :=
  fun id =>
    if existsb (String.eqb id)
         [ ".user-details h1"; ".user-details p"; ".avatar"; "last-bp";
           "last-sugar"; "last-visit"; "total-visits"; "next-appointment";
           "allergy-items"; "allergy-count"; "medications-list";
           "medications-section"; "medications-toggle"; "medical-history" ]
    then Some {| textContent := ""; childNodes := [] |}
    else None.

(** A record that differs from [initialPatientData] in every field. *)
Definition anotherPatientData : PatientData JS.number :=
  {| name := "Maria Quint"; patientId := "PT-2025-417";
     dob := "June 2, 1971"; age := JS.Fin 54;
     bloodPressure := {| systolic := JS.Fin 135; diastolic := JS.Fin 88 |};
     bloodSugar := JS.Fin 110;
     lastVisit := "Mar 3, 2025"; totalVisits := JS.Fin 31;
     nextAppointment := "Apr 7, 2025";
     allergies := [ {| allergy_name := "Latex"; severity := Mild |} ];
     medications :=
       [ {| medication_name := "Atorvastatin"; dosage := "20mg";
            frequency := "Nightly"; prescribedDate := "Mar 3, 2025" |} ] |}.

Definition initialScreen (doc : Document) : screen JS.number :=
  {| page_of := {| patientData := initialPatientData; document := doc;
                   console := [] |};
     allergyItemsHTML := ""; medicationsListHTML := "";
     medicationsSectionDisplay := "" |}.

End DashboardPage.

(* ================================================================== *)
(** ** src/demo/inverted/patient-dashboard.ts: the server half         *)
(* ================================================================== *)

Module DashboardServer.
Import Dashboard DashboardPage.

(** *** [DashboardUI]

    The four elements the class looks up, each with the properties it
    assigns; [None] is an element the page does not have, which the
    constructor's casts let through.  The console lines are left out. *)

Record StatusElement : Type := {
  status_text : string;             (* [textContent] *)
  status_background : string        (* [style.background] *)
}.

Record panels : Type := {
  copilot_iframe : option string;   (* [style.display] of "copilot-iframe" *)
  loading_state : option string;    (* [style.display] of "loading-state" *)
  error_state : option string;      (* [style.display] of "error-state" *)
  copilot_status : option StatusElement
}.

(** One assignment to a property of an element; on [null] it throws. *)
Definition statement : Type := panels -> option panels.

Definition set_iframe_display (v : string) : statement :=
  fun p =>
    match copilot_iframe p with
    | Some _ =>
      Some {| copilot_iframe := Some v; loading_state := loading_state p;
              error_state := error_state p;
              copilot_status := copilot_status p |}
    | None => None
    end.

Definition set_loading_display (v : string) : statement :=
  fun p =>
    match loading_state p with
    | Some _ =>
      Some {| copilot_iframe := copilot_iframe p; loading_state := Some v;
              error_state := error_state p;
              copilot_status := copilot_status p |}
    | None => None
    end.

Definition set_error_display (v : string) : statement :=
  fun p =>
    match error_state p with
    | Some _ =>
      Some {| copilot_iframe := copilot_iframe p;
              loading_state := loading_state p; error_state := Some v;
              copilot_status := copilot_status p |}
    | None => None
    end.

Definition set_status_text (v : string) : statement :=
  fun p =>
    match copilot_status p with
    | Some s =>
      Some {| copilot_iframe := copilot_iframe p;
              loading_state := loading_state p;
              error_state := error_state p;
              copilot_status :=
                Some {| status_text := v;
                        status_background := status_background s |} |}
    | None => None
    end.

Definition set_status_background (v : string) : statement :=
  fun p =>
    match copilot_status p with
    | Some s =>
      Some {| copilot_iframe := copilot_iframe p;
              loading_state := loading_state p;
              error_state := error_state p;
              copilot_status :=
                Some {| status_text := status_text s;
                        status_background := v |} |}
    | None => None
    end.

(** Statements run in order; the first that throws ends the method, and
    what the earlier ones assigned stays assigned. *)
Fixpoint block (body : list statement) (p : panels)
  : JS.completion unit * panels :=
  match body with
  | [] => (JS.Returns tt, p)
  | s :: rest =>
    match s p with
    | Some p' => block rest p'
    | None => (JS.Throws "TypeError", p)
    end
  end.

Definition showLoading : panels -> JS.completion unit * panels :=
  block [ set_iframe_display "none"; set_loading_display "flex";
          set_error_display "none"; set_status_text "Connecting...";
          set_status_background "#f39c12" ].

Definition showConnected : panels -> JS.completion unit * panels :=
  block [ set_iframe_display "block"; set_loading_display "none";
          set_error_display "none"; set_status_text "Connected";
          set_status_background "#00b894" ].

Definition showError : panels -> JS.completion unit * panels :=
  block [ set_iframe_display "none"; set_loading_display "none";
          set_error_display "flex"; set_status_text "Disconnected";
          set_status_background "#e17055" ].

(** [event.data?.type === name] *)
Definition is_type (name : string) (data_type : JS.value) : bool :=
  match data_type with
  | JS.Str s => String.eqb s name
  | _ => false
  end.

(** The window's "message" listener; [data_type] is [event.data?.type]. *)
Definition onMessage (data_type : JS.value) (p : panels) : panels :=
  if is_type "copilot-ready" data_type then
    match copilot_iframe p, loading_state p with
    | Some _, Some _ =>
      {| copilot_iframe := Some "block"; loading_state := Some "none";
         error_state := error_state p;
         copilot_status := copilot_status p |}
    | _, _ => p
    end
  else p.

(** The panels an inline style does not hide. *)
Definition displayed (display : option string) : bool :=
  match display with
  | Some v => negb (String.eqb v "none")
  | None => false
  end.

Definition visible (p : panels) : list string :=
  ((if displayed (copilot_iframe p) then ["copilot-iframe"] else [])
   ++ (if displayed (loading_state p) then ["loading-state"] else [])
   ++ (if displayed (error_state p) then ["error-state"] else []))%list.

Definition all_found (p : panels) : bool :=
  match copilot_iframe p, loading_state p, error_state p,
        copilot_status p with
  | Some _, Some _, Some _, Some _ => true
  | _, _, _, _ => false
  end.

Definition status_shown (p : panels) : option string :=
  option_map status_text (copilot_status p).

(** *** [PatientDashboardService] *)

(** [window.patientDashboard]: not there, or the object the dashboard
    script assigns, which holds its functions under these names. *)
Inductive window : Type := WithoutDashboard | WithDashboard.

Definition patientDashboard : list string :=
  [ "updateBloodPressure"; "updateBloodSugar"; "updateLastVisit";
    "updateTotalVisits"; "updateNextAppointment"; "updateAllergies";
    "addMedication"; "addMedicalHistoryEntry"; "updatePatientInfo";
    "updatePatientDashboard"; "getContext"; "toggleMedications";
    "simulateBloodPressureUpdate"; "simulateBloodSugarUpdate";
    "simulateVisitUpdate"; "simulateAddMedication"; "initializeDashboard" ].

(** [callDashboardFunction(functionName, ...args)]; [func] is the dashboard
    function of that name with the arguments applied. *)
Definition callDashboardFunction (w : window) (functionName : string)
           (func : screen JS.number -> screen JS.number)
           (sc : screen JS.number)
  : JS.completion unit * screen JS.number :=
  match w with
  | WithDashboard =>
    if existsb (String.eqb functionName) patientDashboard
    then (JS.Returns tt, func sc)
    else (JS.Throws ("Function " ++ functionName
                     ++ " not found on patientDashboard"), sc)
  | WithoutDashboard =>
    (JS.Throws "patientDashboard not available on window object", sc)
  end.

Module PatientDashboardService.

Definition updateBloodPressure (w : window) (systolic diastolic : JS.number)
  : screen JS.number -> JS.completion unit * screen JS.number :=
  callDashboardFunction w "updateBloodPressure"
    (on_page JS.number
       (Dashboard.updateBloodPressure JS.number JS.to_string
                                      systolic diastolic)).

Definition updateBloodSugar (w : window) (value : JS.number)
  : screen JS.number -> JS.completion unit * screen JS.number :=
  callDashboardFunction w "updateBloodSugar"
    (on_page JS.number
       (Dashboard.updateBloodSugar JS.number JS.to_string value)).

Definition addMedication (w : window) (medication : Medication)
  : screen JS.number -> JS.completion unit * screen JS.number :=
  callDashboardFunction w "addMedication"
    (DashboardPage.addMedication JS.number medication).

End PatientDashboardService.

(** *** The tool handlers of [createPatientDashboardServer] *)

Record TextContent : Type := { type : string; text : string }.

(** The [content] array of a tool result. *)
Definition reply : Type := list TextContent.

Definition bloodPressure_updated (systolic diastolic : JS.number) : string :=
  "âœ… **Blood Pressure Updated Successfully**

**New Reading:** "
     ++ JS.to_string systolic
     ++ "/"
     ++ JS.to_string diastolic
     ++ " mmHg

The blood pressure has been recorded and added to the patient's medical history. The dashboard has been updated to reflect this new measurement.".

Definition bloodPressure_error (message : string) : string :=
  "âŒ **Error updating blood pressure:** "
     ++ message.

(** The callback registered for "updateBloodPressure". *)
Definition updateBloodPressure_handler (w : window)
           (systolic diastolic : JS.number) (sc : screen JS.number)
  : reply * screen JS.number :=
  match PatientDashboardService.updateBloodPressure w systolic diastolic sc
  with
  | (JS.Returns _, sc') =>
    ([ {| type := "text";
          text := bloodPressure_updated systolic diastolic |} ], sc')
  | (JS.Throws message, sc') =>
    ([ {| type := "text"; text := bloodPressure_error message |} ], sc')
  end.

Definition bloodSugar_status (value : JS.number) : string :=
  if JS.lt value (JS.Fin 70) then "Low"
  else if JS.gt value (JS.Fin 140) then "High" else "Normal".

Definition bloodSugar_statusIcon (value : JS.number) : string :=
  if JS.lt value (JS.Fin 70) then "âš ï¸"
  else if JS.gt value (JS.Fin 140) then "ðŸ”´" else "âœ…".

Definition bloodSugar_updated (value : JS.number) : string :=
  let status := bloodSugar_status value in
  let statusIcon := bloodSugar_statusIcon value in
  statusIcon
     ++ " **Blood Sugar Updated Successfully**

**New Reading:** "
     ++ JS.to_string value
     ++ " mg/dL ("
     ++ status
     ++ ")

The blood sugar level has been recorded and added to the patient's medical history. The dashboard has been updated with this new measurement.".

Definition bloodSugar_error (message : string) : string :=
  "âŒ **Error updating blood sugar:** "
     ++ message.

(** The callback registered for "updateBloodSugar". *)
Definition updateBloodSugar_handler (w : window) (value : JS.number)
           (sc : screen JS.number) : reply * screen JS.number :=
  match PatientDashboardService.updateBloodSugar w value sc with
  | (JS.Returns _, sc') =>
    ([ {| type := "text"; text := bloodSugar_updated value |} ], sc')
  | (JS.Throws message, sc') =>
    ([ {| type := "text"; text := bloodSugar_error message |} ], sc')
  end.

(** [z.number().min(lo).max(hi)] of an [inputSchema]: a number that is not
    NaN, with [lo <= x] and [x <= hi]. *)
Definition number_between (lo hi : Z) (x : JS.number) : bool :=
  match x with
  | JS.NaN => false
  | _ => negb (JS.lt x (JS.Fin lo)) && negb (JS.gt x (JS.Fin hi))
  end.

(** What a call of a registered tool comes to: the arguments are checked
    against the [inputSchema] first, and the callback runs only on
    arguments that pass; the wording of the refusal is the server
    library's. *)
Inductive tool_answer : Type :=
| Content (content : reply)
| InvalidParams.

(** The tool "updateBloodPressure": systolic from 50 to 300, diastolic
    from 30 to 200. *)
Definition updateBloodPressure_tool (w : window)
           (systolic diastolic : JS.number) (sc : screen JS.number)
  : tool_answer * screen JS.number :=
  if number_between 50 300 systolic && number_between 30 200 diastolic
  then
    let '(content, sc') := updateBloodPressure_handler w systolic diastolic sc
    in (Content content, sc')
  else (InvalidParams, sc).

(** The tool "updateBloodSugar": value from 20 to 600. *)
Definition updateBloodSugar_tool (w : window) (value : JS.number)
           (sc : screen JS.number) : tool_answer * screen JS.number :=
  if number_between 20 600 value
  then
    let '(content, sc') := updateBloodSugar_handler w value sc
    in (Content content, sc')
  else (InvalidParams, sc).

Definition medication_added (name dosage frequency prescribedDate : string)
  : string :=
  "ðŸ’Š **New Medication Added Successfully**

**Medication:** "
     ++ name
     ++ "
**Dosage:** "
     ++ dosage
     ++ "
**Frequency:** "
     ++ frequency
     ++ "
**Prescribed:** "
     ++ prescribedDate
     ++ "

The medication has been added to the patient's prescription list and recorded in their medical history. Please ensure the patient understands the dosage and frequency instructions.".

Definition medication_error (message : string) : string :=
  "âŒ **Error adding medication:** "
     ++ message.

(** [prescribedDate = "Today"]: the default stands in for [undefined]
    alone, an empty string is kept. *)
Definition addMedication_tool (w : window) (name dosage frequency : string)
           (prescribed : option string) (sc : screen JS.number)
  : reply * screen JS.number :=
  let prescribedDate :=
    match prescribed with
    | Some date => date
    | None => "Today"
    end in
  let medication :=
    {| medication_name := name; dosage := dosage; frequency := frequency;
       prescribedDate := prescribedDate |} in
  match PatientDashboardService.addMedication w medication sc with
  | (JS.Returns _, sc') =>
    ([ {| type := "text";
          text := medication_added name dosage frequency prescribedDate |} ],
     sc')
  | (JS.Throws message, sc') =>
    ([ {| type := "text"; text := medication_error message |} ], sc')
  end.

End DashboardServer.

(* ================================================================== *)
(** ** The inverted demo's inner page: the copilot's interface         *)
(* ================================================================== *)

Module Copilot.

(** *** Strings (code units below 256) *)

Fixpoint trim_end (s : string) : string :=
  match s with
  | String c rest =>
    match trim_end rest with
    | EmptyString =>
      if JS.is_white_space c then EmptyString else String c EmptyString
    | kept => String c kept
    end
  | EmptyString => EmptyString
  end.

(** [String.prototype.trim] *)
Definition trim (s : string) : string := trim_end (JS.trim_start s).

(** A string of white space only. *)
Fixpoint is_blank (s : string) : bool :=
  match s with
  | String c rest => JS.is_white_space c && is_blank rest
  | EmptyString => true
  end.

(** The upper-case letters below 256 are A to Z and U+00C0 to U+00DE
    without the multiplication sign; each has its lower-case letter 32
    places on. *)
Definition lower (c : ascii) : ascii :=
  let n := N_of_ascii c in
  if ((65 <=? n) && (n <=? 90)
      || (192 <=? n) && (n <=? 222) && negb (n =? 215))%N
  then ascii_of_N (n + 32) else c.

Fixpoint toLowerCase (s : string) : string :=
  match s with
  | String c rest => String (lower c) (toLowerCase rest)
  | EmptyString => EmptyString
  end.

Definition newline : string := String (ascii_of_nat 10) EmptyString.

(** [s.includes(sub)] *)
Fixpoint includes (s sub : string) : bool :=
  String.prefix sub s
  || match s with
     | String _ rest => includes rest sub
     | EmptyString => false
     end.

(** *** The two regular expressions

    Matching follows the backtracking order of the language: every way to
    match an item is tried in its order of preference, and the first start
    position with a match wins. *)

(** [\d{2,3}], greedy: three digits if there are three, else two; each with
    the text left over. *)
Definition digits_2_3 (s : string) : list (string * string) :=
  match s with
  | String a (String b rest) =>
    if JS.is_digit a && JS.is_digit b then
      ((match rest with
        | String c rest' =>
          if JS.is_digit c
          then [(String a (String b (String c EmptyString)), rest')]
          else []
        | EmptyString => []
        end)
       ++ [(String a (String b EmptyString), rest)])%list
    else []
  | _ => []
  end.

(** [[\/\s]]: a slash or a white-space character. *)
Definition is_separator (c : ascii) : bool :=
  Ascii.eqb c "/" || JS.is_white_space c.

(** [[\/\s]+], greedy: the texts left over, after the longest run first. *)
Fixpoint separators (s : string) : list string :=
  match s with
  | String c rest =>
    if is_separator c then (separators rest ++ [rest])%list else []
  | EmptyString => []
  end.

(** [/(\d{2,3})[\/\s]+(\d{2,3})/] tried at the start of [s]: the two
    groups of the first match in backtracking order. *)
Definition bp_at (s : string) : option (string * string) :=
  hd_error
    (flat_map
       (fun first =>
          flat_map
            (fun after_separators =>
               map (fun second => (fst first, fst second))
                   (digits_2_3 after_separators))
            (separators (snd first)))
       (digits_2_3 s)).

(** [message.match(/(\d{2,3})[\/\s]+(\d{2,3})/)]: groups 1 and 2. *)
Fixpoint bpMatch (s : string) : option (string * string) :=
  match bp_at s with
  | Some groups => Some groups
  | None =>
    match s with
    | String _ rest => bpMatch rest
    | EmptyString => None
    end
  end.

(** [message.match(/(\d{2,3})/)]: group 1. *)
Fixpoint sugarMatch (s : string) : option string :=
  match hd_error (digits_2_3 s) with
  | Some first => Some (fst first)
  | None =>
    match s with
    | String _ rest => sugarMatch rest
    | EmptyString => None
    end
  end.

(** Every character of [s] satisfies [p]. *)
Fixpoint every (p : ascii -> bool) (s : string) : bool :=
  match s with
  | String c rest => p c && every p rest
  | EmptyString => true
  end.

(** Two digits in a row somewhere in [s]. *)
Fixpoint has_digit_pair (s : string) : bool :=
  match s with
  | String a rest =>
    JS.is_digit a && Logic.starts_with_digit rest || has_digit_pair rest
  | EmptyString => false
  end.

Fixpoint ends_with_digit (s : string) : bool :=
  match s with
  | String c EmptyString => JS.is_digit c
  | String _ rest => ends_with_digit rest
  | EmptyString => false
  end.

(** *** [ChatUI]

    The class on a page that has the eight elements its constructor looks
    up.  [messageContainer] holds the [div]s that [renderMessage] appends
    to "chat-messages"; [scrollTimers] counts the timers armed by
    [scrollToBottom], whose callbacks only scroll. *)

Inductive message_type : Type := user | assistant | system | error.

Definition type_name (t : message_type) : string :=
  match t with
  | user => "user"
  | assistant => "assistant"
  | system => "system"
  | error => "error"
  end.

Record ChatMessage : Type := {
  id : string;
  type : message_type;
  content : string;
  timestamp : Z
}.

Record MessageElement : Type := {
  className : string;
  textContent : string
}.

Record ChatUI : Type := {
  messages : list ChatMessage;
  messageContainer : list MessageElement;
  inputValue : string;
  inputDisabled : bool;
  inputHeight : string;
  sendDisabled : bool;
  statusText : string;
  statusBackground : string;
  typingDisplay : string;
  quickActionsDisplay : string;
  welcomeDisplay : string;
  connectionErrorDisplay : string;
  scrollTimers : nat
}.

(** The five properties the [show...] methods assign together. *)
Definition with_status (text background : string) (disabled : bool)
           (welcome connectionError quickActions : string) (u : ChatUI)
  : ChatUI :=
  {| messages := messages u; messageContainer := messageContainer u;
     inputValue := inputValue u; inputDisabled := disabled;
     inputHeight := inputHeight u; sendDisabled := disabled;
     statusText := text; statusBackground := background;
     typingDisplay := typingDisplay u;
     quickActionsDisplay := quickActions;
     welcomeDisplay := welcome;
     connectionErrorDisplay := connectionError;
     scrollTimers := scrollTimers u |}.

Definition showConnecting : ChatUI -> ChatUI :=
  with_status "Connecting..." "rgba(241, 196, 15, 0.8)" true
              "block" "none" "none".

Definition showConnected : ChatUI -> ChatUI :=
  with_status "Connected" "rgba(0, 184, 148, 0.8)" false
              "none" "none" "flex".

Definition showConnectedWithOpenAI : ChatUI -> ChatUI :=
  with_status "Connected (OpenAI)" "rgba(0, 184, 148, 0.8)" false
              "none" "none" "flex".

Definition showDisconnected : ChatUI -> ChatUI :=
  with_status "Disconnected" "rgba(225, 112, 85, 0.8)" true
              "none" "block" "none".

Definition scrollToBottom (u : ChatUI) : ChatUI :=
  {| messages := messages u; messageContainer := messageContainer u;
     inputValue := inputValue u; inputDisabled := inputDisabled u;
     inputHeight := inputHeight u; sendDisabled := sendDisabled u;
     statusText := statusText u; statusBackground := statusBackground u;
     typingDisplay := typingDisplay u;
     quickActionsDisplay := quickActionsDisplay u;
     welcomeDisplay := welcomeDisplay u;
     connectionErrorDisplay := connectionErrorDisplay u;
     scrollTimers := S (scrollTimers u) |}.

Definition set_typingDisplay (display : string) (u : ChatUI) : ChatUI :=
  {| messages := messages u; messageContainer := messageContainer u;
     inputValue := inputValue u; inputDisabled := inputDisabled u;
     inputHeight := inputHeight u; sendDisabled := sendDisabled u;
     statusText := statusText u; statusBackground := statusBackground u;
     typingDisplay := display;
     quickActionsDisplay := quickActionsDisplay u;
     welcomeDisplay := welcomeDisplay u;
     connectionErrorDisplay := connectionErrorDisplay u;
     scrollTimers := scrollTimers u |}.

Definition showTyping (u : ChatUI) : ChatUI :=
  scrollToBottom (set_typingDisplay "block" u).

Definition hideTyping (u : ChatUI) : ChatUI := set_typingDisplay "none" u.

(** The [div] that [renderMessage] builds. *)
Definition element_of (message : ChatMessage) : MessageElement :=
  {| className := "message " ++ type_name (type message);
     textContent := content message |}.

Definition renderMessage (message : ChatMessage) (u : ChatUI) : ChatUI :=
  {| messages := messages u;
     messageContainer := (messageContainer u ++ [element_of message])%list;
     inputValue := inputValue u; inputDisabled := inputDisabled u;
     inputHeight := inputHeight u; sendDisabled := sendDisabled u;
     statusText := statusText u; statusBackground := statusBackground u;
     typingDisplay := typingDisplay u;
     quickActionsDisplay := quickActionsDisplay u;
     welcomeDisplay := welcomeDisplay u;
     connectionErrorDisplay := connectionErrorDisplay u;
     scrollTimers := scrollTimers u |}.

Definition push (message : ChatMessage) (u : ChatUI) : ChatUI :=
  {| messages := (messages u ++ [message])%list;
     messageContainer := messageContainer u;
     inputValue := inputValue u; inputDisabled := inputDisabled u;
     inputHeight := inputHeight u; sendDisabled := sendDisabled u;
     statusText := statusText u; statusBackground := statusBackground u;
     typingDisplay := typingDisplay u;
     quickActionsDisplay := quickActionsDisplay u;
     welcomeDisplay := welcomeDisplay u;
     connectionErrorDisplay := connectionErrorDisplay u;
     scrollTimers := scrollTimers u |}.

(** [addMessage(type, content)]; [now] is the clock in milliseconds, read
    for the id and for the timestamp. *)
Definition addMessage (now : Z) (t : message_type) (text : string)
           (u : ChatUI) : ChatMessage * ChatUI :=
  let message :=
    {| id := JS.to_string (JS.Fin now); type := t; content := text;
       timestamp := now |} in
  (message, scrollToBottom (renderMessage message (push message u))).

Definition getCurrentInput (u : ChatUI) : string := inputValue u.

(** [autoResize]; [scrollHeight] is what the layout gives the input once
    its height is "auto". *)
Definition autoResize (scrollHeight : Z) (u : ChatUI) : ChatUI :=
  {| messages := messages u; messageContainer := messageContainer u;
     inputValue := inputValue u; inputDisabled := inputDisabled u;
     inputHeight := JS.to_string (JS.Fin (Z.min scrollHeight 100)) ++ "px";
     sendDisabled := sendDisabled u;
     statusText := statusText u; statusBackground := statusBackground u;
     typingDisplay := typingDisplay u;
     quickActionsDisplay := quickActionsDisplay u;
     welcomeDisplay := welcomeDisplay u;
     connectionErrorDisplay := connectionErrorDisplay u;
     scrollTimers := scrollTimers u |}.

Definition set_inputValue (value : string) (u : ChatUI) : ChatUI :=
  {| messages := messages u; messageContainer := messageContainer u;
     inputValue := value; inputDisabled := inputDisabled u;
     inputHeight := inputHeight u; sendDisabled := sendDisabled u;
     statusText := statusText u; statusBackground := statusBackground u;
     typingDisplay := typingDisplay u;
     quickActionsDisplay := quickActionsDisplay u;
     welcomeDisplay := welcomeDisplay u;
     connectionErrorDisplay := connectionErrorDisplay u;
     scrollTimers := scrollTimers u |}.

Definition clearInput (scrollHeight : Z) (u : ChatUI) : ChatUI :=
  autoResize scrollHeight (set_inputValue "" u).

(** [sendMessage()]: the interface afterwards, and the text handed to
    [copilotApp.handleUserMessage] if the call is made; [app] says whether
    [window.copilotApp] is set. *)
Definition sendMessage (now scrollHeight : Z) (app : bool) (u : ChatUI)
  : ChatUI * option string :=
  let text := trim (getCurrentInput u) in
  match text with
  | EmptyString => (u, None)
  | _ =>
    if inputDisabled u then (u, None)
    else
      (clearInput scrollHeight (snd (addMessage now user text u)),
       if app then Some text else None)
  end.

(** *** The configuration panel *)

Record ConfigPage : Type := {
  openai_api_key : option string;   (* the item of [localStorage] *)
  config_panel : option string;     (* [style.display] of "config-panel" *)
  api_key_input : option string     (* [value] of "api-key-input" *)
}.

(** A string that counts as true: one that is there and not empty. *)
Definition truthy (s : option string) : option string :=
  match s with
  | Some EmptyString => None
  | other => other
  end.

Definition showConfig (p : ConfigPage) : ConfigPage :=
  match config_panel p, api_key_input p with
  | Some _, Some value =>
    {| openai_api_key := openai_api_key p;
       config_panel := Some "flex";
       api_key_input :=
         match truthy (openai_api_key p) with
         | Some currentKey => Some currentKey
         | None => Some value
         end |}
  | _, _ => p
  end.

Definition hideConfig (p : ConfigPage) : ConfigPage :=
  match config_panel p with
  | Some _ =>
    {| openai_api_key := openai_api_key p; config_panel := Some "none";
       api_key_input := api_key_input p |}
  | None => p
  end.

Definition setItem (value : string) (p : ConfigPage) : ConfigPage :=
  {| openai_api_key := Some value; config_panel := config_panel p;
     api_key_input := api_key_input p |}.

Definition removeItem (p : ConfigPage) : ConfigPage :=
  {| openai_api_key := None; config_panel := config_panel p;
     api_key_input := api_key_input p |}.

(** [saveApiKey()]: the page afterwards, and whether the copilot is told to
    disconnect and start again; [app] says whether [copilotApp] is set. *)
Definition saveApiKey (app : bool) (p : ConfigPage) : ConfigPage * bool :=
  match api_key_input p with
  | Some value =>
    match trim value with
    | EmptyString => (hideConfig (removeItem p), false)
    | apiKey => (hideConfig (setItem apiKey p), app)
    end
  | None => (p, false)
  end.

(** [getOpenAIApiKey()]; [urlKey] is the "openai_key" parameter of the
    page's address, [envKey] the global [OPENAI_API_KEY] when it is a
    string. *)
Definition getOpenAIApiKey (urlKey envKey : option string) (p : ConfigPage)
  : option string :=
  match truthy (openai_api_key p) with
  | Some storedKey => Some storedKey
  | None =>
    match truthy urlKey with
    | Some key => Some key
    | None => truthy envKey
    end
  end.

(** *** [CopilotApp] *)

(** How an awaited promise ends. *)
Inductive outcome (A : Type) : Type :=
| Resolved (a : A)
| Rejected (message : option string)   (* the message, of an [Error] *)
| Pending.
Arguments Resolved {A} a.
Arguments Rejected {A} message.
Arguments Pending {A}.

Record CopilotApp : Type := {
  client : bool;              (* [this.client] is not [null] *)
  transport : bool;           (* [this.transport] is not [null] *)
  openai : bool;              (* [this.openai] is not [null] *)
  ui : ChatUI;
  availableTools : list string
}.

Definition with_ui (u : ChatUI) (a : CopilotApp) : CopilotApp :=
  {| client := client a; transport := transport a; openai := openai a;
     ui := u; availableTools := availableTools a |}.

Record Tool : Type := {
  name : string;
  description : option string
}.

(** The arguments the rules pass to a tool. *)
Inductive arguments : Type :=
| NoArguments
| BloodPressure (systolic diastolic : JS.number)
| BloodSugar (value : JS.number).

(** [result.content]: [None] when it is no array, else the [text] of each
    item, if it has one. *)
Definition content_array : Type := option (list (option string)).

(** The server behind the client, as far as the rules use it. *)
Definition remote_tool : Type :=
  string -> arguments -> outcome content_array.

Definition getMockToolResponse (toolName : string) : string :=
  let lowerToolName := toLowerCase toolName in
  if includes lowerToolName "bloodpressure" then
    "ü©∫ **Blood Pressure Updated** (Mock Data)

**New Reading:** 120/80 mmHg

The blood pressure has been recorded and added to the patient's medical history. The dashboard has been updated to reflect this new measurement.

*Note: This is mock data. Connect to the dashboard for real functionality.*"
  else if includes lowerToolName "bloodsugar" then
    "üìä **Blood Sugar Updated** (Mock Data)

**New Reading:** 95 mg/dL (Normal)

The blood sugar level has been recorded and added to the patient's medical history. The dashboard has been updated with this new measurement.

*Note: This is mock data. Connect to the dashboard for real functionality.*"
  else if includes lowerToolName "context" || includes lowerToolName "info"
  then
    "üë§ **Current Patient Information** (Mock Data)

**Name:** John Peterson
**Patient ID:** PT-2024-001
**DOB:** March 15, 1985 (Age: 40)

**Vital Signs:**
- **Blood Pressure:** 120/80 mmHg
- **Blood Sugar:** 95 mg/dL

**Visit Information:**
- **Last Visit:** Jan 15, 2025
- **Total Visits:** 12
- **Next Appointment:** Feb 10, 2025

**Allergies:** Penicillin (Severe), Shellfish (Moderate)

**Current Medications:** Lisinopril 10mg daily, Metformin 500mg twice daily

*Note: This is mock data. Connect to the dashboard for real patient information.*"
  else if includes lowerToolName "medication" then
    "üíä **Medication Added** (Mock Data)

**Medication:** Sample Medication
**Dosage:** As specified
**Frequency:** As prescribed

The medication has been added to the patient's prescription list and recorded in their medical history.

*Note: This is mock data. Connect to the dashboard for real functionality.*"
  else if includes lowerToolName "allerg" then
    "üö® **Allergies Updated** (Mock Data)

The patient's allergy information has been updated in the dashboard. Medical staff will be alerted to these allergies during treatment.

*Note: This is mock data. Connect to the dashboard for real functionality.*"
  else if includes lowerToolName "appointment" then
    "üìÖ **Appointment Scheduled** (Mock Data)

The patient's next appointment has been successfully scheduled and updated in the dashboard.

*Note: This is mock data. Connect to the dashboard for real functionality.*"
  else if includes lowerToolName "history" then
    "üìù **Medical History Entry Added** (Mock Data)

The entry has been added to the patient's medical history timeline and will be visible in the dashboard.

*Note: This is mock data. Connect to the dashboard for real functionality.*"
  else
    ("Tool "
    ++ DashboardPage.quote
    ++ toolName
    ++ DashboardPage.quote
    ++ " executed in mock mode. Please ensure you're connected to the patient dashboard for full functionality.

*Note: This is mock data. Connect to the dashboard for real functionality.*").

(** [callTool(toolName, args)] *)
Definition callTool (remote : remote_tool) (a : CopilotApp)
           (toolName : string) (args : arguments) : outcome string :=
  if client a then
    match remote toolName args with
    | Resolved (Some (first :: _)) =>
      match truthy first with
      | Some text => Resolved text
      | None => Resolved "No response received"
      end
    | Resolved _ =>
      Resolved "Tool executed successfully but returned no content."
    | Rejected _ => Resolved (getMockToolResponse toolName)
    | Pending => Pending
    end
  else Resolved (getMockToolResponse toolName).

(** What the loop body of [detectIntentAndCallTool] does for one tool:
    call it, answer with a fixed text, or go on to the next tool. *)
Inductive intent : Type :=
| Call (toolName : string) (args : arguments)
| Answer (text : string)
| Next.

Definition any_of (message : string) (words : list string) : bool :=
  existsb (includes message) words.

Definition intent_of (tool : Tool) (message : string) : intent :=
  let toolName := toLowerCase (name tool) in
  if includes toolName "bloodpressure"
     && any_of message ["blood pressure"; "bp"; "systolic"; "diastolic"]
  then
    match bpMatch message with
    | Some (first, second) =>
      Call (name tool)
           (BloodPressure (DashboardPage.parseInt first)
                          (DashboardPage.parseInt second))
    | None =>
      Answer "Please specify blood pressure values (e.g., '120/80' or 'Update blood pressure to 130/85')"
    end
  else if includes toolName "bloodsugar"
          && any_of message ["blood sugar"; "glucose"; "sugar level"]
  then
    match sugarMatch message with
    | Some first => Call (name tool) (BloodSugar (DashboardPage.parseInt first))
    | None =>
      Answer "Please specify a blood sugar value (e.g., 'Update blood sugar to 95')"
    end
  else if (includes toolName "context" || includes toolName "info")
          && any_of message
                    ["who"; "patient info"; "show me"; "current patient"]
  then Call (name tool) NoArguments
  else if includes toolName "medication"
          && any_of message
                    ["medication"; "medicine"; "drug"; "prescription"]
          && any_of message ["add"; "new"; "prescribe"]
  then
    Answer "To add a medication, please specify: medication name, dosage, and frequency. For example: 'Add Lisinopril 10mg daily'"
  else if includes toolName "allerg"
          && any_of message ["allerg"; "reaction"]
          && any_of message ["add"; "update"]
  then
    Answer "To update allergies, please specify the allergy name and severity (Mild/Moderate/Severe). For example: 'Add penicillin allergy, severe'"
  else if includes toolName "appointment"
          && any_of message ["appointment"; "schedule"; "visit"]
  then
    Answer "Please specify the appointment date. For example: 'Schedule next appointment for Feb 15, 2025'"
  else Next.

(** The [for] loop: the first tool that does not go on decides. *)
Fixpoint first_intent (tools : list Tool) (message : string) : intent :=
  match tools with
  | tool :: rest =>
    match intent_of tool message with
    | Next => first_intent rest message
    | decided => decided
    end
  | [] => Next
  end.

(** [detectIntentAndCallTool(message)]; [listTools] is how
    [client.listTools()] ends. *)
Definition detectIntentAndCallTool (listTools : outcome (list Tool))
           (remote : remote_tool) (a : CopilotApp) (message : string)
  : outcome (option string) :=
  if client a then
    match listTools with
    | Resolved tools =>
      match first_intent tools message with
      | Call toolName args =>
        match callTool remote a toolName args with
        | Resolved text => Resolved (Some text)
        | Rejected _ => Resolved None
        | Pending => Pending
        end
      | Answer text => Resolved (Some text)
      | Next => Resolved None
      end
    | Rejected _ => Resolved None
    | Pending => Pending
    end
  else Resolved None.

Definition tool_line (tool : Tool) : string :=
  "- " ++ name tool ++ ": "
  ++ match truthy (description tool) with
     | Some text => text
     | None => "No description available"
     end.

(** [getToolsInformation()] *)
Definition getToolsInformation (listTools : outcome (list Tool))
           (a : CopilotApp) : outcome string :=
  if client a then
    match listTools with
    | Resolved tools => Resolved (JS.join newline (map tool_line tools))
    | Rejected _ => Resolved "Error getting tool information"
    | Pending => Pending
    end
  else Resolved "No tools available - not connected to patient dashboard".

Definition help_text (availableToolsText : string) : string :=
  ("I'm here to help you manage patient data and medical records! 

**Available Actions:**
"
    ++ availableToolsText
    ++ "

You can ask me to:
‚Ä¢ Update patient vital signs (blood pressure, blood sugar)
‚Ä¢ Add new medications or allergies
‚Ä¢ Schedule appointments
‚Ä¢ View patient information
‚Ä¢ Add medical history entries

Try asking something like "
    ++ DashboardPage.quote
    ++ "Update blood pressure to 130/85"
    ++ DashboardPage.quote
    ++ " or "
    ++ DashboardPage.quote
    ++ "Add a new medication"
    ++ DashboardPage.quote
    ++ " or click the quick action buttons below!").

(** [processWithRules(message)]; the two lists are the answers to the two
    calls of [client.listTools()], in order. *)
Definition processWithRules (listTools listToolsAgain : outcome (list Tool))
           (remote : remote_tool) (a : CopilotApp) (message : string)
  : outcome string :=
  let lowerMessage := toLowerCase message in
  let default :=
    match getToolsInformation listToolsAgain a with
    | Resolved availableToolsText => Resolved (help_text availableToolsText)
    | Rejected e => Rejected e
    | Pending => Pending
    end in
  match detectIntentAndCallTool listTools remote a lowerMessage with
  | Resolved (Some toolCallResult) =>
    match toolCallResult with
    | EmptyString => default
    | _ => Resolved toolCallResult
    end
  | Resolved None => default
  | Rejected e => Rejected e
  | Pending => Pending
  end.

(** [processUserMessage(message)]; [withOpenAI] is how
    [processWithOpenAI(message)] ends, which is left to the service. *)
Definition processUserMessage (withOpenAI : outcome string)
           (listTools listToolsAgain : outcome (list Tool))
           (remote : remote_tool) (a : CopilotApp) (message : string)
  : outcome string :=
  if openai a then withOpenAI
  else processWithRules listTools listToolsAgain remote a message.

Definition processing_error : string :=
  "‚ùå Sorry, I encountered an error while processing your request. Please try again.".

(** [handleUserMessage(message)]; [response] is how [processUserMessage]
    ends, [now] the clock when the answer is added. *)
Definition handleUserMessage (now : Z) (response : outcome string)
           (a : CopilotApp) : CopilotApp :=
  let typing := showTyping (ui a) in
  match response with
  | Resolved text =>
    with_ui (snd (addMessage now assistant text (hideTyping typing))) a
  | Rejected _ =>
    with_ui (snd (addMessage now error processing_error
                             (hideTyping typing))) a
  | Pending => with_ui typing a
  end.

(** [sendQuickMessage(message)]; [sent] and [answered] are the clock at
    the two messages. *)
Definition sendQuickMessage (sent answered : Z) (response : outcome string)
           (message : string) (a : CopilotApp) : CopilotApp :=
  handleUserMessage answered response
    (with_ui (snd (addMessage sent user message (ui a))) a).

(** [disconnect()]; [close] is how [transport.close()] ends.  The result
    says how the call ends and whether [close] was called. *)
Definition disconnect (close : outcome unit) (a : CopilotApp)
  : outcome unit * bool * CopilotApp :=
  let disconnected :=
    {| client := false; transport := false; openai := openai a;
       ui := showDisconnected (ui a);
       availableTools := availableTools a |} in
  if transport a then
    match close with
    | Resolved _ => (Resolved tt, true, disconnected)
    | Rejected e => (Rejected e, true, a)
    | Pending => (Pending, true, a)
    end
  else (Resolved tt, false, disconnected).

Definition connected_with_openai : string :=
  "üéâ Connected to your dashboard with OpenAI! I can provide intelligent responses and access your data.".

Definition connected_plain : string :=
  "üéâ Connected to your dashboard! I can now access your data to help answer questions. Configure OpenAI API key in settings for enhanced responses.".

Definition limited_mode : string :=
  "‚ö†Ô∏è Connected in limited mode. Some features may not be available. Try refreshing to reconnect fully.".

(** [error instanceof Error ? error.message : "Unknown error"] *)
Definition connection_error (e : option string) : string :=
  "Connection error: "
  ++ match e with
     | Some message => message
     | None => "Unknown error"
     end.

(** The [catch] block of [initialize]. *)
Definition initialize_failed (now now' : Z) (e : option string)
           (a : CopilotApp) : CopilotApp :=
  let u1 := showConnected (ui a) in
  let u2 := snd (addMessage now system limited_mode u1) in
  let u3 := snd (addMessage now' error (connection_error e) u2) in
  {| client := false; transport := false; openai := openai a;
     ui := u3; availableTools := availableTools a |}.

(** [initialize()]: [apiKey] is what [getOpenAIApiKey()] returns; [prepare],
    [connect] and [listTools] are how the three awaited calls end; [now] and
    [now'] are the clock at the messages.  A promise that stays pending
    leaves the application where the [await] found it. *)
Definition initialize (apiKey : option string)
           (prepare connect : outcome unit)
           (listTools : outcome (list Tool)) (now now' : Z)
           (a : CopilotApp) : CopilotApp :=
  let a1 :=
    {| client := client a; transport := true;
       openai := match truthy apiKey with
                 | Some _ => true
                 | None => openai a
                 end;
       ui := showConnecting (ui a);
       availableTools := availableTools a |} in
  match prepare with
  | Resolved _ =>
    let a2 :=
      {| client := true; transport := true; openai := openai a1;
         ui := ui a1; availableTools := availableTools a1 |} in
    match connect with
    | Resolved _ =>
      let discovered (tools : list string) :=
        {| client := true; transport := true; openai := openai a2;
           ui := ui a2; availableTools := tools |} in
      let welcome (a3 : CopilotApp) :=
        if openai a3 then
          with_ui (snd (addMessage now system connected_with_openai
                                   (showConnectedWithOpenAI (ui a3)))) a3
        else
          with_ui (snd (addMessage now system connected_plain
                                   (showConnected (ui a3)))) a3 in
      match listTools with
      | Resolved tools => welcome (discovered (map name tools))
      | Rejected _ => welcome a2
      | Pending => a2
      end
    | Rejected e => initialize_failed now now' e a2
    | Pending => a2
    end
  | Rejected e => initialize_failed now now' e a1
  | Pending => a1
  end.

(** The methods of [ChatUI] and of the application that change the
    interface once it is built, with what the surroundings decide. *)
Inductive action : Type :=
| ShowConnecting
| ShowConnected
| ShowConnectedWithOpenAI
| ShowDisconnected
| AddMessage (now : Z) (t : message_type) (text : string)
| ShowTyping
| HideTyping
| Input (value : string) (scrollHeight : Z)   (* the user edits the input *)
| ClearInput (scrollHeight : Z)
| SendMessage (now scrollHeight : Z) (app : bool).

Definition perform (act : action) (u : ChatUI) : ChatUI :=
  match act with
  | ShowConnecting => showConnecting u
  | ShowConnected => showConnected u
  | ShowConnectedWithOpenAI => showConnectedWithOpenAI u
  | ShowDisconnected => showDisconnected u
  | AddMessage now t text => snd (addMessage now t text u)
  | ShowTyping => showTyping u
  | HideTyping => hideTyping u
  | Input value scrollHeight =>
    autoResize scrollHeight (set_inputValue value u)
  | ClearInput scrollHeight => clearInput scrollHeight u
  | SendMessage now scrollHeight app =>
    fst (sendMessage now scrollHeight app u)
  end.

Definition perform_all (acts : list action) (u : ChatUI) : ChatUI :=
  fold_left (fun u' act => perform act u') acts u.

Definition is_show (act : action) : bool :=
  match act with
  | ShowConnecting | ShowConnected | ShowConnectedWithOpenAI
  | ShowDisconnected => true
  | _ => false
  end.

(** The message [addMessage] builds at clock [now]. *)
Definition message_at (now : Z) (t : message_type) (text : string)
  : ChatMessage :=
  {| id := JS.to_string (JS.Fin now); type := t; content := text;
     timestamp := now |}.

(** The controls agree with the status shown. *)
Definition status_agrees (u : ChatUI) : Prop :=
  inputDisabled u = sendDisabled u
  /\ quickActionsDisplay u = (if inputDisabled u then "none" else "flex")
  /\ (connectionErrorDisplay u = "block" <-> statusText u = "Disconnected")
  /\ (welcomeDisplay u = "block" <-> statusText u = "Connecting...")
  /\ (inputDisabled u = false
      <-> statusText u = "Connected" \/ statusText u = "Connected (OpenAI)").

(** The interface and the application as their constructors leave them, on
    a page whose elements carry no inline style and no text. *)
Definition newChatUI : ChatUI :=
  {| messages := []; messageContainer := [];
     inputValue := ""; inputDisabled := false; inputHeight := "";
     sendDisabled := false; statusText := ""; statusBackground := "";
     typingDisplay := ""; quickActionsDisplay := ""; welcomeDisplay := "";
     connectionErrorDisplay := ""; scrollTimers := 0 |}.

Definition newCopilotApp : CopilotApp :=
  {| client := false; transport := false; openai := false;
     ui := newChatUI; availableTools := [] |}.

End Copilot.

Import JS Logic.

(* ================================================================== *)
(** ** The order on numbers                                            *)
(* ================================================================== *)

Lemma or_zero_clean (x : number) : clean (or_zero x) = true.
Proof.
  destruct x as [z| | | |]; unfold or_zero; simpl; try reflexivity.
  destruct (z =? 0); reflexivity.
Qed.

Lemma or_zero_of_clean (x : number) : clean x = true -> or_zero x = x.
Proof.
  destruct x as [z| | | |]; unfold or_zero; simpl;
    try discriminate; try reflexivity.
  intros _. destruct (Z.eqb_spec z 0); simpl; congruence.
Qed.

Lemma lt_irrefl (x : number) : lt x x = false.
Proof. destruct x; simpl; try reflexivity. apply Z.ltb_irrefl. Qed.

Lemma lt_asym (x y : number) : lt x y = true -> lt y x = false.
Proof.
  destruct x, y; simpl; try reflexivity; try discriminate;
    rewrite ?Z.ltb_lt, ?Z.ltb_ge; lia.
Qed.

Lemma lt_trans (x y z : number) :
  lt x y = true -> lt y z = true -> lt x z = true.
Proof.
  destruct x, y, z; simpl; try reflexivity; try discriminate;
    rewrite ?Z.ltb_lt; lia.
Qed.

(** On clean numbers the order is total. *)
Lemma lt_total (x y : number) :
  clean x = true -> clean y = true ->
  lt x y = false -> lt y x = false -> x = y.
Proof.
  destruct x, y; simpl; try reflexivity; try discriminate;
    rewrite ?Z.ltb_ge; intros; f_equal; lia.
Qed.

(* ================================================================== *)
(** ** compareVersions: the loop and the padded lexicographic order    *)
(* ================================================================== *)

Lemma index_or_zero_nil (i : nat) : index_or_zero [] i = Fin 0.
Proof. unfold index_or_zero. destruct i; reflexivity. Qed.

Lemma index_or_zero_cons (x : number) (v : list number) (i : nat) :
  index_or_zero (x :: v) (S i) = index_or_zero v i.
Proof. reflexivity. Qed.

Lemma index_or_zero_head (x : number) (v : list number) :
  index_or_zero (x :: v) 0 = or_zero x.
Proof. reflexivity. Qed.

Lemma compare_loop_cons (x y : number) (v1 v2 : list number) (n i : nat) :
  compare_loop (x :: v1) (y :: v2) (S i) n = compare_loop v1 v2 i n.
Proof.
  revert i. induction n as [|n IH]; intros i; cbn [compare_loop];
    [reflexivity|].
  rewrite IH, !index_or_zero_cons. reflexivity.
Qed.

Lemma compare_loop_cons_l (x : number) (v1 : list number) (n i : nat) :
  compare_loop (x :: v1) [] (S i) n = compare_loop v1 [] i n.
Proof.
  revert i. induction n as [|n IH]; intros i; cbn [compare_loop];
    [reflexivity|].
  rewrite IH, !index_or_zero_cons, !index_or_zero_nil. reflexivity.
Qed.

Lemma compare_loop_cons_r (y : number) (v2 : list number) (n i : nat) :
  compare_loop [] (y :: v2) (S i) n = compare_loop [] v2 i n.
Proof.
  revert i. induction n as [|n IH]; intros i; cbn [compare_loop];
    [reflexivity|].
  rewrite IH, !index_or_zero_cons, !index_or_zero_nil. reflexivity.
Qed.

Lemma compare_loop_nil (n i j : nat) :
  compare_loop [] [] i n = compare_loop [] [] j n.
Proof.
  revert i j. induction n as [|n IH]; intros i j; cbn [compare_loop];
    [reflexivity|].
  rewrite !index_or_zero_nil. unfold gt. rewrite lt_irrefl. apply IH.
Qed.

Lemma pad_nil_succ (n : nat) : pad (S n) [] = Fin 0 :: pad n [].
Proof. unfold pad. simpl. rewrite Nat.sub_0_r. reflexivity. Qed.

Lemma pad_cons_succ (n : nat) (x : number) (v : list number) :
  pad (S n) (x :: v) = x :: pad n v.
Proof. reflexivity. Qed.

(** The loop run for [n] rounds is the lexicographic comparison of the two
    versions, cleaned by [|| 0] and padded to length [n]. *)
Lemma compare_loop_padded (n : nat) (v1 v2 : list number) :
  (List.length v1 <= n)%nat -> (List.length v2 <= n)%nat ->
  compare_loop v1 v2 0 n
  = lexicographic (pad n (map or_zero v1)) (pad n (map or_zero v2)).
Proof.
  revert v1 v2. induction n as [|n IH]; intros v1 v2 H1 H2.
  - destruct v1; [|simpl in H1; lia]. destruct v2; [|simpl in H2; lia].
    reflexivity.
  - destruct v1 as [|x v1], v2 as [|y v2]; simpl in H1, H2; simpl map;
      rewrite ?pad_nil_succ, ?pad_cons_succ;
      cbn [compare_loop lexicographic];
      rewrite ?index_or_zero_nil, ?index_or_zero_head; unfold gt.
    + rewrite lt_irrefl, (compare_loop_nil n 1 0).
      apply (IH [] []); simpl; lia.
    + rewrite compare_loop_cons_r, (IH [] v2); [reflexivity | simpl; lia | lia].
    + rewrite compare_loop_cons_l, (IH v1 []); [reflexivity | lia | simpl; lia].
    + rewrite compare_loop_cons, (IH v1 v2); [reflexivity | lia | lia].
Qed.

Lemma compareVersions_padded (v1 v2 : list number) :
  compareVersions v1 v2 = padded_compare (map or_zero v1) (map or_zero v2).
Proof.
  unfold compareVersions, padded_compare. rewrite !length_map.
  apply compare_loop_padded; lia.
Qed.

Lemma map_or_zero_clean (v : list number) :
  forallb clean v = true -> map or_zero v = v.
Proof.
  induction v as [|x v IH]; simpl; [reflexivity|].
  intros H. apply andb_true_iff in H as [Hx Hv].
  rewrite or_zero_of_clean, IH; auto.
Qed.

Lemma parseVersion_clean (s : string) : forallb clean (parseVersion s) = true.
Proof.
  unfold parseVersion. induction (split "." s) as [|part parts IH]; simpl.
  - reflexivity.
  - rewrite or_zero_clean, IH. reflexivity.
Qed.

Lemma lexicographic_antisym (a b : list number) :
  lexicographic a b = - lexicographic b a.
Proof.
  revert b. induction a as [|x a IH]; intros [|y b]; simpl; try reflexivity.
  destruct (lt x y) eqn:Hxy.
  - rewrite (lt_asym _ _ Hxy). reflexivity.
  - destruct (lt y x); [reflexivity|]. apply IH.
Qed.

Lemma lexicographic_refl (a : list number) : lexicographic a a = 0.
Proof.
  induction a as [|x a IH]; simpl; [reflexivity|].
  rewrite lt_irrefl. exact IH.
Qed.

Lemma compareVersions_antisym (v1 v2 : list number) :
  compareVersions v1 v2 = - compareVersions v2 v1.
Proof.
  rewrite !compareVersions_padded. unfold padded_compare.
  rewrite (Nat.max_comm (List.length (map or_zero v2))).
  apply lexicographic_antisym.
Qed.

Lemma compareVersions_refl (v : list number) : compareVersions v v = 0.
Proof.
  rewrite compareVersions_padded. apply lexicographic_refl.
Qed.

Lemma compareVersions_range (v1 v2 : list number) :
  compareVersions v1 v2 = -1 \/ compareVersions v1 v2 = 0
  \/ compareVersions v1 v2 = 1.
Proof.
  rewrite compareVersions_padded. unfold padded_compare.
  generalize (pad (Nat.max (List.length (map or_zero v1))
                           (List.length (map or_zero v2))) (map or_zero v1)).
  generalize (pad (Nat.max (List.length (map or_zero v1))
                           (List.length (map or_zero v2))) (map or_zero v2)).
  intros b a. revert b.
  induction a as [|x a IH]; intros [|y b]; simpl; auto.
  destruct (lt x y); auto. destruct (lt y x); auto.
Qed.

(* ================================================================== *)
(** ** Version comparison, range containment and negotiation           *)
(* ================================================================== *)

Lemma compareVersions_parsed (s1 s2 : string) :
  compareVersions (parseVersion s1) (parseVersion s2)
  = padded_compare (parseVersion s1) (parseVersion s2).
Proof.
  rewrite compareVersions_padded.
  rewrite !map_or_zero_clean by apply parseVersion_clean. reflexivity.
Qed.

(** C4: the comparator of [logic.ts] is the lexicographic comparison, left
    to right, of the numeric components padded with zeros to a common
    length, so "1" equals "1.0"; it is antisymmetric,
    [compare(v1, v2) = - compare(v2, v1)], and reflexive,
    [compare(v1, v1) = 0], on all component lists, parsed versions among
    them. *)
Theorem compareVersions_padded_lexicographic :
  (forall s1 s2 : string,
      compareVersions (parseVersion s1) (parseVersion s2)
      = padded_compare (parseVersion s1) (parseVersion s2))
  /\ compareVersions (parseVersion "1") (parseVersion "1.0") = 0
  /\ (forall v1 v2 : list number,
         compareVersions v1 v2 = - compareVersions v2 v1)
  /\ (forall v1 : list number, compareVersions v1 v1 = 0).
Proof.
  split; [|split; [|split]].
  - apply compareVersions_parsed.
  - reflexivity.
  - apply compareVersions_antisym.
  - apply compareVersions_refl.
Qed.

Lemma parseVersion_call_string (s : string) :
  parseVersion_call s = ret (parseVersion s).
Proof. reflexivity. Qed.

(** A value that is not a string makes [parseVersion] throw. *)
Lemma parseVersion_call_throws (v : value) :
  is_string v = false -> exists error, parseVersion_call v = throw error.
Proof.
  destruct v; try discriminate; intros _; eexists; reflexivity.
Qed.

Lemma isVersionInRange_unfold (version minVersion maxVersion : string) :
  isVersionInRange version minVersion maxVersion
  = ret ((compareVersions (parseVersion version) (parseVersion minVersion)
          >=? 0)
         && (compareVersions (parseVersion version) (parseVersion maxVersion)
             <=? 0)).
Proof. reflexivity. Qed.

Lemma negotiateVersion_unfold (a b c d : string) :
  negotiateVersion a b c d
  = ret (let oMin := overlapMin (parseVersion a) (parseVersion c) in
         let oMax := overlapMax (parseVersion b) (parseVersion d) in
         if compareVersions oMin oMax <=? 0
         then Some (versionToString oMax) else None).
Proof.
  unfold negotiateVersion, negotiateVersion_try.
  rewrite !parseVersion_call_string. cbv zeta.
  unfold bind, ret, try_catch.
  destruct (compareVersions _ _ <=? 0); reflexivity.
Qed.

Lemma ret_inj {A} (x y : A) : ret x = ret y -> x = y.
Proof. unfold ret. congruence. Qed.

(** C3: [isVersionInRange(version, min, max)] returns [true] exactly when
    [version >= min] and [version <= max] under the padded lexicographic
    comparator, both bounds included, and [false] otherwise; "1.2" and "2.0"
    are in ["1.0", "2.0"], "0.9" is not. *)
Theorem isVersionInRange_inclusive :
  (forall version min max : string,
      isVersionInRange version min max = ret true
      <-> (padded_compare (parseVersion version) (parseVersion min) >= 0
           /\ padded_compare (parseVersion version) (parseVersion max) <= 0))
  /\ (forall version min max : string,
         isVersionInRange version min max = ret false
         <-> ~ (padded_compare (parseVersion version) (parseVersion min) >= 0
                /\ padded_compare (parseVersion version) (parseVersion max) <= 0))
  /\ isVersionInRange "1.2" "1.0" "2.0" = ret true
  /\ isVersionInRange "0.9" "1.0" "2.0" = ret false
  /\ isVersionInRange "2.0" "1.0" "2.0" = ret true.
Proof.
  pose proof compareVersions_parsed as Hpad.
  split; [|split; [|repeat split]].
  - intros version min max. rewrite isVersionInRange_unfold, <- !Hpad.
    split.
    + intros H. apply ret_inj, andb_true_iff in H as [H1 H2].
      apply Z.geb_le in H1. apply Z.leb_le in H2. lia.
    + intros [H1 H2]. f_equal. apply andb_true_iff. split.
      * apply Z.geb_le. lia.
      * apply Z.leb_le. lia.
  - intros version min max. rewrite isVersionInRange_unfold, <- !Hpad.
    split.
    + intros H [H1 H2]. apply ret_inj, andb_false_iff in H as [H|H].
      * rewrite Z.geb_leb, Z.leb_gt in H. lia.
      * rewrite Z.leb_gt in H. lia.
    + intros H. f_equal. apply not_true_is_false. intros Ht.
      apply andb_true_iff in Ht as [H1 H2].
      apply Z.geb_le in H1. apply Z.leb_le in H2. apply H. lia.
Qed.

(** The overlap as [negotiateVersion] computes it: [overlapMin] is the
    larger of the two minimum versions and [overlapMax] the smaller of the
    two maximum versions under the comparator, and whenever
    [overlapMin <= overlapMax] the result is the string that
    [versionToString] prints for [overlapMax]; so
    ("1.0","1.0","1.0","1.0") gives "1.0" and ("1.0","2.0","1.5","3.0")
    gives "2.0".  Whether that string reads back as [overlapMax] is another
    matter, settled below. *)
Lemma negotiateVersion_prints_overlapMax :
  (forall clientMin clientMax serverMin serverMax : string,
      let cMin := parseVersion clientMin in
      let cMax := parseVersion clientMax in
      let sMin := parseVersion serverMin in
      let sMax := parseVersion serverMax in
      let oMin := overlapMin cMin sMin in
      let oMax := overlapMax cMax sMax in
      ((oMin = cMin \/ oMin = sMin)
       /\ version_ge oMin cMin /\ version_ge oMin sMin)
      /\ ((oMax = cMax \/ oMax = sMax)
          /\ version_le oMax cMax /\ version_le oMax sMax)
      /\ (version_le oMin oMax ->
          negotiateVersion clientMin clientMax serverMin serverMax
          = ret (Some (versionToString oMax))))
  /\ negotiateVersion "1.0" "1.0" "1.0" "1.0" = ret (Some "1.0")
  /\ negotiateVersion "1.0" "2.0" "1.5" "3.0" = ret (Some "2.0").
Proof.
  split; [|split; reflexivity].
  intros clientMin clientMax serverMin serverMax cMin cMax sMin sMax oMin oMax.
  unfold version_ge, version_le.
  split; [|split].
  - subst oMin. unfold overlapMin.
    destruct (compareVersions cMin sMin >=? 0) eqn:E.
    + apply Z.geb_le in E. rewrite compareVersions_refl.
      repeat split; auto; lia.
    + rewrite Z.geb_leb, Z.leb_gt in E.
      rewrite compareVersions_refl, (compareVersions_antisym sMin cMin).
      repeat split; auto; lia.
  - subst oMax. unfold overlapMax.
    destruct (compareVersions cMax sMax <=? 0) eqn:E.
    + apply Z.leb_le in E. rewrite compareVersions_refl.
      repeat split; auto; lia.
    + rewrite Z.leb_gt in E.
      rewrite compareVersions_refl, (compareVersions_antisym sMax cMax).
      repeat split; auto; lia.
  - intros H. rewrite negotiateVersion_unfold. cbv zeta.
    fold cMin cMax sMin sMax. fold oMin oMax.
    apply Z.leb_le in H. rewrite H. reflexivity.
Qed.

(** Whatever is passed, [negotiateVersion] returns: a thrown error is
    caught, logged in one console line, and turned into [null]. *)
Lemma negotiateVersion_catches (a b c d : value) :
  is_string a && is_string b && is_string c && is_string d = false ->
  exists line : string, negotiateVersion a b c d = (Returns None, [line]).
Proof.
  intros H. unfold negotiateVersion, negotiateVersion_try.
  destruct a as [sa| | | |]; try (eexists; reflexivity).
  destruct b as [sb| | | |]; try (eexists; reflexivity).
  destruct c as [sc| | | |]; try (eexists; reflexivity).
  destruct d as [sd| | | |]; try (eexists; reflexivity).
  discriminate H.
Qed.

(** C2: [negotiateVersion] never throws to its caller: whatever it is
    given, it returns.  Where the ranges are disjoint
    ([overlapMin > overlapMax]) it returns [null]; an error raised while
    parsing (an argument that is no string) is caught, logged, and reported
    as [null] too; ("1.0","1.1","2.0","2.1") gives [null]. *)
Theorem negotiateVersion_never_throws :
  (forall a b c d : value, exists r : option string,
        fst (negotiateVersion a b c d) = Returns r)
  /\ (forall a b c d : string,
         compareVersions (overlapMin (parseVersion a) (parseVersion c))
                         (overlapMax (parseVersion b) (parseVersion d)) > 0 ->
         negotiateVersion a b c d = ret None)
  /\ (forall a b c d : value,
         is_string a && is_string b && is_string c && is_string d = false ->
         exists line : string,
           negotiateVersion a b c d = (Returns None, [line]))
  /\ (forall (error : string) (out : list string),
         try_catch (Throws error, out) negotiateVersion_catch
         = (Returns None,
            (out ++ [("Error negotiating versions: " ++ error)%string])%list))
  /\ negotiateVersion "1.0" "1.1" "2.0" "2.1" = ret None
  /\ negotiateVersion Undefined "1.1" "2.0" "2.1"
     = (Returns None,
        ["Error negotiating versions: TypeError: cannot read property 'split'"]).
Proof.
  split; [|split; [|split; [|split; [|split]]]].
  - intros a b c d.
    destruct (is_string a && is_string b && is_string c && is_string d)
      eqn:E.
    + destruct a, b, c, d; try discriminate E.
      rewrite negotiateVersion_unfold. eexists. reflexivity.
    + destruct (negotiateVersion_catches a b c d E) as [line ->].
      eexists. reflexivity.
  - intros a b c d H. rewrite negotiateVersion_unfold. cbv zeta.
    apply Z.gt_lt, Z.leb_gt in H. rewrite H. reflexivity.
  - apply negotiateVersion_catches.
  - intros error out. reflexivity.
  - reflexivity.
  - reflexivity.
Qed.

(** [isVersionInRange] returns whatever it is given: an argument that is no
    string makes the [try] block throw, and the [catch] block answers
    [false] after logging one line. *)
Theorem isVersionInRange_never_throws :
  (forall version min max : value, exists b : bool,
        fst (isVersionInRange version min max) = Returns b)
  /\ (forall version min max : value,
         is_string version && is_string min && is_string max = false ->
         exists line : string,
           isVersionInRange version min max = (Returns false, [line])).
Proof.
  assert (Hcatch : forall version min max : value,
             is_string version && is_string min && is_string max = false ->
             exists line : string,
               isVersionInRange version min max = (Returns false, [line])).
  { intros version min max H. unfold isVersionInRange, isVersionInRange_try.
    destruct version as [sv| | | |]; try (eexists; reflexivity).
    destruct min as [sm| | | |]; try (eexists; reflexivity).
    destruct max as [sx| | | |]; try (eexists; reflexivity).
    discriminate H. }
  split; [|exact Hcatch].
  intros version min max.
  destruct (is_string version && is_string min && is_string max) eqn:E.
  - destruct version, min, max; try discriminate E.
    rewrite isVersionInRange_unfold. eexists. reflexivity.
  - destruct (Hcatch version min max E) as [line ->]. eexists. reflexivity.
Qed.

(** C9: on all string inputs the [try] blocks of [isVersionInRange] and
    [negotiateVersion] return without throwing, so each function returns
    what its [try] block computes, the [catch] block is never entered, and
    nothing is written to the console. *)
Theorem try_blocks_never_throw :
  (forall version min max : string, exists b : bool,
        isVersionInRange_try version min max = (Returns b, [])
        /\ isVersionInRange version min max = (Returns b, []))
  /\ (forall a b c d : string, exists r : option string,
         negotiateVersion_try a b c d = (Returns r, [])
         /\ negotiateVersion a b c d = (Returns r, [])).
Proof.
  split.
  - intros version min max. eexists. split; reflexivity.
  - intros a b c d. unfold negotiateVersion, negotiateVersion_try.
    rewrite !parseVersion_call_string. unfold bind, ret, try_catch.
    cbv zeta. destruct (compareVersions _ _ <=? 0); eexists; split; reflexivity.
Qed.

(* ================================================================== *)
(** ** Rounding to a double                                            *)
(* ================================================================== *)

Lemma round_magnitude_small (m : Z) : m < 2 ^ 53 -> round_magnitude m = m.
Proof.
  intros H. unfold round_magnitude.
  destruct (Z.ltb_spec m (2 ^ 53)); [reflexivity | lia].
Qed.

(** The shape of a rounded magnitude: a 53-bit significand times a power of
    two. *)
Lemma round_magnitude_shape (m : Z) :
  2 ^ 53 <= m ->
  exists q s : Z,
    2 ^ 52 <= q <= 2 ^ 53 /\ 1 <= s /\ round_magnitude m = q * 2 ^ s.
Proof.
  intros H. unfold round_magnitude.
  destruct (Z.ltb_spec m (2 ^ 53)); [lia|].
  assert (Hlog : 53 <= Z.log2 m) by (apply Z.log2_le_pow2; lia).
  set (sh := Z.log2 m - 52).
  assert (Hsh : 1 <= sh) by (unfold sh; lia).
  assert (Hpow : 0 < 2 ^ sh) by (apply Z.pow_pos_nonneg; lia).
  destruct (Z.log2_spec m) as [Hlo Hhi]; [lia|].
  assert (E1 : 2 ^ Z.log2 m = 2 ^ 52 * 2 ^ sh).
  { rewrite <- Z.pow_add_r by lia. f_equal. unfold sh. lia. }
  assert (E2 : 2 ^ Z.succ (Z.log2 m) = 2 ^ 53 * 2 ^ sh).
  { rewrite <- Z.pow_add_r by lia. f_equal. unfold sh. lia. }
  rewrite Z.shiftr_div_pow2 by lia.
  assert (Hq : 2 ^ 52 <= m / 2 ^ sh < 2 ^ 53).
  { split.
    - apply Z.div_le_lower_bound; lia.
    - apply Z.div_lt_upper_bound; lia. }
  cbv zeta.
  destruct ((2 ^ (sh - 1) <? m mod 2 ^ sh)
            || ((m mod 2 ^ sh =? 2 ^ (sh - 1)) && Z.odd (m / 2 ^ sh))).
  - exists (m / 2 ^ sh + 1), sh. rewrite Z.shiftl_mul_pow2 by lia.
    repeat split; lia.
  - exists (m / 2 ^ sh), sh. rewrite Z.shiftl_mul_pow2 by lia.
    repeat split; lia.
Qed.

Lemma round_magnitude_large (m : Z) :
  2 ^ 53 <= m -> 2 ^ 53 <= round_magnitude m.
Proof.
  intros H. destruct (round_magnitude_shape m H) as (q & s & Hq & Hs & ->).
  assert (2 ^ 1 <= 2 ^ s) by (apply Z.pow_le_mono_r; lia).
  change (2 ^ 1) with 2 in *. change (2 ^ 53) with (2 ^ 52 * 2). nia.
Qed.

Lemma round_magnitude_fixed (q s : Z) :
  2 ^ 52 <= q < 2 ^ 53 -> 1 <= s ->
  round_magnitude (q * 2 ^ s) = q * 2 ^ s.
Proof.
  intros Hq Hs.
  assert (Hpow : 2 <= 2 ^ s).
  { change 2 with (2 ^ 1) at 1. apply Z.pow_le_mono_r; lia. }
  assert (Hlog : Z.log2 (q * 2 ^ s) = 52 + s).
  { apply Z.log2_unique; [lia|].
    replace (Z.succ (52 + s)) with (53 + s) by lia.
    rewrite !Z.pow_add_r by lia. nia. }
  unfold round_magnitude.
  destruct (Z.ltb_spec (q * 2 ^ s) (2 ^ 53)); [nia|].
  rewrite Hlog. replace (52 + s - 52) with s by lia. cbv zeta.
  rewrite Z.shiftr_div_pow2, Z.div_mul, Z.mod_mul by lia.
  assert (Hhalf : 0 < 2 ^ (s - 1)) by (apply Z.pow_pos_nonneg; lia).
  destruct (Z.ltb_spec (2 ^ (s - 1)) 0); [lia|].
  destruct (Z.eqb_spec 0 (2 ^ (s - 1))); [lia|].
  simpl. apply Z.shiftl_mul_pow2. lia.
Qed.

Lemma round_magnitude_idempotent (m : Z) :
  round_magnitude (round_magnitude m) = round_magnitude m.
Proof.
  destruct (Z.lt_ge_cases m (2 ^ 53)) as [H|H].
  - rewrite (round_magnitude_small m H). apply round_magnitude_small, H.
  - destruct (round_magnitude_shape m H) as (q & s & Hq & Hs & ->).
    destruct (Z.eq_dec q (2 ^ 53)) as [->|Hne].
    + replace (2 ^ 53 * 2 ^ s) with (2 ^ 52 * 2 ^ (s + 1)).
      * apply round_magnitude_fixed; lia.
      * rewrite Z.pow_add_r by lia. change (2 ^ 53) with (2 ^ 52 * 2). 
        change (2 ^ 1) with 2. ring.
    + apply round_magnitude_fixed; lia.
Qed.

Lemma round_magnitude_pos (m : Z) : 0 < m -> 0 < round_magnitude m.
Proof.
  intros H. destruct (Z.lt_ge_cases m (2 ^ 53)) as [Hs|Hl].
  - rewrite round_magnitude_small; assumption.
  - pose proof (round_magnitude_large m Hl). lia.
Qed.

Lemma number_eqb_eq (a b : number) : number_eqb a b = true -> a = b.
Proof.
  destruct a, b; simpl; try discriminate; try reflexivity.
  intros H. apply Z.eqb_eq in H. congruence.
Qed.

Lemma number_eqb_refl (a : number) : number_eqb a a = true.
Proof. destruct a; simpl; try reflexivity. apply Z.eqb_refl. Qed.

Lemma to_double_zero : to_double 0 = Fin 0.
Proof. reflexivity. Qed.

Lemma to_double_fin (z w : Z) :
  to_double z = Fin w ->
  w = Z.sgn z * round_magnitude (Z.abs z)
  /\ (2 ^ 1024 <=? round_magnitude (Z.abs z)) = false.
Proof.
  unfold to_double. destruct (2 ^ 1024 <=? round_magnitude (Z.abs z)).
  - destruct (z <? 0); discriminate.
  - intros H. injection H as <-. auto.
Qed.

Lemma to_double_opp (z w : Z) :
  to_double z = Fin w -> to_double (- z) = Fin (- w).
Proof.
  intros H. apply to_double_fin in H as [-> Hb].
  unfold to_double. rewrite Z.abs_opp, Hb, Z.sgn_opp. f_equal. ring.
Qed.

Lemma to_double_positive (d z : Z) : to_double d = Fin z -> 0 < z -> 0 < d.
Proof.
  intros H Hz. apply to_double_fin in H as [-> _].
  destruct (Z.lt_trichotomy d 0) as [Hd|[->|Hd]]; [|simpl in Hz; lia|exact Hd].
  pose proof (round_magnitude_pos (Z.abs d)).
  rewrite Z.sgn_neg in Hz by exact Hd. lia.
Qed.

(** What [to_double] returns is a double. *)
Lemma to_double_representable (z w : Z) :
  to_double z = Fin w -> to_double w = Fin w.
Proof.
  intros H. apply to_double_fin in H as [-> Hb].
  destruct (Z.eq_dec z 0) as [->|Hz]; [reflexivity|].
  pose proof (round_magnitude_pos (Z.abs z)) as Hpos.
  set (v := round_magnitude (Z.abs z)) in *.
  assert (Hv : 0 < v) by (apply Hpos; lia).
  assert (Hs : Z.sgn z = 1 \/ Z.sgn z = -1) by lia.
  assert (Habs : Z.abs (Z.sgn z * v) = v) by (destruct Hs as [->| ->]; lia).
  assert (Hsgn : Z.sgn (Z.sgn z * v) = Z.sgn z)
    by (destruct Hs as [->| ->]; lia).
  assert (Hidem : round_magnitude v = v)
    by (unfold v; apply round_magnitude_idempotent).
  unfold to_double. rewrite Habs, Hidem, Hb, Hsgn. reflexivity.
Qed.

(* ================================================================== *)
(** ** Permissive parsing                                              *)
(* ================================================================== *)

Lemma digit_not_white_space (c : ascii) :
  is_digit c = true -> is_white_space c = false.
Proof.
  destruct c as [[] [] [] [] [] [] [] []]; try discriminate; reflexivity.
Qed.

Lemma digit_not_sign (c : ascii) (s : string) :
  is_digit c = true ->
  strip_sign (String c s) = String c s /\ is_negative (String c s) = false.
Proof.
  destruct c as [[] [] [] [] [] [] [] []]; try discriminate; split; reflexivity.
Qed.

Lemma leading_digits_app (ds rest : string) :
  all_digits ds = true -> starts_with_digit rest = false ->
  leading_digits (ds ++ rest) = ds.
Proof.
  intros Hds Hrest. induction ds as [|c ds IH]; simpl in *.
  - destruct rest as [|c rest]; simpl in *; [reflexivity|].
    rewrite Hrest. reflexivity.
  - apply andb_true_iff in Hds as [Hc Hds]. rewrite Hc, IH; auto.
Qed.

Lemma leading_digits_all (ds : string) :
  all_digits ds = true -> leading_digits ds = ds.
Proof.
  intros Hds. induction ds as [|c ds IH]; simpl in *; [reflexivity|].
  apply andb_true_iff in Hds as [Hc Hds]. rewrite Hc, IH; auto.
Qed.

(** [parseInt] on a string that starts with a digit: no white space to
    skip, no sign, the value of the leading digits. *)
Lemma parseInt10_digit_first (c : ascii) (s : string) :
  is_digit c = true ->
  parseInt10 (String c s)
  = let mathInt := digits_value 0 (leading_digits (String c s)) in
    if mathInt =? 0 then Fin 0 else to_double mathInt.
Proof.
  intros Hc. unfold parseInt10.
  assert (Ht : trim_start (String c s) = String c s).
  { simpl. rewrite (digit_not_white_space c Hc). reflexivity. }
  rewrite Ht.
  destruct (digit_not_sign c s Hc) as [-> ->].
  simpl leading_digits. rewrite Hc. reflexivity.
Qed.

Lemma parseInt10_ignores_suffix (ds rest : string) :
  valid_numeral ds = true -> starts_with_digit rest = false ->
  parseInt10 (ds ++ rest) = parseInt10 ds.
Proof.
  intros Hds Hrest. destruct ds as [|c ds]; [discriminate|].
  simpl in Hds. simpl append.
  pose proof Hds as Hall. apply andb_true_iff in Hds as [Hc Hds].
  rewrite !parseInt10_digit_first by exact Hc.
  change (String c (ds ++ rest)) with (String c ds ++ rest).
  rewrite leading_digits_app, leading_digits_all; auto.
Qed.

Lemma digits_value_nonneg (ds : string) (acc : Z) :
  0 <= acc -> all_digits ds = true -> 0 <= digits_value acc ds.
Proof.
  revert acc. induction ds as [|c ds IH]; intros acc Hacc H;
    cbn [digits_value all_digits] in *; [exact Hacc|].
  apply andb_true_iff in H as [Hc Hds]. apply IH; [|exact Hds].
  unfold is_digit in Hc. unfold digit_value.
  apply andb_true_iff in Hc as [Hc _]. apply N.leb_le in Hc. lia.
Qed.

Lemma to_double_safe (z : Z) : Z.abs z < 2 ^ 53 -> to_double z = Fin z.
Proof.
  intros H. unfold to_double. rewrite round_magnitude_small by exact H.
  destruct (Z.leb_spec (2 ^ 1024) (Z.abs z)) as [Hbig|_].
  - assert (2 ^ 53 <= 2 ^ 1024) by (apply Z.pow_le_mono_r; lia). lia.
  - f_equal. lia.
Qed.

(** A numeral below [2^53] is read exactly. *)
Lemma parseInt10_numeral (ds : string) :
  valid_numeral ds = true -> digits_value 0 ds < 2 ^ 53 ->
  or_zero (parseInt10 ds) = Fin (digits_value 0 ds).
Proof.
  intros Hds Hsafe. destruct ds as [|c ds]; [discriminate|].
  pose proof Hds as Hall. simpl in Hds.
  apply andb_true_iff in Hds as [Hc _].
  rewrite parseInt10_digit_first by exact Hc. cbv zeta.
  rewrite leading_digits_all by exact Hall.
  pose proof (digits_value_nonneg (String c ds) 0 (Z.le_refl 0) Hall) as Hpos.
  destruct (Z.eqb_spec (digits_value 0 (String c ds)) 0) as [->|Hne];
    [reflexivity|].
  rewrite to_double_safe by lia.
  apply or_zero_of_clean. reflexivity.
Qed.

Lemma parseInt10_no_digit (part : string) :
  leading_digits (strip_sign (trim_start part)) = "" ->
  parseInt10 part = NaN.
Proof. intros H. unfold parseInt10. rewrite H. reflexivity. Qed.

(** C5, as the documentation states it, fails: a component that is not a
    numeral does not always count as zero.  In "1.5x" the component "5x"
    is no numeral, yet it is read as 5. *)
Lemma parseVersion_keeps_digit_prefix :
  ~ (forall v : string, parseVersion v = map strict_component (split "." v)).
Proof.
  intros H. specialize (H "1.5x"). vm_compute in H. discriminate H.
Qed.

(** C5, amended: parsing never fails and yields one clean number (never
    NaN) per dot-separated component, each component deciding the number at
    its own place.  A component that, after leading white space and an
    optional sign, does not start with a decimal digit puts 0 there; a
    component that starts with a numeral puts there what the numeral alone
    would, whatever follows it, and that is the numeral's exact value when
    it is below [2^53].  So "1.x" parses like "1.0", and "1.5x" like
    "1.5". *)
Theorem parseVersion_permissive :
  (forall v : string,
      List.length (parseVersion v) = List.length (split "." v)
      /\ forallb clean (parseVersion v) = true)
  /\ (forall (v part : string) (i : nat),
         nth_error (split "." v) i = Some part ->
         (leading_digits (strip_sign (trim_start part)) = "" ->
          nth_error (parseVersion v) i = Some (Fin 0))
         /\ (forall ds rest : string,
                part = ds ++ rest ->
                valid_numeral ds = true -> starts_with_digit rest = false ->
                nth_error (parseVersion v) i
                = Some (or_zero (parseInt10 ds))
                /\ (digits_value 0 ds < 2 ^ 53 ->
                    nth_error (parseVersion v) i
                    = Some (Fin (digits_value 0 ds)))))
  /\ (forall part : string,
         leading_digits (strip_sign (trim_start part)) = "" ->
         or_zero (parseInt10 part) = Fin 0)
  /\ (forall ds rest : string,
         valid_numeral ds = true -> starts_with_digit rest = false ->
         or_zero (parseInt10 (ds ++ rest)) = or_zero (parseInt10 ds))
  /\ (forall ds : string,
         valid_numeral ds = true -> digits_value 0 ds < 2 ^ 53 ->
         or_zero (parseInt10 ds) = Fin (digits_value 0 ds))
  /\ parseVersion "1.x" = parseVersion "1.0"
  /\ parseVersion "1.5x" = parseVersion "1.5"
  /\ parseVersion "1.5x" = [Fin 1; Fin 5]
  /\ parseVersion "1.2.3x.y.5" = [Fin 1; Fin 2; Fin 3; Fin 0; Fin 5].
Proof.
  split; [|split; [|split; [|split; [|split; [|split; [|split; [|split]]]]]]].
  - intros v. split.
    + unfold parseVersion. apply length_map.
    + apply parseVersion_clean.
  - intros v part i H.
    assert (Hi : nth_error (parseVersion v) i
                 = Some (or_zero (parseInt10 part))).
    { unfold parseVersion. rewrite nth_error_map, H. reflexivity. }
    rewrite Hi. split.
    + intros Hnone. rewrite parseInt10_no_digit by exact Hnone. reflexivity.
    + intros ds rest -> Hds Hrest.
      rewrite parseInt10_ignores_suffix by auto.
      split; [reflexivity|].
      intros Hsafe. rewrite parseInt10_numeral by auto. reflexivity.
  - intros part H. rewrite parseInt10_no_digit by exact H. reflexivity.
  - intros ds rest Hds Hrest. rewrite parseInt10_ignores_suffix; auto.
  - apply parseInt10_numeral.
  - reflexivity.
  - reflexivity.
  - reflexivity.
  - reflexivity.
Qed.

(* ================================================================== *)
(** ** Decimal digits                                                  *)
(* ================================================================== *)

Lemma digit_char_spec (d : Z) :
  0 <= d < 10 ->
  is_digit (digit_char d) = true /\ digit_value (digit_char d) = d.
Proof.
  intros H.
  assert (E : d = 0 \/ d = 1 \/ d = 2 \/ d = 3 \/ d = 4 \/ d = 5 \/ d = 6
              \/ d = 7 \/ d = 8 \/ d = 9) by lia.
  repeat (destruct E as [->|E]; [split; reflexivity|]).
  subst d. split; reflexivity.
Qed.

Lemma string_app_assoc (s1 s2 s3 : string) :
  ((s1 ++ s2) ++ s3 = s1 ++ (s2 ++ s3))%string.
Proof.
  induction s1 as [|c s1 IH]; simpl; [reflexivity|]. rewrite IH. reflexivity.
Qed.

Lemma digits_value_app (acc : Z) (s1 s2 : string) :
  digits_value acc (s1 ++ s2) = digits_value (digits_value acc s1) s2.
Proof.
  revert acc. induction s1 as [|c s1 IH]; intros acc; simpl; [reflexivity|].
  apply IH.
Qed.

Lemma all_digits_app (s1 s2 : string) :
  all_digits (s1 ++ s2) = all_digits s1 && all_digits s2.
Proof.
  induction s1 as [|c s1 IH]; simpl; [reflexivity|].
  rewrite IH, andb_assoc. reflexivity.
Qed.

Lemma decimal_digits_unfold (fuel : nat) (n : Z) (acc : string) :
  decimal_digits fuel n acc
  = match fuel with
    | O => String (digit_char (n mod 10)) acc
    | S fuel' =>
      if n <? 10 then String (digit_char (n mod 10)) acc
      else decimal_digits fuel' (n / 10) (String (digit_char (n mod 10)) acc)
    end.
Proof. destruct fuel; reflexivity. Qed.

Lemma decimal_digits_acc (fuel : nat) (n : Z) (acc : string) :
  decimal_digits fuel n acc = (decimal_digits fuel n "" ++ acc)%string.
Proof.
  revert n acc. induction fuel as [|fuel IH]; intros n acc;
    rewrite (decimal_digits_unfold _ n acc), (decimal_digits_unfold _ n "").
  - reflexivity.
  - destruct (n <? 10); [reflexivity|].
    rewrite (IH (n / 10) (String _ acc)), (IH (n / 10) (String _ "")).
    rewrite string_app_assoc. reflexivity.
Qed.

Lemma decimal_digits_nonempty (fuel : nat) (n : Z) (acc : string) :
  decimal_digits fuel n acc <> "".
Proof.
  revert n acc. induction fuel as [|fuel IH]; intros n acc;
    rewrite decimal_digits_unfold; [discriminate|].
  destruct (n <? 10); [discriminate | apply IH].
Qed.

Lemma decimal_digits_spec (fuel : nat) (n : Z) :
  0 <= n < 2 ^ (Z.of_nat fuel + 1) ->
  digits_value 0 (decimal_digits fuel n "") = n
  /\ all_digits (decimal_digits fuel n "") = true.
Proof.
  revert n. induction fuel as [|fuel IH]; intros n Hn;
    rewrite decimal_digits_unfold.
  - change (2 ^ (Z.of_nat 0 + 1)) with 2 in Hn.
    destruct (digit_char_spec (n mod 10)) as [Hd Hv].
    { apply Z.mod_pos_bound. lia. }
    simpl. rewrite Hd, Hv. rewrite Z.mod_small by lia. auto.
  - destruct (digit_char_spec (n mod 10)) as [Hd Hv].
    { apply Z.mod_pos_bound. lia. }
    destruct (Z.ltb_spec n 10) as [Hlt|Hge].
    + simpl. rewrite Hd, Hv. rewrite Z.mod_small by lia. auto.
    + rewrite decimal_digits_acc.
      destruct (IH (n / 10)) as [IHv IHd].
      { split; [apply Z.div_pos; lia|].
        apply Z.div_lt_upper_bound; [lia|].
        replace (Z.of_nat (S fuel) + 1) with (Z.succ (Z.of_nat fuel + 1)) in Hn
          by lia.
        rewrite Z.pow_succ_r in Hn by lia. lia. }
      rewrite digits_value_app, all_digits_app, IHv, IHd.
      cbn [digits_value all_digits andb]. rewrite Hd, Hv.
      split; [|reflexivity].
      pose proof (Z.div_mod n 10). lia.
Qed.

Lemma decimal_spec (n : Z) :
  0 <= n ->
  digits_value 0 (decimal n) = n /\ all_digits (decimal n) = true
  /\ decimal n <> "".
Proof.
  intros H. unfold decimal.
  assert (Hb : 0 <= n < 2 ^ (Z.of_nat (Z.to_nat (Z.log2 n)) + 1)).
  { rewrite Z2Nat.id by apply Z.log2_nonneg.
    destruct (Z.eq_dec n 0) as [->|Hn]; [simpl; lia|].
    destruct (Z.log2_spec n); lia. }
  destruct (decimal_digits_spec _ n Hb). split; [|split]; auto.
  apply decimal_digits_nonempty.
Qed.

Lemma decimal_digits_length (fuel : nat) (n : Z) (acc : string) (k : nat) :
  0 <= n < 10 ^ Z.of_nat k -> (1 <= k)%nat ->
  (String.length (decimal_digits fuel n acc) <= k + String.length acc)%nat.
Proof.
  revert n acc k. induction fuel as [|fuel IH]; intros n acc k Hn Hk;
    rewrite decimal_digits_unfold.
  - simpl. lia.
  - destruct (Z.ltb_spec n 10) as [Hlt|Hge]; [simpl; lia|].
    destruct k as [|[|k]]; [lia| change (10 ^ Z.of_nat 1) with 10 in Hn; lia |].
    specialize (IH (n / 10) (String (digit_char (n mod 10)) acc) (S k)).
    simpl String.length in IH.
    assert (Hdiv : 0 <= n / 10 < 10 ^ Z.of_nat (S k)).
    { split; [apply Z.div_pos; lia|].
      apply Z.div_lt_upper_bound; [lia|].
      replace (Z.of_nat (S (S k))) with (Z.succ (Z.of_nat (S k))) in Hn by lia.
      rewrite Z.pow_succ_r in Hn by lia. lia. }
    specialize (IH Hdiv). lia.
Qed.

Lemma digit_count_bound (n : Z) (k : nat) :
  0 <= n < 10 ^ Z.of_nat k -> (1 <= k)%nat -> (digit_count n <= k)%nat.
Proof.
  intros Hn Hk. unfold digit_count, decimal.
  pose proof (decimal_digits_length (Z.to_nat (Z.log2 n)) n "" k Hn Hk).
  simpl in *. lia.
Qed.

(* ================================================================== *)
(** ** Number::toString read back by parseInt                          *)
(* ================================================================== *)

Lemma shortest_decimal_unfold (z : Z) (j : nat) :
  shortest_decimal z j
  = let u := 10 ^ Z.of_nat j in
    let lo := (z / u) * u in
    let hi := lo + u in
    match number_eqb (to_double lo) (Fin z),
          number_eqb (to_double hi) (Fin z) with
    | true, true =>
      if z - lo <? hi - z then lo
      else if hi - z <? z - lo then hi
      else if Z.even (z / u) then lo else hi
    | true, false => lo
    | false, true => hi
    | false, false =>
      match j with
      | O => z
      | S j' => shortest_decimal z j'
      end
    end.
Proof. destruct j; reflexivity. Qed.

(** The decimal chosen for a double denotes that double. *)
Lemma shortest_decimal_rounds (j : nat) (z : Z) :
  to_double z = Fin z -> to_double (shortest_decimal z j) = Fin z.
Proof.
  intros Hz. induction j as [|j IH]; rewrite shortest_decimal_unfold; cbv zeta;
    destruct (number_eqb (to_double (z / 10 ^ Z.of_nat _ * 10 ^ Z.of_nat _))
                         (Fin z)) eqn:Elo;
    destruct (number_eqb (to_double (z / 10 ^ Z.of_nat _ * 10 ^ Z.of_nat _
                                     + 10 ^ Z.of_nat _)) (Fin z)) eqn:Ehi;
    try apply number_eqb_eq in Elo; try apply number_eqb_eq in Ehi;
    repeat match goal with |- context [if ?b then _ else _] => destruct b end;
    assumption.
Qed.

Lemma to_double_pow10_21 : to_double (10 ^ 21) = Fin (10 ^ 21).
Proof. vm_compute. reflexivity. Qed.

(** Below [10^21] the chosen decimal stays below [10^21]. *)
Lemma shortest_decimal_bound (j : nat) (z : Z) :
  0 < z < 10 ^ 21 -> (j <= 20)%nat ->
  shortest_decimal z j < 10 ^ 21.
Proof.
  intros Hz. induction j as [|j IH]; intros Hj;
    rewrite shortest_decimal_unfold; cbv zeta.
  - change (10 ^ Z.of_nat 0) with 1. rewrite Z.div_1_r, Z.mul_1_r.
    destruct (number_eqb (to_double z) (Fin z));
      destruct (number_eqb (to_double (z + 1)) (Fin z)) eqn:Ehi;
      repeat match goal with |- context [if ?b then _ else _] => destruct b end;
      try lia;
      apply number_eqb_eq in Ehi;
      (destruct (Z.eq_dec (z + 1) (10 ^ 21)) as [E|E]; [|lia]);
      rewrite E, to_double_pow10_21 in Ehi; injection Ehi as Ehi; lia.
  - set (u := 10 ^ Z.of_nat (S j)).
    assert (Hu : 0 < u) by (apply Z.pow_pos_nonneg; lia).
    assert (Hsplit : 10 ^ 21 = u * 10 ^ (21 - Z.of_nat (S j))).
    { unfold u. rewrite <- Z.pow_add_r by lia. f_equal. lia. }
    assert (Hlo : z / u * u <= z)
      by (rewrite Z.mul_comm; apply Z.mul_div_le; lia).
    assert (Hq : z / u < 10 ^ (21 - Z.of_nat (S j))).
    { apply Z.div_lt_upper_bound; lia. }
    assert (Hhi : z / u * u + u <= 10 ^ 21) by (rewrite Hsplit; nia).
    assert (Hhi' : number_eqb (to_double (z / u * u + u)) (Fin z) = true ->
                   z / u * u + u < 10 ^ 21).
    { intros Ehi. apply number_eqb_eq in Ehi.
      destruct (Z.eq_dec (z / u * u + u) (10 ^ 21)) as [E|E]; [|lia].
      rewrite E, to_double_pow10_21 in Ehi. injection Ehi as Ehi. lia. }
    destruct (number_eqb (to_double (z / u * u)) (Fin z));
      destruct (number_eqb (to_double (z / u * u + u)) (Fin z));
      repeat match goal with |- context [if ?b then _ else _] => destruct b end;
      try (apply Hhi'; reflexivity); lia.
Qed.

Lemma all_digits_no_dot (s : string) : all_digits s = true -> no_dot s = true.
Proof.
  induction s as [|c s IH]; simpl; [reflexivity|].
  intros H. apply andb_true_iff in H as [Hc Hs]. rewrite (IH Hs), andb_true_r.
  clear - Hc. destruct c as [[] [] [] [] [] [] [] []]; try discriminate;
    reflexivity.
Qed.

(** [parseInt] on the decimal digits of a positive integer. *)
Lemma parseInt10_decimal (d : Z) :
  0 < d -> parseInt10 (decimal d) = to_double d.
Proof.
  intros Hd. destruct (decimal_spec d) as (Hv & Hall & Hne); [lia|].
  destruct (decimal d) as [|c s] eqn:E; [congruence|].
  pose proof Hall as Hc. simpl in Hc. apply andb_true_iff in Hc as [Hc _].
  rewrite parseInt10_digit_first by exact Hc. cbv zeta.
  rewrite leading_digits_all by exact Hall. rewrite Hv.
  destruct (Z.eqb_spec d 0); [lia | reflexivity].
Qed.

Lemma parseInt10_minus_decimal (d : Z) :
  0 < d -> parseInt10 (String "-" (decimal d)) = to_double (- d).
Proof.
  intros Hd. destruct (decimal_spec d) as (Hv & Hall & Hne); [lia|].
  unfold parseInt10. simpl trim_start.
  simpl is_negative. simpl strip_sign.
  rewrite leading_digits_all by exact Hall.
  destruct (decimal d) as [|c s] eqn:E; [congruence|].
  rewrite Hv. destruct (Z.eqb_spec d 0); [lia | reflexivity].
Qed.

Lemma positive_to_string_decimal (z : Z) :
  0 < z < 10 ^ 21 -> to_double z = Fin z ->
  exists d : Z, 0 < d /\ to_double d = Fin z
                /\ positive_to_string z = decimal d.
Proof.
  intros Hz Hrep. unfold positive_to_string.
  set (j := (digit_count z - 1)%nat).
  assert (Hj : (j <= 20)%nat).
  { pose proof (digit_count_bound z 21). unfold j.
    assert (digit_count z <= 21)%nat by (apply H; simpl; lia). lia. }
  pose proof (shortest_decimal_bound j z Hz Hj) as Hb.
  pose proof (shortest_decimal_rounds j z Hrep) as Hr.
  exists (shortest_decimal z j). split; [|split]; auto.
  - apply (to_double_positive _ z); [exact Hr | lia].
  - cbv zeta. destruct (Z.ltb_spec (shortest_decimal z j) (10 ^ 21));
      [reflexivity | lia].
Qed.

(** A plain double, printed and parsed again, is itself; and its printed
    form holds no dot. *)
Lemma parse_to_string (x : number) :
  plain x = true -> representable x = true ->
  or_zero (parseInt10 (to_string x)) = x /\ no_dot (to_string x) = true.
Proof.
  destruct x as [z| | | |]; try discriminate. simpl.
  intros Hp Hrep. apply Z.ltb_lt in Hp. apply number_eqb_eq in Hrep.
  destruct (Z.eqb_spec z 0) as [->|Hz]; [split; reflexivity|].
  destruct (Z.ltb_spec z 0) as [Hneg|Hpos].
  - destruct (positive_to_string_decimal (- z)) as (d & Hd & Hr & ->);
      [lia | |].
    { rewrite (to_double_opp z z Hrep). reflexivity. }
    destruct (decimal_spec d) as (_ & Hall & _); [lia|].
    split.
    + rewrite parseInt10_minus_decimal by exact Hd.
      rewrite (to_double_opp d (- z) Hr), Z.opp_involutive.
      unfold or_zero. simpl. destruct (Z.eqb_spec z 0); [lia | reflexivity].
    + simpl. apply all_digits_no_dot, Hall.
  - destruct (positive_to_string_decimal z) as (d & Hd & Hr & ->);
      [lia | exact Hrep |].
    destruct (decimal_spec d) as (_ & Hall & _); [lia|].
    split.
    + rewrite parseInt10_decimal by exact Hd. rewrite Hr.
      unfold or_zero. simpl. destruct (Z.eqb_spec z 0); [lia | reflexivity].
    + apply all_digits_no_dot, Hall.
Qed.

(** What [parseInt(part, 10) || 0] returns is a double. *)
Lemma parsed_component_representable (part : string) :
  representable (or_zero (parseInt10 part)) = true.
Proof.
  unfold parseInt10.
  destruct (leading_digits (strip_sign (trim_start part))); [reflexivity|].
  cbv zeta. destruct (_ =? 0).
  - destruct (is_negative _); reflexivity.
  - match goal with |- context [to_double ?k] => generalize k end.
    intros k. destruct (to_double k) as [w| | | |] eqn:E; try reflexivity.
    unfold or_zero. simpl. destruct (w =? 0); simpl.
    + reflexivity.
    + rewrite (to_double_representable k w E). apply Z.eqb_refl.
Qed.

Lemma parseVersion_representable (s : string) :
  forallb representable (parseVersion s) = true.
Proof.
  unfold parseVersion. induction (split "." s) as [|part parts IH]; simpl.
  - reflexivity.
  - rewrite parsed_component_representable, IH. reflexivity.
Qed.

Lemma split_nonempty (sep : ascii) (s : string) : split sep s <> [].
Proof.
  induction s as [|c s IH]; simpl; [discriminate|].
  destruct (Ascii.eqb c sep); [discriminate|].
  destruct (split sep s); [contradiction | discriminate].
Qed.

Lemma parseVersion_nonempty (s : string) : parseVersion s <> [].
Proof.
  unfold parseVersion. pose proof (split_nonempty "." s).
  destruct (split "." s); [contradiction | discriminate].
Qed.

Lemma split_no_dot (s : string) : no_dot s = true -> split "." s = [s].
Proof.
  induction s as [|c s IH]; simpl; [reflexivity|].
  intros H. apply andb_true_iff in H as [Hc Hs].
  apply negb_true_iff in Hc. rewrite Hc, (IH Hs). reflexivity.
Qed.

Lemma split_app_dot (s rest : string) :
  no_dot s = true -> split "." (s ++ "." ++ rest) = s :: split "." rest.
Proof.
  induction s as [|c s IH]; simpl; [reflexivity|].
  intros H. apply andb_true_iff in H as [Hc Hs].
  apply negb_true_iff in Hc. rewrite Hc. simpl in IH. rewrite (IH Hs).
  reflexivity.
Qed.

Lemma split_join (strs : list string) :
  strs <> [] -> forallb no_dot strs = true ->
  split "." (join "." strs) = strs.
Proof.
  induction strs as [|s strs IH]; [congruence|].
  intros _ H. simpl in H. apply andb_true_iff in H as [Hs Hrest].
  destruct strs as [|s' strs].
  - simpl. apply split_no_dot, Hs.
  - change (join "." (s :: s' :: strs))
      with (s ++ "." ++ join "." (s' :: strs))%string.
    rewrite split_app_dot by exact Hs.
    rewrite IH; [reflexivity | discriminate | exact Hrest].
Qed.

(** A version whose components are plain doubles is read back from its
    dotted string. *)
Lemma parseVersion_versionToString (parts : list number) :
  parts <> [] -> forallb plain parts = true ->
  forallb representable parts = true ->
  parseVersion (versionToString parts) = parts.
Proof.
  intros Hne Hp Hr. unfold parseVersion, versionToString, join_numbers.
  rewrite split_join.
  - rewrite map_map. clear Hne.
    induction parts as [|x parts IH]; simpl in *; [reflexivity|].
    apply andb_true_iff in Hp as [Hx Hp]. apply andb_true_iff in Hr as [Hy Hr].
    destruct (parse_to_string x Hx Hy) as [-> _]. rewrite IH; auto.
  - destruct parts; [congruence | discriminate].
  - clear Hne. induction parts as [|x parts IH]; simpl in *; [reflexivity|].
    apply andb_true_iff in Hp as [Hx Hp]. apply andb_true_iff in Hr as [Hy Hr].
    destruct (parse_to_string x Hx Hy) as [_ ->]. rewrite IH; auto.
Qed.

(* ================================================================== *)
(** ** The comparator is transitive                                    *)
(* ================================================================== *)

Lemma pad_length (n : nat) (v : list number) :
  (List.length v <= n)%nat -> List.length (pad n v) = n.
Proof.
  intros H. unfold pad. rewrite length_app, repeat_length. lia.
Qed.

Lemma pad_more (n k : nat) (v : list number) :
  (List.length v <= n)%nat ->
  pad (n + k) v = (pad n v ++ repeat (Fin 0) k)%list.
Proof.
  intros H. unfold pad. rewrite <- app_assoc, <- repeat_app.
  do 2 f_equal. lia.
Qed.

Lemma lexicographic_app (a b z : list number) :
  List.length a = List.length b ->
  lexicographic (a ++ z) (b ++ z) = lexicographic a b.
Proof.
  revert b. induction a as [|x a IH]; intros [|y b] H; simpl in *;
    try discriminate.
  - apply lexicographic_refl.
  - rewrite IH by lia. reflexivity.
Qed.

(** The comparison may be made at any common length that holds both
    versions. *)
Lemma compareVersions_padded_at (n : nat) (v1 v2 : list number) :
  (List.length v1 <= n)%nat -> (List.length v2 <= n)%nat ->
  compareVersions v1 v2
  = lexicographic (pad n (map or_zero v1)) (pad n (map or_zero v2)).
Proof.
  intros H1 H2. rewrite compareVersions_padded. unfold padded_compare.
  rewrite !length_map.
  set (m := Nat.max (List.length v1) (List.length v2)).
  replace n with (m + (n - m))%nat by lia.
  rewrite !pad_more by (rewrite length_map; lia).
  rewrite lexicographic_app; [reflexivity|].
  rewrite !pad_length; rewrite ?length_map; lia.
Qed.

Lemma pad_clean (n : nat) (v : list number) :
  forallb clean (pad n (map or_zero v)) = true.
Proof.
  unfold pad. rewrite forallb_app. apply andb_true_iff. split.
  - induction v as [|x v IH]; simpl; [reflexivity|].
    rewrite or_zero_clean, IH. reflexivity.
  - induction (n - List.length (map or_zero v))%nat; simpl; auto.
Qed.

Lemma lexicographic_trans (a b c : list number) :
  List.length a = List.length b -> List.length b = List.length c ->
  forallb clean a = true -> forallb clean b = true ->
  forallb clean c = true ->
  lexicographic a b <= 0 -> lexicographic b c <= 0 ->
  lexicographic a c <= 0.
Proof.
  revert b c. induction a as [|x a IH]; intros [|y b] [|z c];
    simpl; try discriminate; try lia.
  intros Hab Hbc Ha Hb Hc.
  apply andb_true_iff in Ha as [Hx Ha]. apply andb_true_iff in Hb as [Hy Hb].
  apply andb_true_iff in Hc as [Hz Hc].
  destruct (lt x y) eqn:Exy.
  - intros _. destruct (lt y z) eqn:Eyz.
    + intros _. rewrite (lt_trans x y z Exy Eyz). lia.
    + destruct (lt z y) eqn:Ezy; [lia|]. intros _.
      rewrite <- (lt_total y z Hy Hz Eyz Ezy), Exy. lia.
  - destruct (lt y x) eqn:Eyx; [lia|].
    rewrite (lt_total x y Hx Hy Exy Eyx).
    destruct (lt y z); [lia|]. destruct (lt z y); [lia|].
    apply IH; auto; lia.
Qed.

Lemma compareVersions_trans (a b c : list number) :
  compareVersions a b <= 0 -> compareVersions b c <= 0 ->
  compareVersions a c <= 0.
Proof.
  set (n := Nat.max (List.length a) (Nat.max (List.length b) (List.length c))).
  rewrite (compareVersions_padded_at n a b),
          (compareVersions_padded_at n b c),
          (compareVersions_padded_at n a c) by lia.
  apply lexicographic_trans;
    rewrite ?pad_length; rewrite ?length_map; try apply pad_clean; lia.
Qed.

(* ================================================================== *)
(** ** Negotiated versions and Number::toString                        *)
(* ================================================================== *)

(** C6 at a concrete input: with every bound equal to the 22-digit version
    "1000000000000000000000" ([10^21]) the negotiated version is printed in
    exponential form, "1e+21", which parses as version 1 and lies outside
    both ranges. *)
Theorem negotiateVersion_exponential_result :
  let bound := "1000000000000000000000" in
  negotiateVersion bound bound bound bound = ret (Some "1e+21")
  /\ parseVersion bound = [Fin (10 ^ 21)]
  /\ parseVersion "1e+21" = [Fin 1]
  /\ isVersionInRange "1e+21" bound bound = ret false.
Proof. cbv zeta. repeat split; vm_compute; reflexivity. Qed.

(** C1 at a concrete input: the client accepts versions up to
    "2.1000000000000000000000", the server up to "3.0".  The overlap is not
    empty and [overlapMax] is the client's maximum, [2; 10^21]; what is
    returned is "2.1e+21", which reads as version [2; 1]: older than
    [overlapMax], and older than "2.2", which both sides accept.  The
    version returned is not the newest that is mutually acceptable. *)
Theorem negotiateVersion_returns_older_than_overlapMax :
  let clientMax := "2.1000000000000000000000" in
  let oMin := overlapMin (parseVersion "1.0") (parseVersion "1.5") in
  let oMax := overlapMax (parseVersion clientMax) (parseVersion "3.0") in
  version_le oMin oMax
  /\ oMax = [Fin 2; Fin (10 ^ 21)]
  /\ negotiateVersion "1.0" clientMax "1.5" "3.0" = ret (Some "2.1e+21")
  /\ parseVersion "2.1e+21" = [Fin 2; Fin 1]
  /\ compareVersions (parseVersion "2.1e+21") oMax = -1
  /\ isVersionInRange "2.2" "1.0" clientMax = ret true
  /\ isVersionInRange "2.2" "1.5" "3.0" = ret true
  /\ compareVersions (parseVersion "2.1e+21") (parseVersion "2.2") = -1.
Proof.
  cbv zeta. split; [vm_compute; discriminate|].
  repeat split; vm_compute; reflexivity.
Qed.

(** Where every component of the two maximum versions is below [10^21] in
    magnitude, the version that [negotiateVersion] returns lies in both
    ranges as [isVersionInRange] judges them. *)
Theorem negotiateVersion_in_both_ranges
        (clientMin clientMax serverMin serverMax v : string) :
  forallb plain (parseVersion clientMax) = true ->
  forallb plain (parseVersion serverMax) = true ->
  negotiateVersion clientMin clientMax serverMin serverMax = ret (Some v) ->
  isVersionInRange v clientMin clientMax = ret true
  /\ isVersionInRange v serverMin serverMax = ret true.
Proof.
  intros Hc Hs H. rewrite negotiateVersion_unfold in H.
  apply ret_inj in H. cbv zeta in H.
  set (cMin := parseVersion clientMin) in *.
  set (cMax := parseVersion clientMax) in *.
  set (sMin := parseVersion serverMin) in *.
  set (sMax := parseVersion serverMax) in *.
  destruct (Z.leb_spec (compareVersions (overlapMin cMin sMin)
                                        (overlapMax cMax sMax)) 0)
    as [Hle|]; [|discriminate].
  injection H as <-.
  assert (Hparse : parseVersion (versionToString (overlapMax cMax sMax))
                   = overlapMax cMax sMax).
  { unfold overlapMax. destruct (compareVersions cMax sMax <=? 0);
      (apply parseVersion_versionToString;
       [apply parseVersion_nonempty | assumption
        | apply parseVersion_representable]). }
  assert (Hmin : compareVersions cMin (overlapMin cMin sMin) <= 0
                 /\ compareVersions sMin (overlapMin cMin sMin) <= 0).
  { unfold overlapMin. destruct (Z.geb_spec (compareVersions cMin sMin) 0).
    - rewrite compareVersions_refl, (compareVersions_antisym sMin cMin). lia.
    - rewrite compareVersions_refl. lia. }
  assert (Hmax : compareVersions (overlapMax cMax sMax) cMax <= 0
                 /\ compareVersions (overlapMax cMax sMax) sMax <= 0).
  { unfold overlapMax. destruct (Z.leb_spec (compareVersions cMax sMax) 0).
    - rewrite compareVersions_refl. lia.
    - rewrite compareVersions_refl, (compareVersions_antisym sMax cMax). lia. }
  destruct Hmin as [Hcmin Hsmin]. destruct Hmax as [Hcmax Hsmax].
  pose proof (compareVersions_trans _ _ _ Hcmin Hle) as Hc1.
  pose proof (compareVersions_trans _ _ _ Hsmin Hle) as Hs1.
  rewrite !isVersionInRange_unfold, Hparse. fold cMin cMax sMin sMax.
  rewrite (compareVersions_antisym (overlapMax cMax sMax) cMin).
  rewrite (compareVersions_antisym (overlapMax cMax sMax) sMin).
  split; f_equal; apply andb_true_iff; split;
    try (apply Z.geb_le; lia); apply Z.leb_le; lia.
Qed.

Lemma negotiateVersion_in_both_ranges_witness :
  isVersionInRange "2.0" "1.0" "2.0" = ret true
  /\ isVersionInRange "2.0" "1.5" "3.0" = ret true.
Proof.
  apply (negotiateVersion_in_both_ranges "1.0" "2.0" "1.5" "3.0" "2.0");
    reflexivity.
Defined.

(** The comparator orders versions transitively. *)
Theorem version_le_transitive (a b c : list number) :
  version_le a b -> version_le b c -> version_le a c.
Proof. unfold version_le. apply compareVersions_trans. Qed.

Lemma version_le_transitive_witness :
  version_le (parseVersion "1.0") (parseVersion "2").
Proof.
  apply (version_le_transitive (parseVersion "1.0") (parseVersion "1.5")
                               (parseVersion "2"));
    vm_compute; discriminate.
Defined.

(** Printing a parsed version and parsing it again gives the same
    components, as long as each is below [10^21] in magnitude. *)
Theorem versionToString_parsed_back (v : string) :
  forallb plain (parseVersion v) = true ->
  parseVersion (versionToString (parseVersion v)) = parseVersion v.
Proof.
  intros H. apply parseVersion_versionToString.
  - apply parseVersion_nonempty.
  - exact H.
  - apply parseVersion_representable.
Qed.

Lemma versionToString_parsed_back_witness :
  parseVersion (versionToString (parseVersion "01.5x.-3. 9007199254740993"))
  = parseVersion "01.5x.-3. 9007199254740993".
Proof.
  apply (versionToString_parsed_back "01.5x.-3. 9007199254740993").
  vm_compute. reflexivity.
Defined.

(* ================================================================== *)
(** ** The patient data store                                          *)
(* ================================================================== *)

Section StoreFacts.
Import Dashboard.

Variable num : Type.
Variable render : num -> string.

Lemma addMedicalHistoryEntry_patientData
      (icon title time : string) (st : page num) :
  patientData (addMedicalHistoryEntry num icon title time st) = patientData st.
Proof.
  unfold addMedicalHistoryEntry.
  destruct (getElementById (document st) "medical-history"); reflexivity.
Qed.

(** C10: [updateBloodPressure] and [updateBloodSugar] leave the page as it
    was when their DOM element is missing: no field of [patientData]
    changes and no history entry is added.  When the element is there, the
    store changes in the [bloodPressure] (respectively [bloodSugar]) field
    alone. *)
Theorem vital_sign_updates_atomic :
  forall st : page num,
    (forall systolic diastolic : num,
        getElementById (document st) "last-bp" = None ->
        let st' := updateBloodPressure num render systolic diastolic st in
        st' = st /\ patientData st' = patientData st
        /\ history st' = history st)
    /\ (forall value : num,
           getElementById (document st) "last-sugar" = None ->
           let st' := updateBloodSugar num render value st in
           st' = st /\ patientData st' = patientData st
           /\ history st' = history st)
    /\ (forall (systolic diastolic : num) (bpElement : Element),
           getElementById (document st) "last-bp" = Some bpElement ->
           let d := patientData st in
           let d' :=
             patientData (updateBloodPressure num render systolic diastolic st) in
           bloodPressure d'
           = {| systolic := systolic; diastolic := diastolic |}
           /\ name d' = name d /\ patientId d' = patientId d
           /\ dob d' = dob d /\ age d' = age d
           /\ bloodSugar d' = bloodSugar d /\ lastVisit d' = lastVisit d
           /\ totalVisits d' = totalVisits d
           /\ nextAppointment d' = nextAppointment d
           /\ allergies d' = allergies d /\ medications d' = medications d)
    /\ (forall (value : num) (sugarElement : Element),
           getElementById (document st) "last-sugar" = Some sugarElement ->
           let d := patientData st in
           let d' := patientData (updateBloodSugar num render value st) in
           bloodSugar d' = value
           /\ name d' = name d /\ patientId d' = patientId d
           /\ dob d' = dob d /\ age d' = age d
           /\ bloodPressure d' = bloodPressure d /\ lastVisit d' = lastVisit d
           /\ totalVisits d' = totalVisits d
           /\ nextAppointment d' = nextAppointment d
           /\ allergies d' = allergies d /\ medications d' = medications d).
Proof.
  intros st. split; [|split; [|split]].
  - intros systolic diastolic H. cbv zeta. unfold updateBloodPressure.
    rewrite H. auto.
  - intros value H. cbv zeta. unfold updateBloodSugar. rewrite H. auto.
  - intros systolic diastolic bpElement H. cbv zeta.
    unfold updateBloodPressure. rewrite H.
    rewrite addMedicalHistoryEntry_patientData. simpl. repeat split.
  - intros value sugarElement H. cbv zeta.
    unfold updateBloodSugar. rewrite H.
    rewrite addMedicalHistoryEntry_patientData. simpl. repeat split.
Qed.

End StoreFacts.

(** On the demo page a blood pressure reading reaches the cell, the store
    and the history; on a page without the cell nothing happens. *)
Example updateBloodPressure_on_dashboard :
  let st := {| Dashboard.patientData := Dashboard.initialPatientData;
               Dashboard.document := Dashboard.dashboardDocument;
               Dashboard.console := [] |} in
  let st' := Dashboard.updateBloodPressure number to_string
               (Fin 130) (Fin 85) st in
  Dashboard.bloodPressure (Dashboard.patientData st')
  = {| Dashboard.systolic := Fin 130; Dashboard.diastolic := Fin 85 |}
  /\ Dashboard.bloodSugar (Dashboard.patientData st') = Fin 95
  /\ option_map Dashboard.textContent (Dashboard.document st' "last-bp")
     = Some "130/85"
  /\ List.length (Dashboard.history st') = 1%nat
  /\ Dashboard.console st'
     = [ "Blood pressure updated to: 130/85 mmHg";
         "Medical history entry added: Blood Pressure Check - Today" ].
Proof. cbv zeta. repeat split; vm_compute; reflexivity. Qed.

Example updateBloodPressure_without_cell :
  let st := {| Dashboard.patientData := Dashboard.initialPatientData;
               Dashboard.document := Dashboard.emptyDocument;
               Dashboard.console := [] |} in
  Dashboard.updateBloodPressure number to_string (Fin 130) (Fin 85) st = st.
Proof. reflexivity. Qed.

(* ================================================================== *)
(** ** The fallback timer and the iframe load listener                 *)
(* ================================================================== *)

Section FallbackRace.
Import OuterPage.

Lemma run_app (s : state) (before after : list event) :
  run s (before ++ after)%list
  = (state_after (state_after s before) after,
     (callbacks s before ++ callbacks (state_after s before) after)%list).
Proof.
  unfold state_after, callbacks. revert s.
  induction before as [|e before IH]; intros s; simpl.
  - destruct (run s after). reflexivity.
  - destruct (dispatch s e) as [s1 ran1]. rewrite IH.
    destruct (run s1 before) as [s2 ran2]. simpl.
    rewrite app_assoc. reflexivity.
Qed.

Lemma callbacks_app (s : state) (before after : list event) :
  callbacks s (before ++ after)%list
  = (callbacks s before ++ callbacks (state_after s before) after)%list.
Proof. unfold callbacks at 1. rewrite run_app. reflexivity. Qed.

Lemma state_after_app (s : state) (before after : list event) :
  state_after s (before ++ after)%list
  = state_after (state_after s before) after.
Proof. unfold state_after at 1. rewrite run_app. reflexivity. Qed.

Lemma dispatch_not_pending (s : state) (e : event) :
  fallbackTimeout s <> Pending ->
  fallbackTimeout (fst (dispatch s e)) <> Pending
  /\ ran FallbackCallback (snd (dispatch s e)) = false.
Proof.
  intros H. destruct e; simpl.
  - destruct (fallbackTimeout s) eqn:E; simpl; try congruence;
      rewrite E; (split; [discriminate | reflexivity]).
  - destruct (loadListener s); simpl; [|auto].
    destruct (fallbackTimeout s); simpl; try congruence;
      (split; [discriminate | reflexivity]).
  - auto.
  - destruct (fallbackTimeout s); simpl; try congruence;
      (split; [discriminate | reflexivity]).
Qed.

(** A timer that is no longer pending never runs its callback. *)
Lemma no_fallback_once_not_pending (events : list event) (s : state) :
  fallbackTimeout s <> Pending ->
  ran FallbackCallback (callbacks s events) = false.
Proof.
  unfold callbacks. revert s.
  induction events as [|e events IH]; intros s H; simpl; [reflexivity|].
  destruct (dispatch_not_pending s e H) as [H1 H2].
  destruct (dispatch s e) as [s1 ran1]. simpl in H1, H2.
  specialize (IH s1 H1). destruct (run s1 events) as [s2 ran2]. simpl in *.
  unfold ran in *. rewrite existsb_app, H2, IH. reflexivity.
Qed.

Lemma loadListener_kept (events : list event) (s : state) :
  loadListener (state_after s events) = loadListener s.
Proof.
  unfold state_after. revert s.
  induction events as [|e events IH]; intros s; simpl; [reflexivity|].
  assert (H : loadListener (fst (dispatch s e)) = loadListener s).
  { destruct e; simpl; try reflexivity.
    - destruct (fallbackTimeout s); reflexivity.
    - destruct (loadListener s) eqn:E; simpl; congruence. }
  destruct (dispatch s e) as [s1 ran1]. simpl in H.
  specialize (IH s1). destruct (run s1 events) as [s2 ran2]. simpl in *.
  congruence.
Qed.

(** C7, as stated, fails in one direction: when the fallback timer fires
    first, the load listener is still there, and a later load event runs
    its handler; both callbacks have then run. *)
Lemma load_handler_runs_after_fallback :
  ~ (forall events : list event,
        ran FallbackCallback (callbacks initializeCopilot events)
        && ran LoadHandler (callbacks initializeCopilot events) = false).
Proof.
  intros H. specialize (H [FallbackElapses; IframeLoad]).
  vm_compute in H. discriminate H.
Qed.

(** C7, amended: the cancellation goes one way.  Once the iframe load
    event has fired, the fallback timer is cleared and its callback never
    runs afterwards, whatever else happens.  The load listener is never
    removed: every load event runs its handler, also after the fallback has
    fired. *)
Theorem load_event_cancels_fallback :
  (forall before after : list event,
      ran FallbackCallback
          (callbacks
             (state_after initializeCopilot (before ++ [IframeLoad])%list)
             after) = false)
  /\ (forall before : list event,
         callbacks initializeCopilot (before ++ [IframeLoad])%list
         = (callbacks initializeCopilot before ++ [LoadHandler])%list)
  /\ callbacks initializeCopilot [FallbackElapses; IframeLoad]
     = [FallbackCallback; LoadHandler]
  /\ callbacks initializeCopilot [IframeLoad; FallbackElapses]
     = [LoadHandler].
Proof.
  split; [|split; [|split; reflexivity]].
  - intros before after. apply no_fallback_once_not_pending.
    rewrite state_after_app.
    pose proof (loadListener_kept before initializeCopilot) as HL.
    simpl in HL. unfold state_after at 1. simpl. rewrite HL. simpl.
    destruct (fallbackTimeout (state_after initializeCopilot before));
      discriminate.
  - intros before. rewrite callbacks_app. f_equal.
    pose proof (loadListener_kept before initializeCopilot) as HL.
    simpl in HL. unfold callbacks. simpl. rewrite HL. reflexivity.
Qed.

End FallbackRace.

(* ================================================================== *)
(** ** The inner page's ready signal                                   *)
(* ================================================================== *)

Section ReadySignal.
Import InnerPage.

(** C8: when the inner page is embedded, its [DOMContentLoaded] handler
    posts a message of type "copilot-ready" to the parent.  It does so
    before any step of the transport handshake, and whatever becomes of the
    transport: the steps up to the signal are the same in every
    environment, also when [prepareToConnect] or [connect] reject or never
    settle, or when the application cannot even be constructed. *)
Theorem ready_signal_before_handshake :
  forall env : environment,
    embedded env = true ->
    exists after : list effect,
      onDOMContentLoaded env
      = (before_ready_signal
           ++ PostToParent "copilot-ready" "AI Copilot iframe is ready" "*"
           :: after)%list
      /\ existsb is_handshake before_ready_signal = false.
Proof.
  intros env H. unfold onDOMContentLoaded. rewrite H.
  eexists. split; reflexivity.
Qed.

Lemma ready_signal_before_handshake_witness :
  exists after : list effect,
    onDOMContentLoaded
      {| embedded := true; constructorThrows := false; hasApiKey := false;
         prepareToConnect := NeverSettles; clientConnect := Resolves;
         discoverTools := Resolves |}
    = (before_ready_signal
         ++ PostToParent "copilot-ready" "AI Copilot iframe is ready" "*"
         :: after)%list
    /\ existsb is_handshake before_ready_signal = false.
Proof.
  apply (ready_signal_before_handshake
           {| embedded := true; constructorThrows := false;
              hasApiKey := false; prepareToConnect := NeverSettles;
              clientConnect := Resolves; discoverTools := Resolves |}).
  reflexivity.
Defined.

End ReadySignal.

(* ================================================================== *)
(** ** More on the version order and on negotiation                    *)
(* ================================================================== *)

Lemma lexicographic_eq (a b : list number) :
  List.length a = List.length b ->
  forallb clean a = true -> forallb clean b = true ->
  lexicographic a b = 0 -> a = b.
Proof.
  revert b. induction a as [|x a IH]; intros [|y b]; simpl;
    try discriminate; try reflexivity.
  intros Hlen Ha Hb.
  apply andb_true_iff in Ha as [Hx Ha]. apply andb_true_iff in Hb as [Hy Hb].
  destruct (lt x y) eqn:Exy; [discriminate|].
  destruct (lt y x) eqn:Eyx; [discriminate|].
  intros H. rewrite (lt_total x y Hx Hy Exy Eyx). f_equal.
  apply IH; auto.
Qed.

(** Versions that compare equal compare alike with every other version. *)
Lemma compareVersions_equal_l (x x' y : list number) :
  compareVersions x x' = 0 -> compareVersions x y = compareVersions x' y.
Proof.
  set (n := Nat.max (List.length x)
                    (Nat.max (List.length x') (List.length y))).
  rewrite (compareVersions_padded_at n x x'),
          (compareVersions_padded_at n x y),
          (compareVersions_padded_at n x' y) by lia.
  intros H. apply lexicographic_eq in H.
  - rewrite H. reflexivity.
  - rewrite !pad_length; rewrite ?length_map; lia.
  - apply pad_clean.
  - apply pad_clean.
Qed.

Lemma compareVersions_equal_r (x x' y : list number) :
  compareVersions x x' = 0 -> compareVersions y x = compareVersions y x'.
Proof.
  intros H. rewrite (compareVersions_antisym y x),
                    (compareVersions_antisym y x').
  rewrite (compareVersions_equal_l x x' y H). reflexivity.
Qed.

Lemma overlapMin_upper (x y : list number) :
  compareVersions x (overlapMin x y) <= 0
  /\ compareVersions y (overlapMin x y) <= 0.
Proof.
  unfold overlapMin. destruct (Z.geb_spec (compareVersions x y) 0).
  - rewrite compareVersions_refl, (compareVersions_antisym y x). lia.
  - rewrite compareVersions_refl. lia.
Qed.

Lemma overlapMax_lower (x y : list number) :
  compareVersions (overlapMax x y) x <= 0
  /\ compareVersions (overlapMax x y) y <= 0.
Proof.
  unfold overlapMax. destruct (Z.leb_spec (compareVersions x y) 0).
  - rewrite compareVersions_refl. lia.
  - rewrite compareVersions_refl, (compareVersions_antisym y x). lia.
Qed.

Lemma overlapMin_cases (x y : list number) :
  overlapMin x y = x \/ overlapMin x y = y.
Proof. unfold overlapMin. destruct (_ >=? 0); auto. Qed.

Lemma overlapMax_cases (x y : list number) :
  overlapMax x y = x \/ overlapMax x y = y.
Proof. unfold overlapMax. destruct (_ <=? 0); auto. Qed.

Lemma negotiateVersion_null (a b c d : string) :
  negotiateVersion a b c d = ret None
  <-> compareVersions (overlapMin (parseVersion a) (parseVersion c))
                      (overlapMax (parseVersion b) (parseVersion d)) > 0.
Proof.
  rewrite negotiateVersion_unfold. cbv zeta.
  destruct (Z.leb_spec
              (compareVersions (overlapMin (parseVersion a) (parseVersion c))
                               (overlapMax (parseVersion b) (parseVersion d)))
              0) as [Hle|Hgt]; split; intros Hn;
    try reflexivity; try lia.
  apply ret_inj in Hn. discriminate Hn.
Qed.

Lemma isVersionInRange_true (v mn mx : string) :
  isVersionInRange v mn mx = ret true
  <-> compareVersions (parseVersion mn) (parseVersion v) <= 0
      /\ compareVersions (parseVersion v) (parseVersion mx) <= 0.
Proof.
  rewrite isVersionInRange_unfold.
  rewrite (compareVersions_antisym (parseVersion v) (parseVersion mn)).
  split.
  - intros H. apply ret_inj, andb_true_iff in H as [H1 H2].
    apply Z.geb_le in H1. apply Z.leb_le in H2. lia.
  - intros [H1 H2]. f_equal. apply andb_true_iff. split.
    + apply Z.geb_le. lia.
    + apply Z.leb_le. exact H2.
Qed.

(** Negotiation is complete: as soon as one version string lies in both
    ranges, [negotiateVersion] finds a version and does not answer [null]. *)
Theorem negotiateVersion_complete
        (clientMin clientMax serverMin serverMax common : string) :
  isVersionInRange common clientMin clientMax = ret true ->
  isVersionInRange common serverMin serverMax = ret true ->
  negotiateVersion clientMin clientMax serverMin serverMax
  = ret (Some (versionToString
                 (overlapMax (parseVersion clientMax)
                             (parseVersion serverMax)))).
Proof.
  intros Hc Hs. apply isVersionInRange_true in Hc as [Hc1 Hc2].
  apply isVersionInRange_true in Hs as [Hs1 Hs2].
  rewrite negotiateVersion_unfold. cbv zeta.
  set (v := parseVersion common) in *.
  assert (Hlo : compareVersions
                  (overlapMin (parseVersion clientMin) (parseVersion serverMin))
                  v <= 0).
  { destruct (overlapMin_cases (parseVersion clientMin)
                               (parseVersion serverMin)) as [-> | ->];
      assumption. }
  assert (Hhi : compareVersions
                  v (overlapMax (parseVersion clientMax)
                                (parseVersion serverMax)) <= 0).
  { destruct (overlapMax_cases (parseVersion clientMax)
                               (parseVersion serverMax)) as [-> | ->];
      assumption. }
  pose proof (compareVersions_trans _ _ _ Hlo Hhi) as H.
  apply Z.leb_le in H. rewrite H. reflexivity.
Qed.

Lemma negotiateVersion_complete_witness :
  negotiateVersion "1.0" "2.0" "1.5" "3.0"
  = ret (Some (versionToString
                 (overlapMax (parseVersion "2.0") (parseVersion "3.0")))).
Proof.
  apply (negotiateVersion_complete "1.0" "2.0" "1.5" "3.0" "1.7");
    reflexivity.
Defined.

(** A range declared upside down, its minimum above its maximum, holds no
    version, and negotiation against it fails whatever the other side
    offers. *)
Theorem inverted_range_is_empty (mn mx : string) :
  compareVersions (parseVersion mn) (parseVersion mx) > 0 ->
  (forall v : string, isVersionInRange v mn mx = ret false)
  /\ (forall otherMin otherMax : string,
         negotiateVersion mn mx otherMin otherMax = ret None
         /\ negotiateVersion otherMin otherMax mn mx = ret None).
Proof.
  intros Hinv. split.
  - intros v. destruct (isVersionInRange v mn mx) as [r out] eqn:E.
    rewrite isVersionInRange_unfold in E. unfold ret in E.
    injection E as <- <-. unfold ret. f_equal. f_equal.
    apply not_true_is_false. intros Ht.
    assert (Hin : isVersionInRange v mn mx = ret true)
      by (rewrite isVersionInRange_unfold, Ht; reflexivity).
    apply isVersionInRange_true in Hin as [H1 H2].
    pose proof (compareVersions_trans _ _ _ H1 H2). lia.
  - intros otherMin otherMax. split; apply negotiateVersion_null.
    + destruct (overlapMin_upper (parseVersion mn) (parseVersion otherMin))
        as [H1 _].
      destruct (overlapMax_lower (parseVersion mx) (parseVersion otherMax))
        as [H2 _].
      apply Z.lt_gt, Z.nle_gt. intros H.
      pose proof (compareVersions_trans _ _ _ H1 H) as H3.
      pose proof (compareVersions_trans _ _ _ H3 H2). lia.
    + destruct (overlapMin_upper (parseVersion otherMin) (parseVersion mn))
        as [_ H1].
      destruct (overlapMax_lower (parseVersion otherMax) (parseVersion mx))
        as [_ H2].
      apply Z.lt_gt, Z.nle_gt. intros H.
      pose proof (compareVersions_trans _ _ _ H1 H) as H3.
      pose proof (compareVersions_trans _ _ _ H3 H2). lia.
Qed.

Lemma inverted_range_is_empty_witness :
  (forall v : string, isVersionInRange v "2.0" "1.0" = ret false)
  /\ (forall otherMin otherMax : string,
         negotiateVersion "2.0" "1.0" otherMin otherMax = ret None
         /\ negotiateVersion otherMin otherMax "2.0" "1.0" = ret None).
Proof.
  apply (inverted_range_is_empty "2.0" "1.0"). reflexivity.
Defined.

(** Client and server may swap roles: negotiation fails for the one order
    exactly when it fails for the other, and the two overlaps compare equal.
    The strings returned may still differ, as "2" and "2.0" do. *)
Theorem negotiateVersion_roles_swap :
  (forall a b c d : string,
      (negotiateVersion a b c d = ret None
       <-> negotiateVersion c d a b = ret None)
      /\ compareVersions (overlapMax (parseVersion b) (parseVersion d))
                         (overlapMax (parseVersion d) (parseVersion b)) = 0
      /\ compareVersions (overlapMin (parseVersion a) (parseVersion c))
                         (overlapMin (parseVersion c) (parseVersion a)) = 0)
  /\ negotiateVersion "1" "2" "1" "2.0" = ret (Some "2")
  /\ negotiateVersion "1" "2.0" "1" "2" = ret (Some "2.0").
Proof.
  split; [|split; reflexivity].
  intros a b c d.
  assert (Hmax : forall x y : list number,
             compareVersions (overlapMax x y) (overlapMax y x) = 0).
  { intros x y. unfold overlapMax.
    pose proof (compareVersions_antisym x y) as Ha.
    destruct (Z.leb_spec (compareVersions x y) 0);
      destruct (Z.leb_spec (compareVersions y x) 0);
      rewrite ?compareVersions_refl; try reflexivity; lia. }
  assert (Hmin : forall x y : list number,
             compareVersions (overlapMin x y) (overlapMin y x) = 0).
  { intros x y. unfold overlapMin.
    pose proof (compareVersions_antisym x y) as Ha.
    destruct (Z.geb_spec (compareVersions x y) 0);
      destruct (Z.geb_spec (compareVersions y x) 0);
      rewrite ?compareVersions_refl; try reflexivity; lia. }
  split; [|split; [apply Hmax | apply Hmin]].
  rewrite !negotiateVersion_null.
  rewrite (compareVersions_equal_l _ _ _ (Hmin (parseVersion a) (parseVersion c))).
  rewrite (compareVersions_equal_r _ _ _ (Hmax (parseVersion b) (parseVersion d))).
  reflexivity.
Qed.

Lemma split_app_last (s t : string) :
  no_dot t = true ->
  split "." (s ++ String "." t) = (split "." s ++ [t])%list.
Proof.
  intros Ht. induction s as [|c s IH]; simpl.
  - rewrite (split_no_dot t Ht). reflexivity.
  - destruct (Ascii.eqb c "."); simpl in *.
    + rewrite IH. reflexivity.
    + rewrite IH. pose proof (split_nonempty "." s).
      destruct (split "." s); [contradiction | reflexivity].
Qed.

Lemma compareVersions_trailing_zero (v w : list number) :
  compareVersions (v ++ [Fin 0]) w = compareVersions v w.
Proof.
  apply compareVersions_equal_l.
  set (n := S (List.length v)).
  rewrite (compareVersions_padded_at n) by (rewrite ?length_app; simpl; lia).
  replace (pad n (map or_zero (v ++ [Fin 0])))
    with (pad n (map or_zero v)); [apply lexicographic_refl|].
  unfold pad, n. rewrite map_app, !length_app, !length_map.
  cbn [List.length map].
  replace (S (List.length v) - (List.length v + 1))%nat with 0%nat by lia.
  replace (S (List.length v) - List.length v)%nat with 1%nat by lia.
  cbn [repeat]. rewrite app_nil_r. reflexivity.
Qed.

(** Trailing zero components do not count: writing ".0" after a version
    changes none of its comparisons, so "1", "1.0" and "1.0.0" are
    interchangeable as bounds and as versions. *)
Theorem trailing_zero_component_ignored (s t : string) :
  compareVersions (parseVersion (s ++ ".0")) (parseVersion t)
  = compareVersions (parseVersion s) (parseVersion t)
  /\ compareVersions (parseVersion t) (parseVersion (s ++ ".0"))
     = compareVersions (parseVersion t) (parseVersion s)
  /\ (forall mn mx : string,
         isVersionInRange (s ++ ".0") mn mx = isVersionInRange s mn mx).
Proof.
  assert (Hp : parseVersion (s ++ ".0") = (parseVersion s ++ [Fin 0])%list).
  { unfold parseVersion.
    change (s ++ ".0")%string with (s ++ String "." "0")%string.
    rewrite split_app_last by reflexivity. rewrite map_app. reflexivity. }
  assert (Hl : forall w, compareVersions (parseVersion (s ++ ".0")) w
                         = compareVersions (parseVersion s) w).
  { intros w. rewrite Hp. apply compareVersions_trailing_zero. }
  split; [apply Hl | split].
  - rewrite (compareVersions_antisym (parseVersion t)), Hl.
    symmetry. apply compareVersions_antisym.
  - intros mn mx. rewrite !isVersionInRange_unfold, !Hl. reflexivity.
Qed.

(* ================================================================== *)
(** ** The patient data store: visits, history, medications, allergies *)
(* ================================================================== *)

Section RecordFacts.
Import Dashboard DashboardPage.

Variable num : Type.
Variable render : num -> string.
Variable toUpperCase : string -> string.

Lemma setElement_same (doc : Document) (id : string) (e : Element) :
  setElement doc id e id = Some e.
Proof. unfold setElement. rewrite String.eqb_refl. reflexivity. Qed.

Lemma setElement_other (doc : Document) (id id' : string) (e : Element) :
  id' <> id -> setElement doc id e id' = doc id'.
Proof.
  intros H. unfold setElement.
  destruct (String.eqb_spec id' id); [contradiction | reflexivity].
Qed.

Lemma history_with_element (id : string) (e : Element) (st : page num) :
  id <> "medical-history" ->
  history (with_element num id e st) = history st.
Proof.
  intros H. unfold history, with_element, getElementById. simpl.
  rewrite setElement_other by congruence. reflexivity.
Qed.

(** The visit fields: a missing cell makes the update a no-op; with the
    cell there, the cell shows the value, the store changes in that field
    alone, and, unlike a vital sign, no history entry is added. *)
Theorem visit_updates_touch_one_field (st : page num) :
  (forall date : string,
      getElementById (document st) "last-visit" = None ->
      updateLastVisit num date st = st)
  /\ (forall count : num,
         getElementById (document st) "total-visits" = None ->
         updateTotalVisits num render count st = st)
  /\ (forall date : string,
         getElementById (document st) "next-appointment" = None ->
         updateNextAppointment num date st = st)
  /\ (forall (date : string) (cell : Element),
         getElementById (document st) "last-visit" = Some cell ->
         let st' := updateLastVisit num date st in
         patientData st' = set_lastVisit num date (patientData st)
         /\ option_map textContent (document st' "last-visit") = Some date
         /\ history st' = history st)
  /\ (forall (count : num) (cell : Element),
         getElementById (document st) "total-visits" = Some cell ->
         let st' := updateTotalVisits num render count st in
         patientData st' = set_totalVisits num count (patientData st)
         /\ option_map textContent (document st' "total-visits")
            = Some (render count)
         /\ history st' = history st)
  /\ (forall (date : string) (cell : Element),
         getElementById (document st) "next-appointment" = Some cell ->
         let st' := updateNextAppointment num date st in
         patientData st' = set_nextAppointment num date (patientData st)
         /\ option_map textContent (document st' "next-appointment")
            = Some date
         /\ history st' = history st).
Proof.
  repeat split; intros;
    unfold updateLastVisit, updateTotalVisits, updateNextAppointment;
    match goal with
    | H : getElementById _ _ = _ |- _ => rewrite H
    end;
    try reflexivity;
    unfold history, getElementById; simpl; try reflexivity.
Qed.

Lemma addMedicalHistoryEntry_history
      (icon title time : string) (st : page num) (historyList : Element) :
  getElementById (document st) "medical-history" = Some historyList ->
  history (addMedicalHistoryEntry num icon title time st)
  = {| className := "activity-item"; item_icon := icon;
       item_title := title; item_time := time |} :: history st.
Proof.
  intros H. unfold history at 1. unfold addMedicalHistoryEntry.
  rewrite H. unfold history. rewrite H. reflexivity.
Qed.

Lemma addMedicalHistoryEntry_keeps_list
      (icon title time : string) (st : page num) (historyList : Element) :
  getElementById (document st) "medical-history" = Some historyList ->
  exists historyList' : Element,
    getElementById (document (addMedicalHistoryEntry num icon title time st))
                   "medical-history" = Some historyList'.
Proof.
  intros H. unfold addMedicalHistoryEntry. rewrite H.
  eexists. reflexivity.
Qed.

(** The medical history is kept newest first: after any run of additions
    the list shows them in reverse order of arrival, ahead of what was
    there, and nothing is ever dropped. *)
Theorem medical_history_newest_first
        (entries : list (string * string * string)) (st : page num)
        (historyList : Element) :
  getElementById (document st) "medical-history" = Some historyList ->
  history (add_entries num entries st)
  = (rev (map entry_item entries) ++ history st)%list.
Proof.
  revert st historyList.
  induction entries as [|[[icon title] time] entries IH];
    intros st historyList H; simpl.
  - reflexivity.
  - destruct (addMedicalHistoryEntry_keeps_list icon title time st
                                                historyList H) as [l' Hl'].
    rewrite (IH _ l' Hl').
    rewrite (addMedicalHistoryEntry_history icon title time st historyList H).
    rewrite <- app_assoc. reflexivity.
Qed.

(** A vital sign that reaches its cell is entered in the history exactly
    once, at the front; where the page has no history list the reading,
    blood pressure or blood sugar, is stored all the same and no entry
    exists anywhere. *)
Theorem vital_sign_history_entry (st : page num) :
  (forall (systolic diastolic : num) (cell historyList : Element),
      getElementById (document st) "last-bp" = Some cell ->
      getElementById (document st) "medical-history" = Some historyList ->
      history (updateBloodPressure num render systolic diastolic st)
      = {| className := "activity-item"; item_icon := "🩺";
           item_title := "Blood Pressure Check"; item_time := "Today" |}
          :: history st)
  /\ (forall (value : num) (cell historyList : Element),
         getElementById (document st) "last-sugar" = Some cell ->
         getElementById (document st) "medical-history" = Some historyList ->
         history (updateBloodSugar num render value st)
         = {| className := "activity-item"; item_icon := "🩸";
              item_title := "Blood Sugar Test"; item_time := "Today" |}
             :: history st)
  /\ (forall (systolic diastolic : num) (cell : Element),
         getElementById (document st) "last-bp" = Some cell ->
         getElementById (document st) "medical-history" = None ->
         let st' := updateBloodPressure num render systolic diastolic st in
         history st' = []
         /\ bloodPressure (patientData st')
            = {| systolic := systolic; diastolic := diastolic |})
  /\ (forall (value : num) (cell : Element),
         getElementById (document st) "last-sugar" = Some cell ->
         getElementById (document st) "medical-history" = None ->
         let st' := updateBloodSugar num render value st in
         history st' = []
         /\ bloodSugar (patientData st') = value).
Proof.
  split; [|split; [|split]].
  - intros systolic diastolic cell historyList Hc Hh.
    unfold updateBloodPressure. rewrite Hc.
    rewrite (addMedicalHistoryEntry_history _ _ _ _ historyList);
      [reflexivity | exact Hh].
  - intros value cell historyList Hc Hh.
    unfold updateBloodSugar. rewrite Hc.
    rewrite (addMedicalHistoryEntry_history _ _ _ _ historyList);
      [reflexivity | exact Hh].
  - intros systolic diastolic cell Hc Hh. cbv zeta.
    unfold updateBloodPressure. rewrite Hc.
    unfold addMedicalHistoryEntry, history, getElementById in *. simpl.
    rewrite setElement_other by discriminate. rewrite Hh. simpl.
    rewrite setElement_other by discriminate. rewrite Hh.
    split; reflexivity.
  - intros value cell Hc Hh. cbv zeta.
    unfold updateBloodSugar. rewrite Hc.
    unfold addMedicalHistoryEntry, history, getElementById in *. simpl.
    rewrite setElement_other by discriminate. rewrite Hh. simpl.
    rewrite setElement_other by discriminate. rewrite Hh.
    split; reflexivity.
Qed.


Lemma updateMedicationsDisplay_page (x : screen num) :
  page_of (updateMedicationsDisplay num x) = page_of x
  /\ medicationsSectionDisplay (updateMedicationsDisplay num x)
     = medicationsSectionDisplay x
  /\ allergyItemsHTML (updateMedicationsDisplay num x) = allergyItemsHTML x.
Proof.
  unfold updateMedicationsDisplay.
  destruct (getElementById _ _); [|repeat split].
  destruct (medications _); repeat split.
Qed.

Lemma updateMedicationsDisplay_markup (x : screen num) (e : Element) :
  getElementById (document (page_of x)) "medications-list" = Some e ->
  medications (patientData (page_of x)) <> [] ->
  medicationsListHTML (updateMedicationsDisplay num x)
  = JS.join "" (map medication_item (medications (patientData (page_of x)))).
Proof.
  intros He Hm. unfold updateMedicationsDisplay. rewrite He.
  destruct (medications (patientData (page_of x))); [congruence|reflexivity].
Qed.

Lemma updateMedicationsDisplay_missing (x : screen num) :
  getElementById (document (page_of x)) "medications-list" = None ->
  updateMedicationsDisplay num x = x.
Proof.
  intros He. unfold updateMedicationsDisplay. rewrite He. reflexivity.
Qed.

(** Adding a medication is not gated by the page: the store gains the
    medication at the end of its list on every page, even one with no
    element at all, and changes in nothing else.  Where the list element
    exists, its markup is rebuilt from the whole list. *)
Theorem addMedication_always_stores
        (medication : Medication) (sc : screen num) :
  let sc' := addMedication num medication sc in
  let meds := medications (patientData (page_of sc)) in
  patientData (page_of sc')
  = set_medications num (meds ++ [medication])%list
                    (patientData (page_of sc))
  /\ (forall listElement : Element,
         getElementById (document (page_of sc)) "medications-list"
         = Some listElement ->
         medicationsListHTML sc'
         = JS.join "" (map medication_item (meds ++ [medication])%list))
  /\ (getElementById (document (page_of sc)) "medications-list" = None ->
      medicationsListHTML sc' = medicationsListHTML sc).
Proof.
  cbv zeta. unfold addMedication.
  set (x := {| page_of :=
                 with_store num
                   (set_medications num
                      (medications (patientData (page_of sc))
                       ++ [medication])%list
                      (patientData (page_of sc))) (page_of sc);
               allergyItemsHTML := allergyItemsHTML sc;
               medicationsListHTML := medicationsListHTML sc;
               medicationsSectionDisplay := medicationsSectionDisplay sc |}).
  destruct (updateMedicationsDisplay_page x) as (Hp & _ & _).
  split; [|split].
  - cbn [on_page page_of]. unfold console_log. cbn [patientData].
    rewrite addMedicalHistoryEntry_patientData, Hp. reflexivity.
  - intros e He. cbn [on_page medicationsListHTML].
    rewrite (updateMedicationsDisplay_markup x e).
    + reflexivity.
    + exact He.
    + cbn. intros Hnil. apply app_eq_nil in Hnil as [_ Hnil].
      discriminate Hnil.
  - intros He. cbn [on_page medicationsListHTML].
    rewrite updateMedicationsDisplay_missing; [reflexivity | exact He].
Qed.

(** The allergy list needs both of its elements: if the list or the
    counter is missing, nothing changes, not even the store.  With both
    there, the store holds the new list, the counter shows its length and
    the list markup has one line for each allergy. *)
Theorem updateAllergies_needs_both_elements
        (l : list Allergy) (sc : screen num) :
  (getElementById (document (page_of sc)) "allergy-items" = None
   \/ getElementById (document (page_of sc)) "allergy-count" = None ->
   updateAllergies num l sc = sc)
  /\ (forall items counter : Element,
         getElementById (document (page_of sc)) "allergy-items" = Some items ->
         getElementById (document (page_of sc)) "allergy-count"
         = Some counter ->
         let sc' := updateAllergies num l sc in
         patientData (page_of sc')
         = set_allergies num l (patientData (page_of sc))
         /\ option_map textContent (document (page_of sc') "allergy-count")
            = Some (JS.decimal (Z.of_nat (List.length l)))
         /\ allergyItemsHTML sc' = JS.join "<br>" (map allergy_line l)).
Proof.
  split.
  - intros [H|H]; unfold updateAllergies; rewrite H;
      [|destruct (getElementById _ "allergy-items")]; reflexivity.
  - intros items counter Hi Hc. cbv zeta. unfold updateAllergies.
    rewrite Hi, Hc. repeat split.
Qed.

(** An empty medication list is never drawn: [updateMedicationsDisplay]
    leaves the page as it is, so a dashboard update that empties the list
    empties the store and still shows the medications drawn before. *)
Theorem empty_medications_stay_displayed (sc : screen num) :
  (medications (patientData (page_of sc)) = [] ->
   updateMedicationsDisplay num sc = sc)
  /\ (let p :=
        {| new_name := None; new_patientId := None; new_dob := None;
           new_age := None; new_bloodPressure := None;
           new_bloodSugar := None; new_lastVisit := None;
           new_totalVisits := None; new_nextAppointment := None;
           new_allergies := None; new_medications := Some [] |} in
      let sc' := updatePatientDashboard num render toUpperCase p sc in
      medications (patientData (page_of sc')) = []
      /\ medicationsListHTML sc' = medicationsListHTML sc).
Proof.
  split.
  - intros H. unfold updateMedicationsDisplay. rewrite H.
    destruct (getElementById _ _); reflexivity.
  - cbv zeta. unfold updatePatientDashboard.
    cbn [new_name new_patientId new_dob new_age new_bloodPressure
         new_bloodSugar new_lastVisit new_totalVisits new_nextAppointment
         new_allergies new_medications truthy_string].
    set (x := on_page num _ sc).
    assert (Hx : updateMedicationsDisplay num x = x).
    { unfold updateMedicationsDisplay.
      destruct (getElementById (document (page_of x)) "medications-list");
        reflexivity. }
    rewrite Hx. split; reflexivity.
Qed.

(** The medications section folds and unfolds: a section shown in any way
    but "none" counts as open and is closed by the toggle; toggling twice
    brings back the open or closed state and the matching button label,
    and never touches the store.  Without the section or the button the
    toggle does nothing. *)
Theorem toggleMedications_twice (sc : screen num) :
  (getElementById (document (page_of sc)) "medications-section" = None
   \/ getElementById (document (page_of sc)) "medications-toggle" = None ->
   toggleMedications num sc = sc)
  /\ (forall section button : Element,
         getElementById (document (page_of sc)) "medications-section"
         = Some section ->
         getElementById (document (page_of sc)) "medications-toggle"
         = Some button ->
         let once := toggleMedications num sc in
         let twice := toggleMedications num once in
         let closed := String.eqb (medicationsSectionDisplay sc) "none" in
         medicationsSectionDisplay once
         = (if closed then "block" else "none")
         /\ option_map textContent
                       (document (page_of once) "medications-toggle")
            = Some (if closed
                    then "▲ Current Medications (Click to collapse)"
                    else "▼ Current Medications (Click to expand)")
         /\ medicationsSectionDisplay twice
            = (if closed then "none" else "block")
         /\ option_map textContent
                       (document (page_of twice) "medications-toggle")
            = Some (if closed
                    then "▼ Current Medications (Click to expand)"
                    else "▲ Current Medications (Click to collapse)")
         /\ patientData (page_of twice) = patientData (page_of sc)).
Proof.
  split.
  - intros [H|H]; unfold toggleMedications; rewrite H;
      [|destruct (getElementById _ "medications-section")]; reflexivity.
  - intros section button Hs Hb. cbv zeta.
    assert (Hshow : forall x : screen num,
               medicationsSectionDisplay (updateMedicationsDisplay num x)
               = medicationsSectionDisplay x
               /\ page_of (updateMedicationsDisplay num x) = page_of x).
    { intros x. destruct (updateMedicationsDisplay_page x) as (Hp & Hd & _).
      auto. }
    unfold getElementById in *.
    destruct (String.eqb (medicationsSectionDisplay sc) "none") eqn:E.
    + assert (H1 : medicationsSectionDisplay (toggleMedications num sc)
                   = "block"
                   /\ page_of (toggleMedications num sc)
                      = with_element num "medications-toggle"
                          (setTextContent
                             "▲ Current Medications (Click to collapse)"
                             button) (page_of sc)).
      { unfold toggleMedications, getElementById. rewrite Hs, Hb, E.
        cbn [negb]. destruct (Hshow
          {| page_of :=
               with_element num "medications-toggle"
                 (setTextContent "▲ Current Medications (Click to collapse)"
                                 button) (page_of sc);
             allergyItemsHTML := allergyItemsHTML sc;
             medicationsListHTML := medicationsListHTML sc;
             medicationsSectionDisplay := "block" |}) as [-> ->].
        split; reflexivity. }
      destruct H1 as [Hd Hp].
      assert (H2 : toggleMedications num (toggleMedications num sc)
                   = {| page_of :=
                          with_element num "medications-toggle"
                            (setTextContent
                               "▼ Current Medications (Click to expand)"
                               (setTextContent
                                  "▲ Current Medications (Click to collapse)"
                                  button))
                            (page_of (toggleMedications num sc));
                        allergyItemsHTML :=
                          allergyItemsHTML (toggleMedications num sc);
                        medicationsListHTML :=
                          medicationsListHTML (toggleMedications num sc);
                        medicationsSectionDisplay := "none" |}).
      { unfold toggleMedications at 1. unfold getElementById.
        rewrite Hp. cbn [with_element document].
        rewrite setElement_same, setElement_other by discriminate.
        rewrite Hs, Hd. reflexivity. }
      rewrite H2, Hd, Hp. cbn. repeat split.
    + assert (H1 : toggleMedications num sc
                   = {| page_of :=
                          with_element num "medications-toggle"
                            (setTextContent
                               "▼ Current Medications (Click to expand)"
                               button) (page_of sc);
                        allergyItemsHTML := allergyItemsHTML sc;
                        medicationsListHTML := medicationsListHTML sc;
                        medicationsSectionDisplay := "none" |}).
      { unfold toggleMedications, getElementById. rewrite Hs, Hb, E.
        reflexivity. }
      rewrite H1.
      set (x := {| page_of :=
                     with_element num "medications-toggle"
                       (setTextContent
                          "▲ Current Medications (Click to collapse)"
                          (setTextContent
                             "▼ Current Medications (Click to expand)"
                             button))
                       (with_element num "medications-toggle"
                          (setTextContent
                             "▼ Current Medications (Click to expand)"
                             button) (page_of sc));
                   allergyItemsHTML := allergyItemsHTML sc;
                   medicationsListHTML := medicationsListHTML sc;
                   medicationsSectionDisplay := "block" |}).
      assert (H2 : toggleMedications num
                     {| page_of :=
                          with_element num "medications-toggle"
                            (setTextContent
                               "▼ Current Medications (Click to expand)"
                               button) (page_of sc);
                        allergyItemsHTML := allergyItemsHTML sc;
                        medicationsListHTML := medicationsListHTML sc;
                        medicationsSectionDisplay := "none" |}
                   = updateMedicationsDisplay num x).
      { unfold toggleMedications, getElementById.
        cbn [page_of with_element document medicationsSectionDisplay
             allergyItemsHTML medicationsListHTML].
        rewrite setElement_same, setElement_other by discriminate.
        rewrite Hs. reflexivity. }
      rewrite H2. destruct (Hshow x) as [-> ->]. cbn. repeat split.
Qed.

Lemma present_with_element (id id' : string) (e : Element) (st : page num) :
  present id st -> present id (with_element num id' e st).
Proof.
  unfold present, with_element, setElement. cbn [document].
  intros H. destruct (String.eqb id id'); [discriminate | exact H].
Qed.

Lemma present_lookup (id : string) (st : page num) :
  present id st -> exists e : Element, document st id = Some e.
Proof.
  unfold present. destruct (document st id) as [e|]; [eauto | congruence].
Qed.

Lemma present_addMedicalHistoryEntry
      (id icon title time : string) (st : page num) :
  present id st -> present id (addMedicalHistoryEntry num icon title time st).
Proof.
  intros H. unfold addMedicalHistoryEntry.
  destruct (getElementById (document st) "medical-history"); [|exact H].
  unfold present, setElement in *. cbn [console_log document].
  destruct (String.eqb id "medical-history"); [discriminate | exact H].
Qed.

Lemma keeps_complete (f : page num -> page num) (st : page num) :
  keeps_elements f -> complete st -> complete (f st).
Proof.
  intros Hf. unfold complete. apply Forall_impl. intros id. apply Hf.
Qed.

Lemma updateBloodPressure_keeps (systolic diastolic : num) :
  keeps_elements (updateBloodPressure num render systolic diastolic).
Proof.
  intros id st H. unfold updateBloodPressure.
  destruct (getElementById (document st) "last-bp"); [|exact H].
  apply present_addMedicalHistoryEntry.
  unfold present, setElement in *. cbn [console_log document].
  destruct (String.eqb id "last-bp"); [discriminate | exact H].
Qed.

Lemma updateBloodSugar_keeps (value : num) :
  keeps_elements (updateBloodSugar num render value).
Proof.
  intros id st H. unfold updateBloodSugar.
  destruct (getElementById (document st) "last-sugar"); [|exact H].
  apply present_addMedicalHistoryEntry.
  unfold present, setElement in *. cbn [console_log document].
  destruct (String.eqb id "last-sugar"); [discriminate | exact H].
Qed.

Lemma updateLastVisit_keeps (date : string) :
  keeps_elements (updateLastVisit num date).
Proof.
  intros id st H. unfold updateLastVisit.
  destruct (getElementById (document st) "last-visit"); [|exact H].
  apply (present_with_element id "last-visit"), H.
Qed.

Lemma updateTotalVisits_keeps (count : num) :
  keeps_elements (updateTotalVisits num render count).
Proof.
  intros id st H. unfold updateTotalVisits.
  destruct (getElementById (document st) "total-visits"); [|exact H].
  apply (present_with_element id "total-visits"), H.
Qed.

Lemma updateNextAppointment_keeps (date : string) :
  keeps_elements (updateNextAppointment num date).
Proof.
  intros id st H. unfold updateNextAppointment.
  destruct (getElementById (document st) "next-appointment"); [|exact H].
  apply (present_with_element id "next-appointment"), H.
Qed.

Lemma updatePatientInfo_keeps (name patientId dob : string) (age : num) :
  keeps_elements (updatePatientInfo num render toUpperCase
                                    name patientId dob age).
Proof.
  intros id st H. unfold updatePatientInfo.
  destruct (querySelector (document st) ".user-details h1"); [|exact H].
  destruct (querySelector (document st) ".user-details p"); [|exact H].
  destruct (querySelector (document st) ".avatar"); [|exact H].
  apply (present_with_element id ".avatar").
  apply (present_with_element id ".user-details p").
  apply (present_with_element id ".user-details h1"), H.
Qed.

Lemma updateAllergies_keeps (l : list Allergy) (sc : screen num) (id : string) :
  present id (page_of sc) -> present id (page_of (updateAllergies num l sc)).
Proof.
  intros H. unfold updateAllergies.
  destruct (getElementById (document (page_of sc)) "allergy-items");
    [|exact H].
  destruct (getElementById (document (page_of sc)) "allergy-count");
    [|exact H].
  apply (present_with_element id "allergy-count"), H.
Qed.

Lemma complete_lookup (id : string) (st : page num) :
  complete st ->
  In id [ ".user-details h1"; ".user-details p"; ".avatar"; "last-bp";
          "last-sugar"; "last-visit"; "total-visits"; "next-appointment";
          "allergy-items"; "allergy-count" ] ->
  exists e : Element, document st id = Some e.
Proof.
  unfold complete. rewrite Forall_forall. intros H Hin.
  apply present_lookup, H, Hin.
Qed.

Ltac found id H :=
  let e := fresh "e" in
  let E := fresh "E" in
  destruct (complete_lookup id _ H) as [e E]; [simpl; tauto|];
  unfold getElementById, querySelector; rewrite E.

(** Writing a whole record and reading it back: on a page that holds every
    element the data functions look for, [updatePatientDashboard] given all
    eleven fields, none of its strings empty, leaves a store that
    [getContext] returns field for field. *)
Theorem updatePatientDashboard_then_getContext
        (d : PatientData num) (sc : screen num) (isoNow localeNow : string) :
  complete (page_of sc) ->
  name d <> "" -> patientId d <> "" -> dob d <> "" ->
  lastVisit d <> "" -> nextAppointment d <> "" ->
  let sc' :=
    updatePatientDashboard num render toUpperCase (partial_of num d) sc in
  context_data (fst (getContext num isoNow localeNow (page_of sc'))) = d.
Proof.
  intros Hc Hn Hi Hd Hl Ha. cbv zeta. unfold getContext. cbn [fst context_data].
  unfold updatePatientDashboard, partial_of.
  cbn [new_name new_patientId new_dob new_age new_bloodPressure
       new_bloodSugar new_lastVisit new_totalVisits new_nextAppointment
       new_allergies new_medications].
  assert (Ht : forall s : string, s <> "" -> truthy_string (Some s) = Some s).
  { intros [|c s'] H; [congruence | reflexivity]. }
  rewrite !Ht by assumption.
  (* updatePatientInfo *)
  set (st0 := page_of sc) in *.
  set (st1 := updatePatientInfo num render toUpperCase (name d) (patientId d)
                                (dob d) (age d) st0).
  assert (C1 : complete st1)
    by (apply keeps_complete; [apply updatePatientInfo_keeps | exact Hc]).
  assert (S1 : patientData st1
               = set_identity num (name d) (patientId d) (dob d) (age d)
                              (patientData st0)).
  { unfold st1, updatePatientInfo.
    found ".user-details h1" Hc. found ".user-details p" Hc.
    found ".avatar" Hc. reflexivity. }
  set (st2 := updateBloodPressure num render (systolic (bloodPressure d))
                                  (diastolic (bloodPressure d)) st1).
  assert (C2 : complete st2)
    by (apply keeps_complete; [apply updateBloodPressure_keeps | exact C1]).
  assert (S2 : patientData st2
               = set_bloodPressure num (bloodPressure d) (patientData st1)).
  { unfold st2, updateBloodPressure. found "last-bp" C1.
    rewrite addMedicalHistoryEntry_patientData. cbn.
    destruct (bloodPressure d); reflexivity. }
  set (st3 := updateBloodSugar num render (bloodSugar d) st2).
  assert (C3 : complete st3)
    by (apply keeps_complete; [apply updateBloodSugar_keeps | exact C2]).
  assert (S3 : patientData st3
               = set_bloodSugar num (bloodSugar d) (patientData st2)).
  { unfold st3, updateBloodSugar. found "last-sugar" C2.
    rewrite addMedicalHistoryEntry_patientData. reflexivity. }
  set (st4 := updateLastVisit num (lastVisit d) st3).
  assert (C4 : complete st4)
    by (apply keeps_complete; [apply updateLastVisit_keeps | exact C3]).
  assert (S4 : patientData st4
               = set_lastVisit num (lastVisit d) (patientData st3)).
  { unfold st4, updateLastVisit. found "last-visit" C3. reflexivity. }
  set (st5 := updateTotalVisits num render (totalVisits d) st4).
  assert (C5 : complete st5)
    by (apply keeps_complete; [apply updateTotalVisits_keeps | exact C4]).
  assert (S5 : patientData st5
               = set_totalVisits num (totalVisits d) (patientData st4)).
  { unfold st5, updateTotalVisits. found "total-visits" C4. reflexivity. }
  set (st6 := updateNextAppointment num (nextAppointment d) st5).
  assert (C6 : complete st6)
    by (apply keeps_complete; [apply updateNextAppointment_keeps | exact C5]).
  assert (S6 : patientData st6
               = set_nextAppointment num (nextAppointment d)
                                     (patientData st5)).
  { unfold st6, updateNextAppointment. found "next-appointment" C5.
    reflexivity. }
  set (sc6 := {| page_of := st6; allergyItemsHTML := allergyItemsHTML sc;
                 medicationsListHTML := medicationsListHTML sc;
                 medicationsSectionDisplay := medicationsSectionDisplay sc |}).
  match goal with
  | |- context [updateAllergies num _ ?x] => change x with sc6
  end.
  assert (S7 : patientData (page_of (updateAllergies num (allergies d) sc6))
               = set_allergies num (allergies d) (patientData st6)).
  { unfold updateAllergies. cbn [page_of sc6].
    found "allergy-items" C6. found "allergy-count" C6. reflexivity. }
  destruct (updateMedicationsDisplay_page
              (on_page num
                 (fun st => with_store num
                              (set_medications num (medications d)
                                               (patientData st)) st)
                 (updateAllergies num (allergies d) sc6))) as (Hp & _ & _).
  unfold on_page at 1. cbn [page_of]. unfold console_log.
  cbn [patientData]. rewrite Hp.
  unfold on_page at 1. cbn [page_of with_store patientData].
  rewrite S7, S6, S5, S4, S3, S2, S1.
  destruct d. reflexivity.
Qed.

Lemma identity_updateBloodPressure (systolic diastolic : num) (st : page num) :
  identity (patientData (updateBloodPressure num render systolic diastolic st))
  = identity (patientData st).
Proof.
  unfold updateBloodPressure.
  destruct (getElementById (document st) "last-bp"); [|reflexivity].
  rewrite addMedicalHistoryEntry_patientData. reflexivity.
Qed.

Lemma identity_updateBloodSugar (value : num) (st : page num) :
  identity (patientData (updateBloodSugar num render value st))
  = identity (patientData st).
Proof.
  unfold updateBloodSugar.
  destruct (getElementById (document st) "last-sugar"); [|reflexivity].
  rewrite addMedicalHistoryEntry_patientData. reflexivity.
Qed.

Lemma identity_updateLastVisit (date : string) (st : page num) :
  identity (patientData (updateLastVisit num date st))
  = identity (patientData st).
Proof.
  unfold updateLastVisit.
  destruct (getElementById (document st) "last-visit"); reflexivity.
Qed.

Lemma identity_updateTotalVisits (count : num) (st : page num) :
  identity (patientData (updateTotalVisits num render count st))
  = identity (patientData st).
Proof.
  unfold updateTotalVisits.
  destruct (getElementById (document st) "total-visits"); reflexivity.
Qed.

Lemma identity_updateNextAppointment (date : string) (st : page num) :
  identity (patientData (updateNextAppointment num date st))
  = identity (patientData st).
Proof.
  unfold updateNextAppointment.
  destruct (getElementById (document st) "next-appointment"); reflexivity.
Qed.

Lemma identity_updateAllergies (l : list Allergy) (sc : screen num) :
  identity (patientData (page_of (updateAllergies num l sc)))
  = identity (patientData (page_of sc)).
Proof.
  unfold updateAllergies.
  destruct (getElementById (document (page_of sc)) "allergy-items");
    [|reflexivity].
  destruct (getElementById (document (page_of sc)) "allergy-count");
    reflexivity.
Qed.

Lemma identity_updateMedicationsDisplay (x : screen num) :
  identity (patientData (page_of (updateMedicationsDisplay num x)))
  = identity (patientData (page_of x)).
Proof.
  destruct (updateMedicationsDisplay_page x) as (-> & _ & _). reflexivity.
Qed.

Lemma identity_set_medications (l : list Medication) (d : PatientData num) :
  identity (set_medications num l d) = identity d.
Proof. reflexivity. Qed.

(** The patient's name, id, date of birth and age are written together or
    not at all: a dashboard update that leaves one of the four out, or
    gives an empty string for one of the three texts, changes none of
    them, whatever else it carries. *)
Theorem patient_identity_needs_every_field
        (p : PartialPatientData num) (sc : screen num) :
  truthy_string (new_name p) = None
  \/ truthy_string (new_patientId p) = None
  \/ truthy_string (new_dob p) = None
  \/ new_age p = None ->
  identity (patientData
              (page_of (updatePatientDashboard num render toUpperCase p sc)))
  = identity (patientData (page_of sc)).
Proof.
  intros H. unfold updatePatientDashboard.
  set (sc1 := match truthy_string (new_name p) with
              | Some _ => _ | None => _ end).
  assert (H1 : sc1 = sc).
  { unfold sc1.
    destruct (truthy_string (new_name p)); [|reflexivity].
    destruct (truthy_string (new_patientId p)); [|reflexivity].
    destruct (truthy_string (new_dob p)); [|reflexivity].
    destruct (new_age p); [|reflexivity].
    destruct H as [H|[H|[H|H]]]; discriminate H. }
  clearbody sc1. subst sc1.
  unfold on_page at 1. cbn [page_of]. unfold console_log. cbn [patientData].
  destruct (new_medications p) as [meds|];
    [rewrite identity_updateMedicationsDisplay;
     unfold on_page at 1; cbn [page_of with_store patientData];
     rewrite identity_set_medications|];
    (destruct (new_allergies p); [rewrite identity_updateAllergies|]);
    (destruct (truthy_string (new_nextAppointment p));
     [unfold on_page at 1; cbn [page_of];
      rewrite identity_updateNextAppointment|]);
    (destruct (new_totalVisits p);
     [unfold on_page at 1; cbn [page_of];
      rewrite identity_updateTotalVisits|]);
    (destruct (truthy_string (new_lastVisit p));
     [unfold on_page at 1; cbn [page_of];
      rewrite identity_updateLastVisit|]);
    (destruct (new_bloodSugar p);
     [unfold on_page at 1; cbn [page_of];
      rewrite identity_updateBloodSugar|]);
    (destruct (new_bloodPressure p);
     [unfold on_page at 1; cbn [page_of];
      rewrite identity_updateBloodPressure|]);
    reflexivity.
Qed.

End RecordFacts.

(** The theorems above at the demo's own record, on a page that holds all
    its elements. *)
Lemma medical_history_newest_first_witness :
  Dashboard.history
    (DashboardPage.add_entries number
       [("a", "first", "Monday"); ("b", "second", "Tuesday")]
       (DashboardPage.page_of
          (DashboardPage.initialScreen DashboardPage.completeDocument)))
  = [ DashboardPage.entry_item ("b", "second", "Tuesday");
      DashboardPage.entry_item ("a", "first", "Monday") ].
Proof.
  apply (medical_history_newest_first number
           [("a", "first", "Monday"); ("b", "second", "Tuesday")]
           (DashboardPage.page_of
              (DashboardPage.initialScreen DashboardPage.completeDocument))
           {| Dashboard.textContent := ""; Dashboard.childNodes := [] |}).
  reflexivity.
Defined.

Lemma updatePatientDashboard_then_getContext_witness :
  DashboardPage.context_data
    (fst (DashboardPage.getContext number "2025-01-15T10:00:00.000Z"
            "1/15/2025, 10:00:00 AM"
            (DashboardPage.page_of
               (DashboardPage.updatePatientDashboard number to_string
                  (fun s => s)
                  (DashboardPage.partial_of number
                     DashboardPage.anotherPatientData)
                  (DashboardPage.initialScreen
                     DashboardPage.completeDocument)))))
  = DashboardPage.anotherPatientData
  /\ DashboardPage.anotherPatientData <> Dashboard.initialPatientData.
Proof.
  split; [|discriminate].
  apply (updatePatientDashboard_then_getContext number to_string (fun s => s)
           DashboardPage.anotherPatientData
           (DashboardPage.initialScreen DashboardPage.completeDocument));
    try discriminate.
  unfold DashboardPage.complete. repeat constructor; discriminate.
Defined.

Lemma patient_identity_needs_every_field_witness :
  let p :=
    {| DashboardPage.new_name := Some "Jane Doe";
       DashboardPage.new_patientId := None;
       DashboardPage.new_dob := None;
       DashboardPage.new_age := None;
       DashboardPage.new_bloodPressure := None;
       DashboardPage.new_bloodSugar := Some (Fin 99);
       DashboardPage.new_lastVisit := None;
       DashboardPage.new_totalVisits := None;
       DashboardPage.new_nextAppointment := None;
       DashboardPage.new_allergies := None;
       DashboardPage.new_medications := None |} in
  DashboardPage.identity
    (Dashboard.patientData
       (DashboardPage.page_of
          (DashboardPage.updatePatientDashboard number to_string
             (fun s => s) p
             (DashboardPage.initialScreen DashboardPage.completeDocument))))
  = DashboardPage.identity
      (Dashboard.patientData
         (DashboardPage.page_of
            (DashboardPage.initialScreen DashboardPage.completeDocument))).
Proof.
  cbv zeta.
  apply (patient_identity_needs_every_field number to_string (fun s => s)).
  right. left. reflexivity.
Defined.

(* ================================================================== *)
(** ** The visit counter read back from the page                       *)
(* ================================================================== *)

Section VisitCounter.
Import Dashboard DashboardPage.

Lemma digits_no_hex_prefix (body : string) :
  all_digits body = true -> has_hex_prefix body = false.
Proof.
  destruct body as [|c [|x rest]]; [reflexivity | |].
  - intros _. destruct c as [[] [] [] [] [] [] [] []]; reflexivity.
  - cbn [all_digits]. intros H. apply andb_true_iff in H as [_ H].
    apply andb_true_iff in H as [Hx _].
    destruct c as [[] [] [] [] [] [] [] []]; try reflexivity;
      destruct x as [[] [] [] [] [] [] [] []]; try reflexivity;
      discriminate Hx.
Qed.

Lemma parseInt_as_radix_10 (s : string) :
  has_hex_prefix (strip_sign (trim_start s)) = false ->
  parseInt s = parseInt10 s.
Proof.
  intros H. unfold parseInt, parseInt10. rewrite H.
  destruct (leading_digits (strip_sign (trim_start s))); reflexivity.
Qed.

Lemma parseInt_decimal (d : Z) : 0 < d -> parseInt (decimal d) = to_double d.
Proof.
  intros Hd. rewrite parseInt_as_radix_10; [apply parseInt10_decimal, Hd|].
  destruct (decimal_spec d) as (_ & Hall & Hne); [lia|].
  destruct (decimal d) as [|c rest] eqn:E; [congruence|].
  pose proof Hall as Hc. simpl in Hc. apply andb_true_iff in Hc as [Hc _].
  simpl trim_start. rewrite (digit_not_white_space c Hc).
  destruct (digit_not_sign c rest Hc) as [-> _].
  apply digits_no_hex_prefix, Hall.
Qed.

Lemma parseInt_minus_decimal (d : Z) :
  0 < d -> parseInt (String "-" (decimal d)) = to_double (- d).
Proof.
  intros Hd.
  rewrite parseInt_as_radix_10; [apply parseInt10_minus_decimal, Hd|].
  destruct (decimal_spec d) as (_ & Hall & _); [lia|].
  simpl. apply digits_no_hex_prefix, Hall.
Qed.

(** A whole number below [2^53] in magnitude, printed and read by
    [parseInt], is itself. *)
Lemma parseInt_to_string (n : Z) :
  Z.abs n < 2 ^ 53 ->
  parseInt (to_string (Fin n)) = Fin n /\ to_string (Fin n) <> "".
Proof.
  intros Hn. simpl.
  destruct (Z.eqb_spec n 0) as [->|Hz]; [split; [reflexivity|discriminate]|].
  pose proof (to_double_safe n Hn) as Hrep.
  destruct (Z.ltb_spec n 0) as [Hneg|Hpos].
  - destruct (positive_to_string_decimal (- n)) as (d & Hd & Hr & ->).
    + lia.
    + rewrite (to_double_opp n n Hrep). reflexivity.
    + split; [|discriminate]. simpl append.
      rewrite parseInt_minus_decimal by exact Hd.
      rewrite (to_double_opp d (- n) Hr). f_equal. lia.
  - destruct (positive_to_string_decimal n) as (d & Hd & Hr & ->).
    + lia.
    + exact Hrep.
    + split.
      * rewrite parseInt_decimal by exact Hd. exact Hr.
      * destruct (decimal_spec d) as (_ & _ & Hne); [lia | exact Hne].
Qed.

Lemma add_one (n : Z) :
  Z.abs (n + 1) < 2 ^ 53 -> add (Fin n) (Fin 1) = Fin (n + 1).
Proof.
  intros H. unfold add. destruct (Z.eqb_spec (n + 1) 0) as [->|Hne].
  - reflexivity.
  - apply to_double_safe, H.
Qed.

Lemma simulateVisitUpdate_result (st : page number) (cell : Element) :
  getElementById (document st) "total-visits" = Some cell ->
  let next := add (parseInt (shown cell)) (Fin 1) in
  totalVisits (patientData (simulateVisitUpdate st)) = next
  /\ getElementById (document (simulateVisitUpdate st)) "total-visits"
     = Some (setTextContent (to_string next) cell).
Proof.
  intros H. cbv zeta. unfold simulateVisitUpdate. rewrite H.
  set (next := add (parseInt (shown cell)) (Fin 1)).
  rewrite addMedicalHistoryEntry_patientData.
  unfold updateTotalVisits. rewrite H.
  unfold updateLastVisit, addMedicalHistoryEntry, getElementById.
  cbn [with_element with_store console_log document patientData].
  repeat rewrite ?setElement_same, ?setElement_other by discriminate.
  destruct (document st "last-visit");
    cbn [with_element with_store console_log document patientData
         set_totalVisits set_lastVisit totalVisits];
    repeat rewrite ?setElement_same, ?setElement_other by discriminate;
    destruct (document st "medical-history");
    cbn [with_element with_store console_log document patientData
         set_totalVisits set_lastVisit totalVisits];
    repeat rewrite ?setElement_same, ?setElement_other by discriminate;
    split; reflexivity.
Qed.

(** [simulateVisitUpdate] counts from what the cell shows, not from the
    store: with a whole number [n] in the cell the new total is [n + 1],
    in the store and in the cell, whatever total the store held; an empty
    cell counts as zero. *)
Theorem visit_counter_follows_the_cell
        (st : page number) (cell : Element) (n : Z) :
  getElementById (document st) "total-visits" = Some cell ->
  textContent cell = to_string (Fin n) \/ (textContent cell = "" /\ n = 0) ->
  0 <= n < 2 ^ 53 - 1 ->
  totalVisits (patientData (simulateVisitUpdate st)) = Fin (n + 1)
  /\ option_map textContent
                (document (simulateVisitUpdate st) "total-visits")
     = Some (to_string (Fin (n + 1))).
Proof.
  intros Hcell Htext Hn.
  destruct (simulateVisitUpdate_result st cell Hcell) as [Hs Hd].
  assert (Hparse : parseInt (shown cell) = Fin n).
  { unfold shown. destruct Htext as [Ht|[Ht ->]].
    - destruct (parseInt_to_string n) as [Hp Hne]; [lia|].
      rewrite Ht. destruct (to_string (Fin n)); [congruence | exact Hp].
    - rewrite Ht. reflexivity. }
  rewrite Hparse, add_one in Hs, Hd by lia.
  split; [exact Hs|].
  unfold getElementById in Hd. rewrite Hd. reflexivity.
Qed.

Lemma visit_counter_follows_the_cell_witness :
  let st :=
    updateTotalVisits number to_string (Fin 12)
      {| patientData := initialPatientData; document := completeDocument;
         console := [] |} in
  totalVisits (patientData (simulateVisitUpdate st)) = Fin (12 + 1)
  /\ option_map textContent
                (document (simulateVisitUpdate st) "total-visits")
     = Some (to_string (Fin (12 + 1))).
Proof.
  cbv zeta.
  apply (visit_counter_follows_the_cell _
           {| textContent := "12"; childNodes := [] |} 12).
  - reflexivity.
  - left. reflexivity.
  - lia.
Defined.

(** Once the cell shows text that does not start with a number, the visit
    counter is lost for good: the first simulated visit stores NaN and
    writes "NaN" into the cell, and every later one reads that back. *)
Theorem visit_counter_stuck_at_NaN
        (st : page number) (cell : Element) (rounds : nat) :
  getElementById (document st) "total-visits" = Some cell ->
  parseInt (shown cell) = NaN ->
  let st' := Nat.iter (S rounds) simulateVisitUpdate st in
  totalVisits (patientData st') = NaN
  /\ option_map textContent (document st' "total-visits") = Some "NaN".
Proof.
  intros Hcell Hnan. cbv zeta.
  assert (Hstep : forall (x : page number) (c : Element),
             getElementById (document x) "total-visits" = Some c ->
             parseInt (shown c) = NaN ->
             totalVisits (patientData (simulateVisitUpdate x)) = NaN
             /\ getElementById (document (simulateVisitUpdate x))
                               "total-visits"
                = Some (setTextContent "NaN" c)).
  { intros x c Hc Hp.
    destruct (simulateVisitUpdate_result x c Hc) as [Hs Hd].
    rewrite Hp in Hs, Hd. exact (conj Hs Hd). }
  induction rounds as [|rounds IH].
  - destruct (Hstep st cell Hcell Hnan) as [Hs Hd]. simpl.
    split; [exact Hs|]. unfold getElementById in Hd. rewrite Hd. reflexivity.
  - destruct IH as [_ IHd].
    set (x := Nat.iter (S rounds) simulateVisitUpdate st) in *.
    destruct (document x "total-visits") as [c|] eqn:Ec; [|discriminate].
    simpl in IHd. injection IHd as IHd.
    assert (Hp : parseInt (shown c) = NaN)
      by (unfold shown; rewrite IHd; reflexivity).
    destruct (Hstep x c Ec Hp) as [Hs Hd].
    change (Nat.iter (S (S rounds)) simulateVisitUpdate st)
      with (simulateVisitUpdate x).
    split; [exact Hs|]. unfold getElementById in Hd. rewrite Hd. reflexivity.
Qed.

Lemma visit_counter_stuck_at_NaN_witness :
  let st :=
    {| patientData := initialPatientData;
       document :=
         setElement completeDocument "total-visits"
                    {| textContent := "twelve"; childNodes := [] |};
       console := [] |} in
  let st' := Nat.iter 3 simulateVisitUpdate st in
  totalVisits (patientData st') = NaN
  /\ option_map textContent (document st' "total-visits") = Some "NaN".
Proof.
  cbv zeta.
  apply (visit_counter_stuck_at_NaN _
           {| textContent := "twelve"; childNodes := [] |} 2);
    reflexivity.
Defined.

End VisitCounter.

(* ================================================================== *)
(** ** The dashboard's panels                                          *)
(* ================================================================== *)

Section Panels.
Import DashboardServer.

(** [DashboardUI] on a page that has its four elements: each of its three
    methods returns, leaves exactly one of the three panels displayed and
    sets the matching status.  The window's message listener is the
    exception: once [showError] has put up the error panel, a
    "copilot-ready" message displays the iframe next to it while the
    status still reads "Disconnected"; a message of any other type changes
    nothing.  On a page that lacks one of the four elements, each of the
    three methods throws. *)
Theorem DashboardUI_one_panel_until_ready_signal (p : panels) :
  (all_found p = true ->
   (fst (showLoading p) = Returns tt
    /\ visible (snd (showLoading p)) = ["loading-state"]
    /\ status_shown (snd (showLoading p)) = Some "Connecting...")
   /\ (fst (showConnected p) = Returns tt
       /\ visible (snd (showConnected p)) = ["copilot-iframe"]
       /\ status_shown (snd (showConnected p)) = Some "Connected")
   /\ (fst (showError p) = Returns tt
       /\ visible (snd (showError p)) = ["error-state"]
       /\ status_shown (snd (showError p)) = Some "Disconnected")
   /\ (let after := onMessage (Str "copilot-ready") (snd (showError p)) in
       visible after = ["copilot-iframe"; "error-state"]
       /\ status_shown after = Some "Disconnected"))
  /\ (forall data_type : value,
         is_type "copilot-ready" data_type = false ->
         onMessage data_type p = p)
  /\ (all_found p = false ->
      fst (showLoading p) = Throws "TypeError"
      /\ fst (showConnected p) = Throws "TypeError"
      /\ fst (showError p) = Throws "TypeError").
Proof.
  split; [|split].
  - destruct p as [[i|] [l|] [e|] [s|]]; intros H; try discriminate H.
    cbv zeta. repeat split.
  - intros data_type H. unfold onMessage. rewrite H. reflexivity.
  - destruct p as [[i|] [l|] [e|] [s|]]; intros H; try discriminate H;
      repeat split.
Qed.

End Panels.

(* ================================================================== *)
(** ** The tools of the dashboard's server                             *)
(* ================================================================== *)

Section Tools.
Import Dashboard DashboardPage DashboardServer.

Lemma on_page_same (f : page number -> page number) (sc : screen number) :
  f (page_of sc) = page_of sc -> on_page number f sc = sc.
Proof.
  intros H. destruct sc as [st a m d]. unfold on_page. simpl in *.
  rewrite H. reflexivity.
Qed.

Lemma addMedication_patientData (medication : Medication)
      (sc : screen number) :
  patientData (page_of (addMedication number medication sc))
  = set_medications number
      (medications (patientData (page_of sc)) ++ [medication])%list
      (patientData (page_of sc)).
Proof.
  unfold addMedication.
  set (x := {| page_of := _; allergyItemsHTML := _;
               medicationsListHTML := _; medicationsSectionDisplay := _ |}).
  destruct (updateMedicationsDisplay_page number x) as (Hp & _ & _).
  cbn [on_page page_of]. unfold console_log. cbn [patientData].
  rewrite addMedicalHistoryEntry_patientData, Hp. reflexivity.
Qed.

(** The vital-sign tools answer from the call, not from the page.  On
    arguments that the input schema admits, with the dashboard on the
    window and the cell missing, the tool reports a successful update
    although nothing at all has changed; with the cell there the reading is
    in the store; without the dashboard the answer is the error text that
    names the missing object, and nothing changes.  Arguments outside the
    schema (systolic 50 to 300, diastolic 30 to 200, blood sugar 20 to 600)
    never reach the callback: the call is refused and nothing changes. *)
Theorem vital_sign_tools_report_success_without_cell (sc : screen number) :
  (forall systolic diastolic : number,
      number_between 50 300 systolic = true ->
      number_between 30 200 diastolic = true ->
      (getElementById (document (page_of sc)) "last-bp" = None ->
       updateBloodPressure_tool WithDashboard systolic diastolic sc
       = (Content [ {| type := "text";
                       text := bloodPressure_updated systolic diastolic |} ],
          sc))
      /\ (forall cell : Element,
             getElementById (document (page_of sc)) "last-bp" = Some cell ->
             let answer :=
               updateBloodPressure_tool WithDashboard systolic diastolic sc in
             fst answer
             = Content [ {| type := "text";
                            text := bloodPressure_updated systolic
                                                          diastolic |} ]
             /\ bloodPressure (patientData (page_of (snd answer)))
                = {| Dashboard.systolic := systolic;
                     Dashboard.diastolic := diastolic |})
      /\ updateBloodPressure_tool WithoutDashboard systolic diastolic sc
         = (Content [ {| type := "text";
                         text := bloodPressure_error
                           "patientDashboard not available on window object"
                      |} ], sc))
  /\ (forall value : number,
         number_between 20 600 value = true ->
         (getElementById (document (page_of sc)) "last-sugar" = None ->
          updateBloodSugar_tool WithDashboard value sc
          = (Content [ {| type := "text";
                          text := bloodSugar_updated value |} ], sc))
         /\ (forall cell : Element,
                getElementById (document (page_of sc)) "last-sugar"
                = Some cell ->
                let answer := updateBloodSugar_tool WithDashboard value sc in
                fst answer
                = Content [ {| type := "text";
                               text := bloodSugar_updated value |} ]
                /\ bloodSugar (patientData (page_of (snd answer))) = value)
         /\ updateBloodSugar_tool WithoutDashboard value sc
            = (Content [ {| type := "text";
                            text := bloodSugar_error
                              "patientDashboard not available on window object"
                         |} ], sc))
  /\ (forall (w : window) (systolic diastolic : number),
         number_between 50 300 systolic = false
         \/ number_between 30 200 diastolic = false ->
         updateBloodPressure_tool w systolic diastolic sc
         = (InvalidParams, sc))
  /\ (forall (w : window) (value : number),
         number_between 20 600 value = false ->
         updateBloodSugar_tool w value sc = (InvalidParams, sc))
  /\ (forall z : Z,
         number_between 50 300 (Fin z) = true <-> 50 <= z <= 300).
Proof.
  split; [|split; [|split; [|split]]].
  - intros systolic diastolic Hs Hd.
    unfold updateBloodPressure_tool. rewrite Hs, Hd. cbn [andb].
    unfold updateBloodPressure_handler,
      PatientDashboardService.updateBloodPressure, callDashboardFunction.
    cbn [existsb patientDashboard String.eqb Ascii.eqb Bool.eqb orb].
    split; [|split].
    + intros H. rewrite on_page_same; [reflexivity|].
      unfold updateBloodPressure. rewrite H. reflexivity.
    + intros cell H. cbv zeta. cbn [fst snd on_page page_of].
      split; [reflexivity|].
      unfold updateBloodPressure. rewrite H.
      rewrite addMedicalHistoryEntry_patientData. reflexivity.
    + reflexivity.
  - intros value Hv.
    unfold updateBloodSugar_tool. rewrite Hv.
    unfold updateBloodSugar_handler,
      PatientDashboardService.updateBloodSugar, callDashboardFunction.
    cbn [existsb patientDashboard String.eqb Ascii.eqb Bool.eqb orb].
    split; [|split].
    + intros H. rewrite on_page_same; [reflexivity|].
      unfold updateBloodSugar. rewrite H. reflexivity.
    + intros cell H. cbv zeta. cbn [fst snd on_page page_of].
      split; [reflexivity|].
      unfold updateBloodSugar. rewrite H.
      rewrite addMedicalHistoryEntry_patientData. reflexivity.
    + reflexivity.
  - intros w systolic diastolic [H|H]; unfold updateBloodPressure_tool;
      rewrite H; rewrite ?andb_false_r; reflexivity.
  - intros w value H. unfold updateBloodSugar_tool. rewrite H. reflexivity.
  - intros z. unfold number_between, gt, lt.
    rewrite andb_true_iff, !negb_true_iff, !Z.ltb_ge. tauto.
Qed.

Example updateBloodPressure_tool_refuses_30_over_85 :
  updateBloodPressure_tool WithDashboard (Fin 30) (Fin 85)
                           (initialScreen completeDocument)
  = (InvalidParams, initialScreen completeDocument).
Proof. reflexivity. Qed.

Example updateBloodPressure_tool_stores_130_over_85 :
  bloodPressure
    (patientData
       (page_of
          (snd (updateBloodPressure_tool WithDashboard (Fin 130) (Fin 85)
                  (initialScreen completeDocument)))))
  = {| Dashboard.systolic := Fin 130; Dashboard.diastolic := Fin 85 |}.
Proof. reflexivity. Qed.

(** The medication tool stores what it is given: with the dashboard on the
    window the stored list gains the medication at its end, dated "Today"
    when no date is passed and with the date passed otherwise, an empty one
    included, and the answer names that date.  Without the dashboard the
    answer is the error text and nothing changes. *)
Theorem addMedication_tool_defaults_to_today
        (name dosage frequency : string) (prescribed : option string)
        (sc : screen number) :
  let date := match prescribed with Some d => d | None => "Today" end in
  let answer :=
    addMedication_tool WithDashboard name dosage frequency prescribed sc in
  fst answer
  = [ {| type := "text";
         text := medication_added name dosage frequency date |} ]
  /\ medications (patientData (page_of (snd answer)))
     = (medications (patientData (page_of sc))
        ++ [ {| medication_name := name; Dashboard.dosage := dosage;
                Dashboard.frequency := frequency;
                prescribedDate := date |} ])%list
  /\ addMedication_tool WithoutDashboard name dosage frequency prescribed sc
     = ([ {| type := "text";
             text := medication_error
               "patientDashboard not available on window object" |} ], sc).
Proof.
  cbv zeta. split; [|split].
  - reflexivity.
  - unfold addMedication_tool, PatientDashboardService.addMedication,
      callDashboardFunction.
    cbn [existsb patientDashboard String.eqb Ascii.eqb Bool.eqb orb fst snd].
    rewrite addMedication_patientData. reflexivity.
  - reflexivity.
Qed.

End Tools.

(* ================================================================== *)
(** ** The copilot's chat interface                                    *)
(* ================================================================== *)

Section Chat.
Import Copilot.

Lemma is_blank_trim_start (s : string) :
  is_blank (trim_start s) = is_blank s.
Proof.
  induction s as [|c rest IH]; [reflexivity|].
  simpl. destruct (is_white_space c) eqn:E; simpl.
  - exact IH.
  - rewrite E. reflexivity.
Qed.

Lemma trim_end_blank (s : string) :
  trim_end s = "" <-> is_blank s = true.
Proof.
  induction s as [|c rest IH]; simpl; [tauto|].
  destruct (trim_end rest) as [|k kept] eqn:E.
  - destruct IH as [IH _]. rewrite (IH eq_refl), andb_true_r.
    destruct (is_white_space c); split; congruence.
  - destruct (is_blank rest) eqn:B.
    + destruct IH as [_ IH]. discriminate (IH eq_refl).
    + rewrite andb_false_r. split; discriminate.
Qed.

Lemma trim_blank (s : string) : trim s = "" <-> is_blank s = true.
Proof.
  unfold trim. rewrite trim_end_blank, is_blank_trim_start. tauto.
Qed.

Lemma trim_end_idempotent (s : string) : trim_end (trim_end s) = trim_end s.
Proof.
  induction s as [|c rest IH]; [reflexivity|].
  simpl. destruct (trim_end rest) as [|k kept] eqn:E.
  - destruct (is_white_space c) eqn:W; [reflexivity|].
    simpl. rewrite W. reflexivity.
  - simpl. simpl in IH. rewrite IH. reflexivity.
Qed.

Lemma trim_start_fixed (c : ascii) (rest : string) :
  is_white_space c = false ->
  trim_start (trim_end (String c rest)) = trim_end (String c rest).
Proof.
  intros W. simpl. destruct (trim_end rest); rewrite ?W; simpl;
    rewrite ?W; reflexivity.
Qed.

Lemma trim_start_head (s : string) :
  trim_start s = ""
  \/ exists c rest, trim_start s = String c rest /\ is_white_space c = false.
Proof.
  induction s as [|c rest IH]; [left; reflexivity|].
  simpl. destruct (is_white_space c) eqn:W; [exact IH|].
  right. exists c, rest. split; [reflexivity | exact W].
Qed.

Lemma trim_idempotent (s : string) : trim (trim s) = trim s.
Proof.
  unfold trim. destruct (trim_start_head s) as [->|(c & rest & -> & W)].
  - reflexivity.
  - rewrite trim_start_fixed by exact W. apply trim_end_idempotent.
Qed.

(** [sendMessage] sends what is in the input only if that is more than
    white space and the input is enabled; otherwise it does nothing at
    all.  What it sends is the trimmed text: one "user" message at the end
    of the list, the input emptied, and the same text handed to the
    application when there is one. *)
Theorem sendMessage_needs_text_and_enabled_input
        (now scrollHeight : Z) (app : bool) (u : ChatUI) :
  (is_blank (inputValue u) = true \/ inputDisabled u = true ->
   sendMessage now scrollHeight app u = (u, None))
  /\ (is_blank (inputValue u) = false -> inputDisabled u = false ->
      let sent := trim (inputValue u) in
      let u' := fst (sendMessage now scrollHeight app u) in
      messages u'
      = (messages u
         ++ [ {| id := to_string (Fin now); type := user; content := sent;
                 timestamp := now |} ])%list
      /\ inputValue u' = ""
      /\ snd (sendMessage now scrollHeight app u)
         = (if app then Some sent else None)
      /\ sent <> "" /\ trim sent = sent).
Proof.
  split.
  - intros [B|D]; unfold sendMessage, getCurrentInput.
    + apply trim_blank in B. rewrite B. reflexivity.
    + rewrite D. destruct (trim (inputValue u)); reflexivity.
  - intros B D. cbv zeta.
    assert (Hne : trim (inputValue u) <> "").
    { intros E. apply trim_blank in E. congruence. }
    unfold sendMessage, getCurrentInput. rewrite D.
    pose proof (trim_idempotent (inputValue u)) as Hidem.
    destruct (trim (inputValue u)) as [|c rest] eqn:E; [congruence|].
    repeat split; [discriminate | exact Hidem].
Qed.

Lemma perform_all_app (before after : list action) (u : ChatUI) :
  perform_all (before ++ after) u = perform_all after (perform_all before u).
Proof. unfold perform_all. apply fold_left_app. Qed.

Lemma sendMessage_cases (now scrollHeight : Z) (app : bool) (u : ChatUI) :
  fst (sendMessage now scrollHeight app u) = u
  \/ exists text,
       fst (sendMessage now scrollHeight app u)
       = clearInput scrollHeight (snd (addMessage now user text u)).
Proof.
  unfold sendMessage. destruct (trim (getCurrentInput u)) as [|c rest].
  - left. reflexivity.
  - destruct (inputDisabled u); [left; reflexivity|].
    right. eexists. reflexivity.
Qed.

Lemma perform_log (act : action) (u : ChatUI) :
  exists added,
    messages (perform act u) = (messages u ++ added)%list
    /\ messageContainer (perform act u)
       = (messageContainer u ++ map element_of added)%list.
Proof.
  destruct act; simpl;
    try (exists []; rewrite !app_nil_r; split; reflexivity);
    try (eexists [_]; split; reflexivity).
  destruct (sendMessage_cases now scrollHeight app u) as [->|(text & ->)].
  - exists []. rewrite !app_nil_r. split; reflexivity.
  - eexists [_]. split; reflexivity.
Qed.

Lemma perform_all_log (acts : list action) (u : ChatUI) :
  exists added,
    messages (perform_all acts u) = (messages u ++ added)%list
    /\ messageContainer (perform_all acts u)
       = (messageContainer u ++ map element_of added)%list.
Proof.
  revert u. induction acts as [|act rest IH]; intros u.
  - exists []. rewrite !app_nil_r. split; reflexivity.
  - change (perform_all (act :: rest) u)
      with (perform_all rest (perform act u)).
    destruct (perform_log act u) as (a1 & Hm1 & Hc1).
    destruct (IH (perform act u)) as (a2 & Hm2 & Hc2).
    exists (a1 ++ a2)%list. rewrite Hm2, Hc2, Hm1, Hc1.
    rewrite map_app, !app_assoc. split; reflexivity.
Qed.

(** The chat log on the page follows the list of messages: whatever the
    interface is made to do, messages are only ever added at the end, none
    is dropped or reordered, and the container gains exactly one [div] for
    each, in the same order, with the class and the text of its message. *)
Theorem chat_log_follows_messages (acts : list action) (u : ChatUI) :
  messageContainer u = map element_of (messages u) ->
  messageContainer (perform_all acts u)
  = map element_of (messages (perform_all acts u))
  /\ exists added,
       messages (perform_all acts u) = (messages u ++ added)%list.
Proof.
  intros H. destruct (perform_all_log acts u) as (added & Hm & Hc).
  split; [|exists added; exact Hm].
  rewrite Hc, Hm, map_app, H. reflexivity.
Qed.

Lemma chat_log_follows_messages_witness :
  messageContainer
    (perform_all [ShowConnected; Input " hello " 24; SendMessage 5 24 true]
                 newChatUI)
  = map element_of
        (messages
           (perform_all
              [ShowConnected; Input " hello " 24; SendMessage 5 24 true]
              newChatUI))
  /\ exists added,
       messages
         (perform_all [ShowConnected; Input " hello " 24; SendMessage 5 24 true]
                      newChatUI)
       = (messages newChatUI ++ added)%list.
Proof.
  apply (chat_log_follows_messages
           [ShowConnected; Input " hello " 24; SendMessage 5 24 true]
           newChatUI).
  reflexivity.
Defined.

Lemma show_establishes (act : action) (u : ChatUI) :
  is_show act = true -> status_agrees (perform act u).
Proof.
  destruct act; try discriminate; intros _; unfold status_agrees; simpl;
    repeat split; try discriminate; try reflexivity; auto;
    intros [H|H]; discriminate H.
Qed.

Lemma perform_keeps_agreement (act : action) (u : ChatUI) :
  status_agrees u -> status_agrees (perform act u).
Proof.
  intros H.
  destruct (is_show act) eqn:S; [apply show_establishes, S|].
  destruct act; try discriminate S; try exact H.
  simpl. destruct (sendMessage_cases now scrollHeight app u) as [->|(t & ->)];
    exact H.
Qed.

Lemma perform_all_keeps_agreement (acts : list action) (u : ChatUI) :
  status_agrees u -> status_agrees (perform_all acts u).
Proof.
  revert u. induction acts as [|act rest IH]; intros u H; [exact H|].
  apply (IH (perform act u)), perform_keeps_agreement, H.
Qed.

(** Once a [show...] method has run, the controls and the status badge
    agree, whatever the interface is made to do afterwards: the input and
    the send button are disabled together, the quick actions are shown
    exactly while they are enabled, and that is exactly while the badge
    reads "Connected" or "Connected (OpenAI)"; the connection error is on
    display exactly under "Disconnected", the welcome text exactly under
    "Connecting...". *)
Theorem controls_follow_status
        (before after : list action) (show : action) (u : ChatUI) :
  is_show show = true ->
  let u' := perform_all (before ++ show :: after) u in
  inputDisabled u' = sendDisabled u'
  /\ quickActionsDisplay u' = (if inputDisabled u' then "none" else "flex")
  /\ (connectionErrorDisplay u' = "block" <-> statusText u' = "Disconnected")
  /\ (welcomeDisplay u' = "block" <-> statusText u' = "Connecting...")
  /\ (inputDisabled u' = false
      <-> statusText u' = "Connected" \/ statusText u' = "Connected (OpenAI)").
Proof.
  intros S. cbv zeta. rewrite perform_all_app.
  change (perform_all (show :: after) (perform_all before u))
    with (perform_all after (perform show (perform_all before u))).
  apply perform_all_keeps_agreement, show_establishes, S.
Qed.

Lemma controls_follow_status_witness :
  status_agrees
    (perform_all
       ([Input "x" 20] ++ ShowDisconnected :: [AddMessage 1 system "s"])
       newChatUI).
Proof.
  exact (controls_follow_status
           [Input "x" 20] [AddMessage 1 system "s"] ShowDisconnected
           newChatUI eq_refl).
Defined.

End Chat.

(* ================================================================== *)
(** ** The copilot's settings and connection                           *)
(* ================================================================== *)

Section Application.
Import Copilot.

(** Saving a key and reading it back: a key that is more than white space
    is stored trimmed, is from then on what [getOpenAIApiKey] returns,
    ahead of the address and of the global variable, and is what the panel
    shows when it is opened again; saving white space removes the stored
    key, so that the address and the global variable decide.  Either way
    the panel is closed, and the copilot is told to start again only for a
    new key. *)
Theorem saved_api_key_is_read_back
        (app : bool) (urlKey envKey : option string) (p : ConfigPage)
        (value : string) :
  api_key_input p = Some value ->
  let p' := fst (saveApiKey app p) in
  (is_blank value = false ->
   getOpenAIApiKey urlKey envKey p' = Some (trim value)
   /\ snd (saveApiKey app p) = app
   /\ (config_panel p <> None ->
       api_key_input (showConfig p') = Some (trim value)))
  /\ (is_blank value = true ->
      openai_api_key p' = None
      /\ getOpenAIApiKey urlKey envKey p'
         = match truthy urlKey with
           | Some key => Some key
           | None => truthy envKey
           end
      /\ snd (saveApiKey app p) = false)
  /\ config_panel p' = option_map (fun _ => "none") (config_panel p).
Proof.
  intros Hin. cbv zeta. unfold saveApiKey. rewrite Hin.
  split; [|split].
  - intros B.
    assert (Hne : trim value <> "").
    { intros E. apply trim_blank in E. congruence. }
    destruct (trim value) as [|c rest] eqn:E; [congruence|].
    destruct p as [k [d|] i]; simpl in *; subst i; repeat split;
      try reflexivity; intros H; congruence.
  - intros B. apply trim_blank in B. rewrite B.
    destruct p as [k [d|] i]; repeat split.
  - destruct (trim value); destruct p as [k [d|] i]; reflexivity.
Qed.

Lemma saved_api_key_is_read_back_witness :
  getOpenAIApiKey (Some "from-url") None
    (fst (saveApiKey true
            {| openai_api_key := None; config_panel := Some "flex";
               api_key_input := Some " sk-1 " |}))
  = Some "sk-1".
Proof.
  exact (proj1 (proj1 (saved_api_key_is_read_back
                         true (Some "from-url") None
                         {| openai_api_key := None;
                            config_panel := Some "flex";
                            api_key_input := Some " sk-1 " |}
                         " sk-1 " eq_refl) eq_refl)).
Defined.

(** [disconnect] when the transport closes, or when there is none: the
    client and the transport are dropped and the interface shows
    "Disconnected" with its input disabled; a second call closes nothing
    and changes nothing.  When closing fails or never ends, the call stops
    there: the application keeps its client and its transport, and the
    interface shows what it showed. *)
Theorem disconnect_stops_at_failed_close
        (close again : outcome unit) (a : CopilotApp) :
  (transport a = false \/ close = Resolved tt ->
   let a' := snd (disconnect close a) in
   fst (disconnect close a) = (Resolved tt, transport a)
   /\ client a' = false /\ transport a' = false
   /\ statusText (ui a') = "Disconnected"
   /\ inputDisabled (ui a') = true
   /\ disconnect again a' = (Resolved tt, false, a'))
  /\ (transport a = true -> close <> Resolved tt ->
      snd (disconnect close a) = a
      /\ fst (disconnect close a) = (close, true)).
Proof.
  split.
  - intros H. cbv zeta. unfold disconnect.
    destruct (transport a) eqn:T.
    + destruct H as [H | ->]; [discriminate H|]. repeat split.
    + repeat split.
  - intros T Hc. unfold disconnect. rewrite T.
    destruct close as [ [] | e | ]; [congruence| |]; split; reflexivity.
Qed.


Lemma detectIntentAndCallTool_never_rejects
      (listTools : outcome (list Tool)) (remote : remote_tool)
      (a : CopilotApp) (message : string) (e : option string) :
  detectIntentAndCallTool listTools remote a message <> Rejected e.
Proof.
  unfold detectIntentAndCallTool.
  destruct (client a); [|discriminate].
  destruct listTools as [tools|e'|]; try discriminate.
  destruct (first_intent tools message) as [toolName args|text|];
    try discriminate.
  destruct (callTool remote a toolName args); discriminate.
Qed.

Lemma help_text_nonempty (availableToolsText : string) :
  help_text availableToolsText <> "".
Proof. unfold help_text. simpl. discriminate. Qed.

Lemma processWithRules_answers
      (listTools listToolsAgain : outcome (list Tool)) (remote : remote_tool)
      (a : CopilotApp) (message : string) :
  processWithRules listTools listToolsAgain remote a message = Pending
  \/ exists text,
       processWithRules listTools listToolsAgain remote a message
       = Resolved text /\ text <> "".
Proof.
  unfold processWithRules.
  set (default := match getToolsInformation listToolsAgain a with
                  | Resolved t => Resolved (help_text t)
                  | Rejected e => Rejected e
                  | Pending => Pending
                  end).
  assert (Hd : default = Pending
               \/ exists text, default = Resolved text /\ text <> "").
  { unfold default, getToolsInformation.
    destruct (client a).
    - destruct listToolsAgain as [tools|e|].
      + right. eexists. split; [reflexivity | apply help_text_nonempty].
      + right. eexists. split; [reflexivity | apply help_text_nonempty].
      + left. reflexivity.
    - right. eexists. split; [reflexivity | apply help_text_nonempty]. }
  destruct (detectIntentAndCallTool listTools remote a (toLowerCase message))
    as [[[|c rest]|]|e|] eqn:E.
  - exact Hd.
  - right. eexists. split; [reflexivity | discriminate].
  - exact Hd.
  - exfalso. exact (detectIntentAndCallTool_never_rejects _ _ _ _ _ E).
  - left. reflexivity.
Qed.

(** Without OpenAI a message is never answered with the error message:
    whatever the tools of the server are and however its calls end, either
    the answer is still awaited and the typing indicator is on, or exactly
    one "assistant" message with a text that is not empty has been added
    and the indicator is off. *)
Theorem rules_never_answer_with_error
        (now : Z) (withOpenAI : outcome string)
        (listTools listToolsAgain : outcome (list Tool))
        (remote : remote_tool) (a : CopilotApp) (message : string) :
  openai a = false ->
  let response :=
    processUserMessage withOpenAI listTools listToolsAgain remote a message in
  let a' := handleUserMessage now response a in
  (response = Pending
   /\ messages (ui a') = messages (ui a)
   /\ typingDisplay (ui a') = "block")
  \/ (exists text,
         text <> "" /\ response = Resolved text
         /\ messages (ui a')
            = (messages (ui a) ++ [message_at now assistant text])%list
         /\ typingDisplay (ui a') = "none").
Proof.
  intros O. cbv zeta. unfold processUserMessage. rewrite O.
  destruct (processWithRules_answers listTools listToolsAgain remote a
                                     message) as [->|(text & -> & Hne)].
  - left. repeat split.
  - right. exists text. repeat split. exact Hne.
Qed.

Lemma rules_never_answer_with_error_witness :
  (processUserMessage Pending (Resolved []) (Resolved [])
                      (fun _ _ => Pending) newCopilotApp "hello" = Pending
   /\ messages (ui (handleUserMessage 7
                      (processUserMessage Pending (Resolved []) (Resolved [])
                         (fun _ _ => Pending) newCopilotApp "hello")
                      newCopilotApp))
      = messages (ui newCopilotApp)
   /\ typingDisplay
        (ui (handleUserMessage 7
               (processUserMessage Pending (Resolved []) (Resolved [])
                  (fun _ _ => Pending) newCopilotApp "hello")
               newCopilotApp)) = "block")
  \/ (exists text,
         text <> ""
         /\ processUserMessage Pending (Resolved []) (Resolved [])
              (fun _ _ => Pending) newCopilotApp "hello" = Resolved text
         /\ messages (ui (handleUserMessage 7
                            (processUserMessage Pending (Resolved [])
                               (Resolved []) (fun _ _ => Pending)
                               newCopilotApp "hello")
                            newCopilotApp))
            = (messages (ui newCopilotApp)
               ++ [message_at 7 assistant text])%list
         /\ typingDisplay
              (ui (handleUserMessage 7
                     (processUserMessage Pending (Resolved []) (Resolved [])
                        (fun _ _ => Pending) newCopilotApp "hello")
                     newCopilotApp)) = "none").
Proof.
  exact (rules_never_answer_with_error
           7 Pending (Resolved []) (Resolved []) (fun _ _ => Pending)
           newCopilotApp "hello" eq_refl).
Defined.

(** A connection that fails still shows "Connected": when preparing the
    transport or connecting the client is rejected, [initialize] ends with
    neither client nor transport, yet with the badge on "Connected", the
    input enabled and no connection error on display; the list has gained
    the limited-mode notice and the error with its message.  From then on,
    unless OpenAI is set up, every message gets the same help text, which
    says that no tools are available. *)
Theorem failed_connection_shows_connected
        (apiKey : option string) (prepare connect : outcome unit)
        (listTools : outcome (list Tool)) (now now' : Z) (a : CopilotApp)
        (e : option string) :
  prepare = Rejected e \/ (prepare = Resolved tt /\ connect = Rejected e) ->
  let a' := initialize apiKey prepare connect listTools now now' a in
  client a' = false /\ transport a' = false
  /\ statusText (ui a') = "Connected"
  /\ inputDisabled (ui a') = false
  /\ connectionErrorDisplay (ui a') = "none"
  /\ messages (ui a')
     = (messages (ui a)
        ++ [ message_at now system limited_mode;
             message_at now' error (connection_error e) ])%list
  /\ (openai a' = false ->
      forall (withOpenAI : outcome string)
             (tools toolsAgain : outcome (list Tool))
             (remote : remote_tool) (message : string),
        processUserMessage withOpenAI tools toolsAgain remote a' message
        = Resolved
            (help_text
               "No tools available - not connected to patient dashboard")).
Proof.
  intros H. cbv zeta.
  assert (Hi : initialize apiKey prepare connect listTools now now' a
               = initialize_failed now now' e
                   {| client := match prepare with
                                | Resolved _ => true
                                | _ => client a
                                end;
                      transport := true;
                      openai := match truthy apiKey with
                                | Some _ => true
                                | None => openai a
                                end;
                      ui := showConnecting (ui a);
                      availableTools := availableTools a |}).
  { destruct H as [->|[-> ->]]; reflexivity. }
  rewrite Hi. repeat split.
  - simpl. rewrite <- app_assoc. reflexivity.
  - intros O withOpenAI tools toolsAgain remote message.
    unfold processUserMessage. rewrite O. reflexivity.
Qed.

Lemma failed_connection_shows_connected_witness :
  statusText
    (ui (initialize None (Rejected (Some "timeout")) Pending Pending 1 2
                    newCopilotApp))
  = "Connected".
Proof.
  exact (proj1 (proj2 (proj2 (failed_connection_shows_connected
                                None (Rejected (Some "timeout")) Pending
                                Pending 1 2 newCopilotApp (Some "timeout")
                                (or_introl eq_refl))))).
Defined.

End Application.

(* ================================================================== *)
(** ** Readings taken from a message                                   *)
(* ================================================================== *)

Section Readings.
Import Copilot.

Lemma parseInt_numeral (ds : string) :
  valid_numeral ds = true -> digits_value 0 ds < 2 ^ 53 ->
  DashboardPage.parseInt ds = Fin (digits_value 0 ds).
Proof.
  intros Hds Hsafe. destruct ds as [|c ds]; [discriminate|].
  pose proof Hds as Hall. simpl in Hds.
  apply andb_true_iff in Hds as [Hc _].
  rewrite parseInt_as_radix_10.
  - rewrite parseInt10_digit_first by exact Hc. cbv zeta.
    rewrite leading_digits_all by exact Hall.
    pose proof (digits_value_nonneg (String c ds) 0 (Z.le_refl 0) Hall).
    destruct (Z.eqb_spec (digits_value 0 (String c ds)) 0) as [->|Hne];
      [reflexivity|].
    apply to_double_safe. lia.
  - simpl trim_start. rewrite (digit_not_white_space c Hc).
    destruct (digit_not_sign c ds Hc) as [-> _].
    apply digits_no_hex_prefix, Hall.
Qed.

Lemma digit_value_range (c : ascii) :
  is_digit c = true -> 0 <= digit_value c <= 9.
Proof.
  unfold is_digit, digit_value. intros H.
  apply andb_true_iff in H as [H1 H2].
  apply N.leb_le in H1. apply N.leb_le in H2. lia.
Qed.

(** A group of two or three digits, spelt out. *)
Lemma two_or_three_digits (g : string) :
  all_digits g = true -> (2 <= String.length g <= 3)%nat ->
  (exists a b, g = String a (String b "")
               /\ is_digit a = true /\ is_digit b = true)
  \/ (exists a b c, g = String a (String b (String c ""))
                    /\ is_digit a = true /\ is_digit b = true
                    /\ is_digit c = true).
Proof.
  intros H L. destruct g as [|a [|b [|c [|d g]]]]; simpl in L; try lia.
  - left. exists a, b. simpl in H.
    apply andb_true_iff in H as [Ha H]. apply andb_true_iff in H as [Hb _].
    auto.
  - right. exists a, b, c. simpl in H.
    apply andb_true_iff in H as [Ha H]. apply andb_true_iff in H as [Hb H].
    apply andb_true_iff in H as [Hc _]. auto.
Qed.

Lemma group_value (g : string) :
  all_digits g = true -> (2 <= String.length g <= 3)%nat ->
  DashboardPage.parseInt g = Fin (digits_value 0 g)
  /\ 0 <= digits_value 0 g < 1000.
Proof.
  intros H L.
  assert (B : 0 <= digits_value 0 g < 1000).
  { destruct (two_or_three_digits g H L)
      as [(a & b & -> & Ha & Hb)|(a & b & c & -> & Ha & Hb & Hc)];
      cbn [digits_value];
      pose proof (digit_value_range a Ha);
      pose proof (digit_value_range b Hb);
      try pose proof (digit_value_range c Hc); lia. }
  split; [|exact B].
  apply parseInt_numeral.
  - destruct g; [simpl in L; lia | exact H].
  - assert (1000 < 2 ^ 53) by reflexivity. lia.
Qed.

Lemma digits_2_3_group (g after : string) :
  all_digits g = true -> (2 <= String.length g <= 3)%nat ->
  starts_with_digit after = false ->
  exists others, digits_2_3 (g ++ after) = (g, after) :: others.
Proof.
  intros H L A.
  destruct (two_or_three_digits g H L)
    as [(a & b & -> & Ha & Hb)|(a & b & c & -> & Ha & Hb & Hc)];
    simpl; rewrite Ha, Hb; simpl.
  - destruct after as [|x after]; [eexists; reflexivity|].
    simpl in A. rewrite A. eexists. reflexivity.
  - rewrite Hc. eexists. reflexivity.
Qed.

Lemma separator_not_digit (c : ascii) :
  is_separator c = true -> is_digit c = false.
Proof.
  destruct c as [[] [] [] [] [] [] [] []]; try discriminate; reflexivity.
Qed.

Lemma digit_not_separator (c : ascii) :
  is_digit c = true -> is_separator c = false.
Proof.
  destruct c as [[] [] [] [] [] [] [] []]; try discriminate; reflexivity.
Qed.

Lemma separators_longest (sep text : string) :
  every is_separator sep = true -> sep <> "" ->
  starts_with_digit text = true ->
  exists others, separators (sep ++ text) = text :: others.
Proof.
  intros H Hne T.
  assert (Hnone : separators text = []).
  { destruct text as [|c text]; [reflexivity|]. simpl in *.
    rewrite (digit_not_separator c T). reflexivity. }
  induction sep as [|s sep IH]; [congruence|].
  simpl in H. apply andb_true_iff in H as [Hs H].
  simpl. rewrite Hs. destruct sep as [|s' sep].
  - simpl. rewrite Hnone. eexists. reflexivity.
  - destruct (IH H) as [others Ho]; [discriminate|].
    rewrite Ho. eexists. reflexivity.
Qed.

Lemma group_starts_with_digit (g rest : string) :
  all_digits g = true -> (2 <= String.length g)%nat ->
  starts_with_digit (g ++ rest) = true.
Proof.
  intros H L. destruct g as [|a g]; [simpl in L; lia|].
  simpl in *. apply andb_true_iff in H as [Ha _]. exact Ha.
Qed.

Lemma separators_start (sep rest : string) :
  every is_separator sep = true -> sep <> "" ->
  starts_with_digit (sep ++ rest) = false.
Proof.
  intros H Hne. destruct sep as [|s sep]; [congruence|].
  simpl in *. apply andb_true_iff in H as [Hs _].
  apply separator_not_digit, Hs.
Qed.

Lemma bp_at_groups (first sep second after : string) :
  all_digits first = true -> (2 <= String.length first <= 3)%nat ->
  every is_separator sep = true -> sep <> "" ->
  all_digits second = true -> (2 <= String.length second <= 3)%nat ->
  starts_with_digit after = false ->
  bp_at (first ++ sep ++ second ++ after) = Some (first, second).
Proof.
  intros H1 L1 Hs Hne H2 L2 A. unfold bp_at.
  destruct (digits_2_3_group first (sep ++ second ++ after) H1 L1)
    as [o1 ->]; [apply separators_start; assumption|].
  cbn [flat_map fst snd].
  destruct (separators_longest sep (second ++ after) Hs Hne) as [o2 ->];
    [apply group_starts_with_digit; [exact H2 | lia]|].
  cbn [flat_map].
  destruct (digits_2_3_group second after H2 L2 A) as [o3 ->].
  reflexivity.
Qed.

Lemma digits_2_3_lone (c : ascii) (rest : string) :
  is_digit c = false \/ starts_with_digit rest = false ->
  digits_2_3 (String c rest) = [].
Proof.
  intros H. simpl. destruct rest as [|b rest]; [reflexivity|].
  destruct H as [H|H]; simpl in H; rewrite H; rewrite ?andb_false_r;
    reflexivity.
Qed.

(** Text that holds no two digits in a row and does not end in a digit
    offers no place for a group to start, whatever comes after it. *)
Lemma no_group_starts (c : ascii) (before text : string) :
  has_digit_pair (String c before) = false ->
  ends_with_digit (String c before) = false ->
  digits_2_3 (String c (before ++ text)) = []
  /\ has_digit_pair before = false /\ ends_with_digit before = false.
Proof.
  intros P E. cbn [has_digit_pair] in P.
  apply orb_false_iff in P as [P1 P2].
  split; [|split; [exact P2|]].
  - apply digits_2_3_lone. apply andb_false_iff in P1 as [P1|P1].
    + left. exact P1.
    + destruct before as [|b before].
      * left. exact E.
      * right. exact P1.
  - destruct before as [|b before]; [reflexivity | exact E].
Qed.

Lemma bpMatch_skips (before text : string) :
  has_digit_pair before = false -> ends_with_digit before = false ->
  bpMatch (before ++ text)%string = bpMatch text.
Proof.
  induction before as [|c before IH]; intros P E; [reflexivity|].
  destruct (no_group_starts c before text P E) as (D & P' & E').
  change ((String c before ++ text)%string)
    with (String c (before ++ text)%string).
  cbn [bpMatch]. unfold bp_at at 1. rewrite D. cbn [flat_map hd_error].
  apply IH; assumption.
Qed.

Lemma bpMatch_at (text : string) (groups : string * string) :
  bp_at text = Some groups -> bpMatch text = Some groups.
Proof. intros H. destruct text; cbn [bpMatch]; rewrite H; reflexivity. Qed.

Lemma sugarMatch_skips (before text : string) :
  has_digit_pair before = false -> ends_with_digit before = false ->
  sugarMatch (before ++ text)%string = sugarMatch text.
Proof.
  induction before as [|c before IH]; intros P E; [reflexivity|].
  destruct (no_group_starts c before text P E) as (D & P' & E').
  change ((String c before ++ text)%string)
    with (String c (before ++ text)%string).
  cbn [sugarMatch]. rewrite D. cbn [hd_error].
  apply IH; assumption.
Qed.

Lemma sugarMatch_run (run after : string) :
  all_digits run = true -> (2 <= String.length run)%nat ->
  starts_with_digit after = false ->
  sugarMatch (run ++ after)%string = Some (substring 0 3 run)
  /\ all_digits (substring 0 3 run) = true
  /\ (2 <= String.length (substring 0 3 run) <= 3)%nat.
Proof.
  intros H L A. destruct run as [|a [|b [|c run]]]; simpl in L; try lia.
  - simpl in H. apply andb_true_iff in H as [Ha H].
    apply andb_true_iff in H as [Hb _].
    split; [|split; [simpl; rewrite Ha, Hb; reflexivity | simpl; lia]].
    simpl. rewrite Ha, Hb. simpl.
    destruct after as [|x after]; [reflexivity|].
    simpl in A. rewrite A. reflexivity.
  - simpl in H. apply andb_true_iff in H as [Ha H].
    apply andb_true_iff in H as [Hb H]. apply andb_true_iff in H as [Hc _].
    assert (E : substring 0 3 (String a (String b (String c run)))
                = String a (String b (String c ""))).
    { destruct run; reflexivity. }
    rewrite E. split; [|split].
    + simpl. rewrite Ha, Hb, Hc. reflexivity.
    + simpl. rewrite Ha, Hb, Hc. reflexivity.
    + simpl. lia.
Qed.

Lemma getMockToolResponse_nonempty (toolName : string) :
  getMockToolResponse toolName <> "".
Proof.
  unfold getMockToolResponse.
  repeat match goal with
         | |- context [if ?b then _ else _] => destruct b
         end; simpl; discriminate.
Qed.

Lemma callTool_answers (remote : remote_tool) (a : CopilotApp)
      (toolName : string) (args : arguments) :
  callTool remote a toolName args = Pending
  \/ exists text,
       callTool remote a toolName args = Resolved text /\ text <> "".
Proof.
  unfold callTool. destruct (client a).
  - destruct (remote toolName args) as [[[|[[|c t]|] items]|]|e|].
    + right. eexists. split; [reflexivity | discriminate].
    + right. eexists. split; [reflexivity | discriminate].
    + right. eexists. split; [reflexivity | discriminate].
    + right. eexists. split; [reflexivity | discriminate].
    + right. eexists. split; [reflexivity | discriminate].
    + right. eexists.
      split; [reflexivity | apply getMockToolResponse_nonempty].
    + left. reflexivity.
  - right. eexists.
    split; [reflexivity | apply getMockToolResponse_nonempty].
Qed.

Lemma processWithRules_calls
      (tools : list Tool) (listToolsAgain : outcome (list Tool))
      (remote : remote_tool) (a : CopilotApp) (message toolName : string)
      (args : arguments) :
  client a = true ->
  first_intent tools (toLowerCase message) = Call toolName args ->
  processWithRules (Resolved tools) listToolsAgain remote a message
  = callTool remote a toolName args.
Proof.
  intros C H. unfold processWithRules, detectIntentAndCallTool.
  rewrite C, H.
  destruct (callTool_answers remote a toolName args)
    as [->|(text & -> & Hne)]; [reflexivity|].
  destruct text; [congruence | reflexivity].
Qed.

(** Readings are taken from the message by position.  Let the text in
    front hold no two digits in a row and not end in a digit, so that what
    follows is the first run of two or more digits in the message; single
    digits may come before.  With a blood-pressure tool first in the
    server's list and a message that names blood pressure, two groups of
    two or three digits with slashes or white space between them have the
    tool called with exactly those two numbers.  With a blood-sugar tool
    first and a message that names blood sugar, the tool is called with
    that first run of digits, cut to its first three.  The answer is
    whatever the call gives. *)
Theorem readings_are_read_from_the_message
        (tool : Tool) (others : list Tool)
        (listToolsAgain : outcome (list Tool)) (remote : remote_tool)
        (a : CopilotApp) (message before after : string) :
  client a = true ->
  has_digit_pair before = false -> ends_with_digit before = false ->
  starts_with_digit after = false ->
  (forall first sep second : string,
      toLowerCase message = before ++ first ++ sep ++ second ++ after ->
      includes (toLowerCase (name tool)) "bloodpressure" = true ->
      any_of (toLowerCase message)
             ["blood pressure"; "bp"; "systolic"; "diastolic"] = true ->
      all_digits first = true -> (2 <= String.length first <= 3)%nat ->
      every is_separator sep = true -> sep <> "" ->
      all_digits second = true -> (2 <= String.length second <= 3)%nat ->
      processWithRules (Resolved (tool :: others)) listToolsAgain remote a
                       message
      = callTool remote a (name tool)
                 (BloodPressure (Fin (digits_value 0 first))
                                (Fin (digits_value 0 second))))
  /\ (forall run : string,
         toLowerCase message = before ++ run ++ after ->
         includes (toLowerCase (name tool)) "bloodpressure" = false ->
         includes (toLowerCase (name tool)) "bloodsugar" = true ->
         any_of (toLowerCase message)
                ["blood sugar"; "glucose"; "sugar level"] = true ->
         all_digits run = true -> (2 <= String.length run)%nat ->
         processWithRules (Resolved (tool :: others)) listToolsAgain remote a
                          message
         = callTool remote a (name tool)
                    (BloodSugar (Fin (digits_value 0 (substring 0 3 run))))).
Proof.
  intros C P E A. split.
  - intros first sep second M T K H1 L1 Hs Hne H2 L2.
    apply processWithRules_calls; [exact C|].
    cbn [first_intent]. unfold intent_of. rewrite T, K. cbn [andb].
    rewrite M, bpMatch_skips by assumption.
    rewrite (bpMatch_at _ (first, second))
      by (apply bp_at_groups; assumption).
    destruct (group_value first H1 L1) as [-> _].
    destruct (group_value second H2 L2) as [-> _].
    reflexivity.
  - intros run M T1 T2 K H L.
    apply processWithRules_calls; [exact C|].
    cbn [first_intent]. unfold intent_of. rewrite T1, T2, K. cbn [andb].
    rewrite M, sugarMatch_skips by assumption.
    destruct (sugarMatch_run run after H L A) as (-> & H3 & L3).
    destruct (group_value _ H3 L3) as [-> _].
    reflexivity.
Qed.

Lemma readings_are_read_from_the_message_witness :
  processWithRules
    (Resolved [ {| name := "updateBloodPressure"; description := None |} ])
    Pending
    (fun _ args =>
       match args with
       | BloodPressure (Fin 130) (Fin 85) => Resolved (Some [Some "stored"])
       | _ => Rejected None
       end)
    {| client := true; transport := true; openai := false;
       ui := newChatUI; availableTools := [] |}
    "Bed 5: update BP to 130/85 please"
  = Resolved "stored"
  /\ processWithRules
       (Resolved [ {| name := "updateBloodSugar"; description := None |} ])
       Pending
       (fun _ args =>
          match args with
          | BloodSugar (Fin 123) => Resolved (Some [Some "stored"])
          | _ => Rejected None
          end)
       {| client := true; transport := true; openai := false;
          ui := newChatUI; availableTools := [] |}
       "Bed 5: blood sugar 1234"
     = Resolved "stored".
Proof.
  split.
  - apply (proj1 (readings_are_read_from_the_message
                    {| name := "updateBloodPressure"; description := None |}
                    [] Pending
                    (fun _ args =>
                       match args with
                       | BloodPressure (Fin 130) (Fin 85) =>
                         Resolved (Some [Some "stored"])
                       | _ => Rejected None
                       end)
                    {| client := true; transport := true; openai := false;
                       ui := newChatUI; availableTools := [] |}
                    "Bed 5: update BP to 130/85 please"
                    "bed 5: update bp to " " please"
                    eq_refl eq_refl eq_refl eq_refl)
                 "130" "/" "85");
      try reflexivity; try discriminate; simpl; lia.
  - apply (proj2 (readings_are_read_from_the_message
                    {| name := "updateBloodSugar"; description := None |}
                    [] Pending
                    (fun _ args =>
                       match args with
                       | BloodSugar (Fin 123) =>
                         Resolved (Some [Some "stored"])
                       | _ => Rejected None
                       end)
                    {| client := true; transport := true; openai := false;
                       ui := newChatUI; availableTools := [] |}
                    "Bed 5: blood sugar 1234"
                    "bed 5: blood sugar " ""
                    eq_refl eq_refl eq_refl eq_refl)
                 "1234");
      try reflexivity; simpl; lia.
Defined.

End Readings.
